(** * Price-comparison scrapers: a shallow embedding and its properties

    The repository drives a headless browser through a search-and-extract
    flow on three shops (Flipkart, Amazon, Myntra), one scraper class and
    one controller function per shop.  This development embeds

    - the ECMAScript string and number operations the scrapers call:
      strings as lists of UTF-16 code units, Numbers as binary64 floats
      ([JS]);
    - the control flow of [scrapeProduct] and of the controllers as an
      exception monad that records the browser calls it makes, with
      [try]/[catch]/[finally] ([Effects]);
    - the three scrapers, each written as its file is: the filter over the
      results list, the extractor of the product page, the scrape and the
      controller ([Flipkart], [Amazon], [Myntra]).  The DOM is known through
      the answers to the queries the code makes;
    - the vocabulary of the statements ([Normalizer], [Listing]), concrete
      pages and browsers ([Samples]) and the wording of the specification
      where it differs from the code ([Stated]);
    - the handlers of the routes and the name unifier, on requests as the
      body and query parsers leave them ([Http], [Routes], [Unify]), with
      the vocabulary and the concrete inputs of their properties ([Text],
      [Trace], [Cases]);

    and then states and proves the properties C1 to C10 of the
    specification, and further properties X1 to X22 of the code. *)

From Stdlib Require Import ZArith NArith List Bool Lia String Ascii DecimalString.
From Stdlib Require Import PrimFloat SpecFloat FloatOps FloatAxioms.
Import ListNotations.
Open Scope bool_scope.
Open Scope list_scope.

(* ===================================================================== *)
(** * ECMAScript values                                                   *)
(* ===================================================================== *)

Module JS.

(** ** Strings

    An ECMAScript string is a sequence of UTF-16 code units; [length],
    [substring], character classes of a regular expression without the
    [u] flag, and [===] all work on code units. *)

Definition jsstring := list N.

(** A literal written with Basic Latin characters only: every character
    is one code unit with the value of its byte. *)
Definition lit (s : string) : jsstring :=
  map N_of_ascii (list_ascii_of_string s).

Fixpoint str_eqb (s t : jsstring) : bool :=
  match s, t with
  | [], [] => true
  | c :: s', d :: t' => N.eqb c d && str_eqb s' t'
  | _, _ => false
  end.

Definition char_in (cs : list N) (c : N) : bool := existsb (N.eqb c) cs.

Definition in_range (lo hi c : N) : bool := N.leb lo c && N.leb c hi.

(** [\d] *)
Definition is_digit (c : N) : bool := in_range 48 57 c.

(** LineTerminator: LF, CR, LS, PS. *)
Definition is_line_terminator (c : N) : bool := char_in [10; 13; 8232; 8233]%N c.

(** [\s], and the characters [trim] removes: WhiteSpace and LineTerminator. *)
Definition is_space (c : N) : bool :=
  char_in [9; 11; 12; 32; 160; 5760; 8239; 8287; 12288; 65279]%N c
  || in_range 8192 8202 c
  || is_line_terminator c.

Fixpoint trimStart (s : jsstring) : jsstring :=
  match s with
  | c :: s' => if is_space c then trimStart s' else s
  | [] => []
  end.

Definition trimEnd (s : jsstring) : jsstring := rev (trimStart (rev s)).

(** [s.trim()] *)
Definition trim (s : jsstring) : jsstring := trimEnd (trimStart s).

(** [s.replace(/[...]/g, '')] for a character class [cls]. *)
Definition remove_class (cls : N -> bool) (s : jsstring) : jsstring :=
  filter (fun c => negb (cls c)) s.

(** [s.replace(/\s+/g, ' ')]: every maximal run of white space becomes one
    space. *)
Fixpoint collapse_spaces (s : jsstring) : jsstring :=
  match s with
  | [] => []
  | c :: s' =>
      if is_space c then
        match s' with
        | d :: _ => if is_space d then collapse_spaces s' else 32%N :: collapse_spaces s'
        | [] => [32%N]
        end
      else c :: collapse_spaces s'
  end.

Fixpoint take_while (p : N -> bool) (s : jsstring) : jsstring :=
  match s with
  | c :: s' => if p c then c :: take_while p s' else []
  | [] => []
  end.

Fixpoint drop_while (p : N -> bool) (s : jsstring) : jsstring :=
  match s with
  | c :: s' => if p c then drop_while p s' else s
  | [] => []
  end.

(** [s.match(/[...]+/)]: the leftmost, longest run of characters of the
    class; [None] is the [null] of a failed match. *)
Definition match_class_run (cls : N -> bool) (s : jsstring) : option jsstring :=
  match drop_while (fun c => negb (cls c)) s with
  | [] => None
  | r => Some (take_while cls r)
  end.

Fixpoint startsWith (p s : jsstring) : bool :=
  match p, s with
  | [], _ => true
  | c :: p', d :: s' => N.eqb c d && startsWith p' s'
  | _ :: _, [] => false
  end.

(** [s.includes(p)] *)
Fixpoint includes (p s : jsstring) : bool :=
  startsWith p s ||
  match s with
  | [] => false
  | _ :: s' => includes p s'
  end.

(** [s.substring(0, n)] *)
Definition substring0 (n : nat) (s : jsstring) : jsstring := firstn n s.

(** [s.toLowerCase()].  Basic Latin capitals are mapped, and so are the two
    other code points whose lower case contains a Basic Latin letter
    (U+212A KELVIN SIGN, U+0130 LATIN CAPITAL LETTER I WITH DOT ABOVE);
    every other code unit is kept.  The scrapers only compare lowered text
    with Basic Latin literals, where this agrees with the Unicode mapping. *)
Definition lower_char (c : N) : list N :=
  if in_range 65 90 c then [(c + 32)%N]
  else if N.eqb c 8490 then [107%N]
  else if N.eqb c 304 then [105%N; 775%N]
  else [c].

Definition toLowerCase (s : jsstring) : jsstring := flat_map lower_char s.

(** Canonicalisation of the [i] flag (without [u]) on Basic Latin letters. *)
Definition fold_char (c : N) : N := if in_range 97 122 c then (c - 32)%N else c.

Fixpoint startsWith_ci (p s : jsstring) : bool :=
  match p, s with
  | [], _ => true
  | c :: p', d :: s' => N.eqb (fold_char c) (fold_char d) && startsWith_ci p' s'
  | _ :: _, [] => false
  end.

(** Truthiness of a nullable string: [null] and [''] are falsy. *)
Definition truthy_str (s : option jsstring) : bool :=
  match s with
  | Some (_ :: _) => true
  | _ => false
  end.

(** ** Numbers

    An ECMAScript Number is an IEEE 754 binary64 value, embedded as Rocq's
    primitive [float]; [+], [-], [*], [/] are the primitive operations. *)

Definition number := float.

(** Truthiness of a nullable number: [null], [NaN], [+0] and [-0] are
    falsy. *)
Definition truthy_num (x : option number) : bool :=
  match x with
  | Some v => negb (is_nan v || is_zero v)
  | None => false
  end.

(** A Number inside an object that [page.evaluate] returns.  The object
    leaves the page by value, written as JSON: [NaN] and the infinities
    arrive as [null], [-0] arrives as [0], every other Number as it is. *)
Definition json_number (v : number) : option number :=
  if is_nan v || is_infinity v then None
  else if is_zero v then Some zero
  else Some v.

Definition by_value (x : option number) : option number :=
  match x with
  | Some v => json_number v
  | None => None
  end.

Definition two52 : number := 4503599627370496%float.

(** The largest integral value not above [x]; for [|x| < 2^52] adding and
    subtracting [2^52] rounds [x] to an integer, which is then adjusted. *)
Definition floor (x : number) : number :=
  if is_nan x || is_infinity x || is_zero x then x
  else if (two52 <=? abs x)%float then x
  else
    let t := if (x <? 0)%float then ((x - two52) + two52)%float
             else ((x + two52) - two52)%float in
    if (x <? t)%float then (t - 1)%float else t.

(** [Math.round]: the closest integral value, ties towards +infinity;
    values in [[-0.5, -0]] give [-0]. *)
Definition Math_round (x : number) : number :=
  if is_nan x || is_infinity x || is_zero x then x
  else if (two52 <=? abs x)%float then x
  else
    let f := floor x in
    let r := if (0.5 <=? x - f)%float then (f + 1)%float else f in
    if is_zero r && (x <? 0)%float then neg_zero else r.

(** The Number value of the non-negative rational [n / d] ([0 < d]):
    the quotient is computed to at least 58 bits with a sticky bit and
    rounded once, to nearest, ties to even. *)
Definition float_of_ratio (n d : Z) : number :=
  if (n =? 0)%Z then zero
  else
    let s := Z.max 0 (Z.log2 d - Z.log2 n + 60) in
    let q := ((n * 2 ^ s) / d)%Z in
    let r := ((n * 2 ^ s) mod d)%Z in
    let m := (2 * q + (if (r =? 0)%Z then 0 else 1))%Z in
    SF2Prim (binary_normalize 53 1024 m (- s - 1) false).

Definition apply_sign (neg : bool) (x : number) : number :=
  if neg then (- x)%float else x.

Definition digit_val (c : N) : Z := (Z.of_N c - 48)%Z.

Definition digits_value (ds : jsstring) : Z :=
  fold_left (fun a c => (10 * a + digit_val c)%Z) ds 0%Z.

Definition parse_sign (s : jsstring) : bool * jsstring :=
  match s with
  | 45%N :: s' => (true, s')
  | 43%N :: s' => (false, s')
  | _ => (false, s)
  end.

(** The value of an ExponentPart at the head of [s]; [0] when there is no
    complete one. *)
Definition parse_exponent (s : jsstring) : Z :=
  match s with
  | c :: s' =>
      if char_in [101; 69]%N c then
        let (neg, s'') := parse_sign s' in
        match take_while is_digit s'' with
        | [] => 0%Z
        | ds => if neg then (- digits_value ds)%Z else digits_value ds
        end
      else 0%Z
  | [] => 0%Z
  end.

(** [parseFloat(s)]: leading white space is skipped, the longest prefix
    that is a StrDecimalLiteral is converted, and [NaN] is the answer when
    there is none. *)
Definition parseFloat (s : jsstring) : number :=
  let (neg, r) := parse_sign (trimStart s) in
  if startsWith (lit "Infinity") r then apply_sign neg infinity
  else
    let ip := take_while is_digit r in
    let r1 := drop_while is_digit r in
    let (fp, r2) :=
      match r1 with
      | 46%N :: r1' => (take_while is_digit r1', drop_while is_digit r1')
      | _ => ([], r1)
      end in
    match ip ++ fp with
    | [] => nan
    | ds =>
        let e := (parse_exponent r2 - Z.of_nat (List.length fp))%Z in
        let n := digits_value ds in
        apply_sign neg
          (if (0 <=? e)%Z then float_of_ratio (n * 10 ^ e) 1
           else float_of_ratio n (10 ^ (- e)))
    end.

Definition is_hex_digit (c : N) : bool :=
  is_digit c || in_range 97 102 c || in_range 65 70 c.

Definition hex_val (c : N) : Z :=
  if is_digit c then (Z.of_N c - 48)%Z
  else if in_range 97 102 c then (Z.of_N c - 87)%Z
  else (Z.of_N c - 55)%Z.

(** [parseInt(s)] without a radix: base 16 after a [0x]/[0X] prefix, base
    10 otherwise; the longest prefix of digits is converted, [NaN] when
    there is none.  (The mathematical value is rounded once; the standard
    allows an implementation to drop decimal digits after the 20th.) *)
Definition parseInt (s : jsstring) : number :=
  let (neg, r) := parse_sign (trimStart s) in
  let hex := match r with
             | 48%N :: x :: _ => char_in [120; 88]%N x
             | _ => false
             end in
  if hex then
    match take_while is_hex_digit (skipn 2 r) with
    | [] => nan
    | ds => apply_sign neg
              (float_of_ratio (fold_left (fun a c => (16 * a + hex_val c)%Z) ds 0%Z) 1)
    end
  else
    match take_while is_digit r with
    | [] => nan
    | ds => apply_sign neg (float_of_ratio (digits_value ds) 1)
    end.

(** ** [encodeURIComponent]

    Surrogate pairs are combined into code points, each code point is
    written in UTF-8, and every byte except those of the unreserved
    characters is escaped; a lone surrogate raises [URIError]. *)

Definition is_unreserved (c : N) : bool :=
  in_range 65 90 c || in_range 97 122 c || is_digit c
  || char_in [45; 95; 46; 33; 126; 42; 39; 40; 41]%N c.

Definition hex_digit (n : N) : N := if N.ltb n 10 then (48 + n)%N else (55 + n)%N.

Definition percent (b : N) : jsstring := [37%N; hex_digit (b / 16); hex_digit (b mod 16)].

Definition utf8 (cp : N) : list N :=
  if N.ltb cp 128 then [cp]
  else if N.ltb cp 2048 then [(192 + cp / 64)%N; (128 + cp mod 64)%N]
  else if N.ltb cp 65536 then
    [(224 + cp / 4096)%N; (128 + (cp / 64) mod 64)%N; (128 + cp mod 64)%N]
  else
    [(240 + cp / 262144)%N; (128 + (cp / 4096) mod 64)%N;
     (128 + (cp / 64) mod 64)%N; (128 + cp mod 64)%N].

Fixpoint encodeURIComponent (s : jsstring) : option jsstring :=
  match s with
  | [] => Some []
  | c :: s' =>
      if is_unreserved c then option_map (cons c) (encodeURIComponent s')
      else if in_range 56320 57343 c then None
      else if in_range 55296 56319 c then
        match s' with
        | d :: s'' =>
            if in_range 56320 57343 d then
              option_map
                (app (flat_map percent (utf8 ((c - 55296) * 1024 + (d - 56320) + 65536))))
                (encodeURIComponent s'')
            else None
        | [] => None
        end
      else option_map (app (flat_map percent (utf8 c))) (encodeURIComponent s')
  end.

End JS.

(* ===================================================================== *)
(** * Browser calls, exceptions and [try]/[catch]/[finally]               *)
(* ===================================================================== *)

Module Effects.
Import JS.

(** The awaited calls of a scrape, in the vocabulary of the automation
    library. *)
Inductive event : Type :=
| Launch                                   (* puppeteer.launch(...) *)
| NewPage                                  (* browser.newPage() *)
| SetViewport (width height : Z)           (* page.setViewport(...) *)
| SetUserAgent (ua : jsstring)             (* page.setUserAgent(...) *)
| Goto (url : jsstring)                    (* page.goto(url, ...) *)
| WaitForSelector (selector : jsstring)    (* page.waitForSelector(...) *)
| WaitForNavigation                        (* page.waitForNavigation(...) *)
| Click (selector : jsstring)              (* page.click(...) *)
| TypeText (selector text : jsstring)      (* page.type(...) *)
| Press (key : jsstring)                   (* page.keyboard.press(...) *)
| Delay (ms : Z)                           (* new Promise(r => setTimeout(r, ms)) *)
| Evaluate (fn : jsstring)                 (* page.evaluate(...) *)
| Close.                                   (* browser.close() *)

(** How an awaited computation settles: fulfilled with a value, or
    rejected with an [Error] whose [message] is kept. *)
Inductive result (A : Type) : Type :=
| Ok (a : A)
| Throw (message : jsstring).
Arguments Ok {A} a.
Arguments Throw {A} message.

(** The browser decides whether a call rejects, knowing the calls made so
    far; [Some m] is a rejection with message [m]. *)
Definition Oracle := list event -> event -> option jsstring.

(** A computation reads the oracle and extends the chronological list of
    calls made. *)
Definition M (A : Type) : Type := Oracle -> list event -> list event * result A.

Definition ret {A} (a : A) : M A := fun _ t => (t, Ok a).

Definition bind {A B} (m : M A) (f : A -> M B) : M B :=
  fun o t =>
    match m o t with
    | (t', Ok a) => f a o t'
    | (t', Throw e) => (t', Throw e)
    end.

Definition throw {A} (message : jsstring) : M A := fun _ t => (t, Throw message).

(** How a call settles: a timer always fulfils, every other call asks the
    oracle. *)
Definition outcome (o : Oracle) (t : list event) (ev : event) : option jsstring :=
  match ev with
  | Delay _ => None
  | _ => o t ev
  end.

(** [await] of a call. *)
Definition call (ev : event) : M unit :=
  fun o t =>
    (t ++ [ev], match outcome o t ev with
                | None => Ok tt
                | Some m => Throw m
                end).

(** [await new Promise(resolve => setTimeout(resolve, ms))] *)
Definition sleep (ms : Z) : M unit := call (Delay ms).

(** [try { m } catch (error) { h error }] *)
Definition try_catch {A} (m : M A) (h : jsstring -> M A) : M A :=
  fun o t =>
    match m o t with
    | (t', Throw e) => h e o t'
    | r => r
    end.

(** [try { m } finally { f }]: [f] runs on both exits; when [f] itself
    throws, its error replaces the completion of [m]. *)
Definition try_finally {A} (m : M A) (f : M unit) : M A :=
  fun o t =>
    match m o t with
    | (t', r) =>
        match f o t' with
        | (t'', Ok _) => (t'', r)
        | (t'', Throw e) => (t'', Throw e)
        end
    end.

(** A conversion that has fulfilled or thrown, as a computation. *)
Definition settled {A} (r : result A) : M A := fun _ t => (t, r).

(** A value that may be an exception becomes a computation. *)
Definition lift_option {A} (message : jsstring) (x : option A) : M A :=
  match x with
  | Some a => ret a
  | None => throw message
  end.

(** Straight-line execution of a list of calls after the history [t]: the
    first rejection stops it.  The answer is the calls made and the
    rejection, if any. *)
Fixpoint exec (o : Oracle) (t : list event) (plan : list event)
  : list event * option jsstring :=
  match plan with
  | [] => ([], None)
  | ev :: plan' =>
      match outcome o t ev with
      | Some m => ([ev], Some m)
      | None => let (made, r) := exec o (t ++ [ev]) plan' in (ev :: made, r)
      end
  end.

(** Every call of [calls] fulfils, made in this order from the start. *)
Definition quiet (o : Oracle) (calls : list event) : Prop :=
  exec o [] calls = (calls, None).

(** What a controller returns: [{ success: true, data }] or
    [{ success: false, error }]. *)
Inductive Envelope (D : Type) : Type :=
| Success (data : D)
| Failure (error : jsstring).
Arguments Success {D} data.
Arguments Failure {D} error.

(** The shape of a whole call, said without the monad: the launch, then
    the calls of [plan] one after the other up to the first rejection, then
    the teardown; [completion] is how the body ends when no call rejects. *)
Definition settle {D} (o : Oracle) (plan : list event) (completion : result D)
  : list event * Envelope D :=
  match outcome o [] Launch with
  | Some m => ([Launch], Failure m)
  | None =>
      let (made, r1) := exec o [Launch] plan in
      (Launch :: made ++ [Close],
       match outcome o (Launch :: made) Close with
       | Some m => Failure m
       | None =>
           match r1 with
           | Some m => Failure m
           | None =>
               match completion with
               | Ok d => Success d
               | Throw m => Failure m
               end
           end
       end)
  end.

(** What "a failure short-circuits the remaining steps and decides the
    envelope" says of the calls made and the envelope returned:
    - after a rejected call nothing runs but the teardown, and its message
      is the error of the envelope (unless the teardown rejects too, and
      then the message of the teardown is);
    - an exception thrown between the calls is the error when every call
      fulfils;
    - a success envelope is returned only when the whole plan ran and every
      call of it fulfilled. *)
Definition short_circuit_law {D} (o : Oracle) (plan : list event)
  (completion : result D) (trace : list event) (env : Envelope D) : Prop :=
  (forall pre ev post m,
     trace = pre ++ ev :: post -> outcome o pre ev = Some m ->
     (post = [] /\ env = Failure m) \/
     (post = [Close] /\ (outcome o (pre ++ [ev]) Close = None -> env = Failure m)))
  /\ (forall m,
        completion = Throw m -> quiet o (Launch :: plan ++ [Close]) ->
        trace = Launch :: plan ++ [Close] /\ env = Failure m)
  /\ (forall d,
        env = Success d ->
        completion = Ok d /\ trace = Launch :: plan ++ [Close] /\ quiet o trace).

Definition map_result {A B} (f : A -> B) (r : result A) : result B :=
  match r with
  | Ok a => Ok (f a)
  | Throw m => Throw m
  end.

(** What a computation started on the empty trace does. *)
Definition run {A} (m : M A) (o : Oracle) : list event * result A := m o [].

End Effects.

Declare Scope js_scope.
Delimit Scope js_scope with js.
Notation "x <- m ;; k" := (Effects.bind m (fun x => k))
  (at level 61, m at next level, right associativity) : js_scope.
Notation "m ;;; k" := (Effects.bind m (fun _ => k))
  (at level 61, right associativity) : js_scope.

(** The two formatting built-ins of the host that the controllers call on
    a Number: [String(x)] as used by a template literal, and
    [x.toLocaleString('en-IN')]. *)
Record Host : Type := {
  Number_toString : JS.number -> JS.jsstring;
  toLocaleString_en_IN : JS.number -> JS.jsstring
}.

(* ===================================================================== *)
(** * Flipkart                                                            *)
(* ===================================================================== *)

Module Flipkart.
Import JS Effects.
Local Open Scope js_scope.

(** ** The results page

    A listing container is known through the answers to the DOM queries
    the filter makes on it. *)

Record Ancestor : Type := {
  is_body : bool;                    (* parentElement === document.body *)
  classList : list jsstring
}.

Record Container : Type := {
  textContent : jsstring;
  (* container.querySelector('.Z0Na3m, ._630qWQ, .ZB6XBm,
     [class*="sponsor"], [class*="ad"]') is an element *)
  sponsoredBadge : bool;
  (* the parentElement chain, nearest first *)
  parents : list Ancestor;
  (* container.querySelector('a.VJA3rP, a.s1Q9rs, a._2rpwqI, a.CGtC98,
     a._1fQZEK, a[href*="/p/"]'), and its href attribute *)
  link : option (option jsstring)
}.

Definition contains (cls : list jsstring) (name : jsstring) : bool :=
  existsb (str_eqb name) cls.

(** The [while] loop over the ancestors of a container. *)
Fixpoint isParentSponsored (ps : list Ancestor) : bool :=
  match ps with
  | [] => false
  | p :: ps' =>
      if is_body p then false
      else if contains (classList p) (lit "Pvc1Aq")
              || contains (classList p) (lit "_3tfP8f") then true
      else isParentSponsored ps'
  end.

(** The test of the line [if (hasSponsored || isParentSponsored)]. *)
Definition isSponsored (c : Container) : bool :=
  let sponsoredTexts := [lit "sponsored"; lit "ad"; lit "promoted"] in
  let containerText := toLowerCase (textContent c) in
  let hasSponsored := sponsoredBadge c in
  hasSponsored || isParentSponsored (parents c).

Definition origin : jsstring := lit "https://www.flipkart.com".

Definition fullUrl (href : jsstring) : jsstring :=
  if startsWith (lit "http") href then href else origin ++ href.

(** The link part of the loop body: the URL the container is accepted
    with, if it is. *)
Definition productLinkOf (c : Container) : option jsstring :=
  match link c with
  | Some (Some href) =>
      if truthy_str (Some href) && includes (lit "/p/") href
      then Some (fullUrl href) else None
  | _ => None
  end.

(** The function evaluated in the page by [findFirstNonSponsoredProduct]. *)
Fixpoint findFirstNonSponsoredProduct (containers : list Container) : option jsstring :=
  match containers with
  | [] => None
  | container :: rest =>
      if isSponsored container then findFirstNonSponsoredProduct rest
      else
        match productLinkOf container with
        | Some url => Some url
        | None => findFirstNonSponsoredProduct rest
        end
  end.

(** ** The product page *)

Record ProductPage : Type := {
  (* textContent of document.querySelector(...) for each field *)
  titleEl : option jsstring;
  priceEl : option jsstring;
  mrpEl : option jsstring;
  discountEl : option jsstring;
  ratingEl : option jsstring;
  ratingsReviewsEl : option jsstring;
  (* textContent of each element of document.querySelectorAll(...) *)
  offerElements : list jsstring;
  sellerEl : option jsstring;
  (* textContent and truthiness of .disabled *)
  availEl : option (jsstring * bool);
  (* document.querySelector('button.QqFHMw.vslbG+:not(:disabled)') is an element *)
  cartBtn : bool;
  deliveryEl : option jsstring
}.

Record Details : Type := {
  title : jsstring;
  price : option number;
  mrp : option number;
  discount : option number;
  rating : option number;
  totalRatings : option number;
  totalReviews : option number;
  offers : list jsstring;
  seller : option jsstring;
  availability : option jsstring;
  delivery : option jsstring;
  productLink : option jsstring
}.

(** The class of the price regular expression as the file has it: U+201A,
    U+00C7, U+03C0 and the comma (the rupee sign U+20B9 is not in it). *)
Definition currency_class (c : N) : bool := char_in [8218; 199; 960; 44]%N c.

Definition parsePrice (el : option jsstring) : option number :=
  match el with
  | Some text => Some (parseFloat (trim (remove_class currency_class text)))
  | None => None
  end.

(** [/[-%\soff]/g] *)
Definition discount_class (c : N) : bool :=
  char_in [45; 37; 111; 102]%N c || is_space c.

Definition parseDiscountBadge (el : option jsstring) : option number :=
  match el with
  | Some text => Some (parseInt (trim (remove_class discount_class text)))
  | None => None
  end.

Definition extractDiscount (price mrp : option number) (badge : option jsstring) : option number :=
  match price, mrp with
  | Some p, Some m =>
      if truthy_num (Some p) && truthy_num (Some m)
      then Some (Math_round (((m - p) / m) * 100)%float)
      else parseDiscountBadge badge
  | _, _ => parseDiscountBadge badge
  end.

Definition is_digit_or_dot (c : N) : bool := is_digit c || N.eqb c 46.
Definition is_digit_or_comma (c : N) : bool := is_digit c || N.eqb c 44.

Definition extractRating (el : option jsstring) : option number :=
  match el with
  | Some text =>
      match match_class_run is_digit_or_dot (trim text) with
      | Some m => Some (parseFloat m)
      | None => None
      end
  | None => None
  end.

(** [/([\d,]+)\s*Label/] tried at the head of [s]: the group takes the whole
    run (a shorter one would be followed by a digit or a comma, which is
    neither white space nor the first letter of the label). *)
Definition count_here (label s : jsstring) : option jsstring :=
  match take_while is_digit_or_comma s with
  | [] => None
  | run =>
      if startsWith label (drop_while is_space (drop_while is_digit_or_comma s))
      then Some run else None
  end.

(** [s.match(/([\d,]+)\s*Label/)], group 1 of the leftmost match. *)
Fixpoint match_count (label s : jsstring) : option jsstring :=
  match count_here label s with
  | Some run => Some run
  | None =>
      match s with
      | [] => None
      | _ :: s' => match_count label s'
      end
  end.

Definition extractCount (label : jsstring) (el : option jsstring) : option number :=
  match el with
  | Some text =>
      match match_count label (trim text) with
      | Some g => Some (parseInt (remove_class (N.eqb 44) g))
      | None => None
      end
  | None => None
  end.

(** [s.replace(/T&C.*$/i, '')]: the text is cut at the first [T&C] that is
    followed by no line terminator up to the end. *)
Fixpoint cut_terms (s : jsstring) : jsstring :=
  if startsWith_ci (lit "T&C") s
     && forallb (fun c => negb (is_line_terminator c)) (skipn 3 s)
  then []
  else
    match s with
    | [] => []
    | c :: s' => c :: cut_terms s'
    end.

(** One turn of the offers loop. *)
Definition pushOffer (offers : list jsstring) (el : jsstring) : list jsstring :=
  let offerText := collapse_spaces (trim el) in
  if truthy_str (Some offerText) && Nat.ltb 10 (List.length offerText) then
    let cleanText := trim (cut_terms offerText) in
    if truthy_str (Some cleanText) && negb (existsb (str_eqb cleanText) offers)
    then offers ++ [cleanText] else offers
  else offers.

Definition extractOffers (els : list jsstring) : list jsstring :=
  firstn 3 (fold_left pushOffer (firstn (Nat.min (List.length els) 3) els) []).

(** The class excluded by the seller regular expression as the file has
    it: the digits, U+201A, U+00F2 and U+00D6. *)
Definition seller_stop (c : N) : bool := is_digit c || char_in [8218; 242; 214]%N c.

Definition extractSeller (el : option jsstring) : option jsstring :=
  match el with
  | Some text =>
      let sellerText := trim text in
      match take_while (fun c => negb (seller_stop c)) sellerText with
      | [] => Some sellerText
      | g => Some (trim g)
      end
  | None => None
  end.

Definition extractAvailability (el : option (jsstring * bool)) (cart : bool) : option jsstring :=
  match el with
  | Some (text, disabled) =>
      if includes (lit "Add to cart") text && disabled
      then Some (lit "Out of Stock") else Some (lit "In Stock")
  | None => if cart then Some (lit "In Stock") else Some (lit "Check availability")
  end.

(** The function evaluated in the page by [extractProductDetails], which
    returns the object [result] it fills. *)
Definition pageFunction (page : ProductPage) : Details :=
  let price := parsePrice (priceEl page) in
  let mrp := parsePrice (mrpEl page) in
  {| title := match titleEl page with Some t => trim t | None => [] end;
     price := price;
     mrp := mrp;
     discount := extractDiscount price mrp (discountEl page);
     rating := extractRating (ratingEl page);
     totalRatings := extractCount (lit "Ratings") (ratingsReviewsEl page);
     totalReviews := extractCount (lit "Reviews") (ratingsReviewsEl page);
     offers := extractOffers (offerElements page);
     seller := extractSeller (sellerEl page);
     availability := extractAvailability (availEl page) (cartBtn page);
     delivery := option_map trim (deliveryEl page);
     productLink := None |}.

(** The copy of [result] that [page.evaluate] resolves to: strings, arrays
    of strings and [null] as they are, Numbers as JSON carries them. *)
Definition returnByValue (result : Details) : Details :=
  {| title := title result;
     price := by_value (price result);
     mrp := by_value (mrp result);
     discount := by_value (discount result);
     rating := by_value (rating result);
     totalRatings := by_value (totalRatings result);
     totalReviews := by_value (totalReviews result);
     offers := offers result;
     seller := seller result;
     availability := availability result;
     delivery := delivery result;
     productLink := productLink result |}.

(** [extractProductDetails]: [const details = await page.evaluate(...);
    return details]. *)
Definition extractProductDetails (page : ProductPage) : Details :=
  returnByValue (pageFunction page).

(** ** The scrape *)

(** What the browser shows during one call: how each awaited call settles,
    the containers of the results page, and the page behind each URL. *)
Record Site : Type := {
  oracle : Oracle;
  containers : list Container;
  page_at : jsstring -> ProductPage
}.

Definition baseUrl : jsstring := lit "https://www.flipkart.com/search?q=".

Definition userAgent : jsstring :=
  lit "Mozilla/5.0 (Windows NT 10.0; Win64; x64) AppleWebKit/537.36 (KHTML, like Gecko) Chrome/120.0.0.0 Safari/537.36".

Definition resultsSelector : jsstring := lit "div.slAVV4, div.tUxRFH, div._75nlfW".
Definition titleSelector : jsstring := lit "h1._6EBuvT span.VU-ZEz, span.B_NuCI".

Definition URIError_message : jsstring := lit "URI malformed".
Definition NoOrganicResult : jsstring := lit "No non-sponsored products found".

Definition set_productLink (d : Details) (url : jsstring) : Details :=
  {| title := title d; price := price d; mrp := mrp d; discount := discount d;
     rating := rating d; totalRatings := totalRatings d;
     totalReviews := totalReviews d; offers := offers d; seller := seller d;
     availability := availability d; delivery := delivery d;
     productLink := Some url |}.

(** The body of the [try] block of [scrapeProduct]. *)
Definition scrapeBody (site : Site) (productName : jsstring) : M Details :=
  call NewPage ;;;
  call (SetViewport 1920 1080) ;;;
  call (SetUserAgent userAgent) ;;;
  q <- lift_option URIError_message (encodeURIComponent productName) ;;
  let searchUrl := baseUrl ++ q in
  call (Goto searchUrl) ;;;
  call (WaitForSelector resultsSelector) ;;;
  sleep 3000 ;;;
  call (Evaluate (lit "findFirstNonSponsoredProduct")) ;;;
  let firstProductUrl := findFirstNonSponsoredProduct (containers site) in
  match firstProductUrl with
  | Some url =>
      if negb (truthy_str firstProductUrl) then throw NoOrganicResult
      else
        call (Goto url) ;;;
        call (WaitForSelector titleSelector) ;;;
        sleep 3000 ;;;
        call (Evaluate (lit "extractProductDetails")) ;;;
        let productDetails := extractProductDetails (page_at site url) in
        ret (set_productLink productDetails url)
  | None => throw NoOrganicResult
  end.

(** [scrapeProduct]: the launch, then [try { ... } catch (error) { throw
    error } finally { await browser.close() }]. *)
Definition scrapeProduct (site : Site) (productName : jsstring) : M Details :=
  call Launch ;;;
  try_finally
    (try_catch (scrapeBody site productName) (fun error => throw error))
    (call Close).

(** ** The controller *)

Record Rating : Type := {
  stars : option number;
  ratingCount : option number;        (* totalRatings *)
  reviewCount : option number         (* totalReviews *)
}.

Record Data : Type := {
  d_title : jsstring;
  d_price : jsstring;
  d_mrp : option jsstring;
  d_discount : option jsstring;
  d_rating : Rating;
  d_topOffers : list jsstring;
  d_seller : jsstring;
  d_availability : option jsstring;
  d_delivery : option jsstring;
  d_productLink : option jsstring
}.

(** The currency prefix of the template literals as the file has it:
    U+201A, U+00C7, U+03C0. *)
Definition currency : jsstring := [8218; 199; 960]%N.

Definition formatMoney (h : Host) (x : option number) : option jsstring :=
  match x with
  | Some v => if truthy_num x then Some (currency ++ toLocaleString_en_IN h v) else None
  | None => None
  end.

Definition formatPercent (h : Host) (x : option number) : option jsstring :=
  match x with
  | Some v => if truthy_num x then Some (Number_toString h v ++ lit "%") else None
  | None => None
  end.

(** The object literal [output.data]. *)
Definition formatOutput (h : Host) (productDetails : Details) : Data :=
  {| d_title := title productDetails;
     d_price := match formatMoney h (price productDetails) with
                | Some s => s
                | None => lit "Not available"
                end;
     d_mrp := formatMoney h (mrp productDetails);
     d_discount := formatPercent h (discount productDetails);
     d_rating := {| stars := rating productDetails;
                    ratingCount := totalRatings productDetails;
                    reviewCount := totalReviews productDetails |};
     d_topOffers := if Nat.ltb 0 (List.length (offers productDetails))
                    then offers productDetails
                    else [lit "No offers available"];
     d_seller := match seller productDetails with
                 | Some s => if truthy_str (Some s) then s else lit "Not specified"
                 | None => lit "Not specified"
                 end;
     d_availability := availability productDetails;
     d_delivery := delivery productDetails;
     d_productLink := productLink productDetails |}.

(** [flipkartProductScrapper]: [try { ... return output } catch (error)
    { return { success: false, error: error.message } }]. *)
Definition flipkartProductScrapper (h : Host) (site : Site) (productName : jsstring)
  : M (Envelope Data) :=
  try_catch
    (productDetails <- scrapeProduct site productName ;;
     ret (Success (formatOutput h productDetails)))
    (fun message => ret (Failure message)).

(** The calls of the [try] block when none rejects, and how it ends then. *)
Definition prelude : list event :=
  [NewPage; SetViewport 1920 1080; SetUserAgent userAgent].

Definition searchPhase (q : jsstring) : list event :=
  [Goto (baseUrl ++ q); WaitForSelector resultsSelector; Delay 3000;
   Evaluate (lit "findFirstNonSponsoredProduct")].

Definition detailPhase (url : jsstring) : list event :=
  [Goto url; WaitForSelector titleSelector; Delay 3000;
   Evaluate (lit "extractProductDetails")].

Definition plan (site : Site) (productName : jsstring) : list event * result Details :=
  match encodeURIComponent productName with
  | None => (prelude, Throw URIError_message)
  | Some q =>
      match findFirstNonSponsoredProduct (containers site) with
      | Some url =>
          if truthy_str (Some url)
          then (prelude ++ searchPhase q ++ detailPhase url,
                Ok (set_productLink (extractProductDetails (page_at site url)) url))
          else (prelude ++ searchPhase q, Throw NoOrganicResult)
      | None => (prelude ++ searchPhase q, Throw NoOrganicResult)
      end
  end.

End Flipkart.

(* ===================================================================== *)
(** * Amazon                                                              *)
(* ===================================================================== *)

Module Amazon.
Import JS Effects.
Local Open Scope js_scope.

(** ** The results page *)

Record SearchResult : Type := {
  (* result.querySelector('[data-component-type="sp-sponsored-result"]') !== null *)
  sponsoredByAttr : bool;
  (* textContent of each element of result.querySelectorAll('span') *)
  spans : list jsstring;
  classList : list jsstring;
  (* result.querySelector('.puis-sponsored-label-text,
     .s-label-popover-default') !== null *)
  sponsoredLabel : bool;
  (* result.querySelector('h2 a, .s-title-instructions-style a,
     a.a-link-normal.s-no-outline'), and its href attribute *)
  link : option (option jsstring)
}.

Definition contains (cls : list jsstring) (name : jsstring) : bool :=
  existsb (str_eqb name) cls.

(** Method 2: the loop over the spans. *)
Fixpoint hasSponshoredText (allSpans : list jsstring) : bool :=
  match allSpans with
  | [] => false
  | span :: rest =>
      let text := trim (toLowerCase span) in
      if str_eqb text (lit "sponsored") then true else hasSponshoredText rest
  end.

(** The test of the line [if (isSponsoredByAttr || hasSponshoredText ||
    hasSponsoredClass || hasSponsoredLabel)]. *)
Definition isSponsored (r : SearchResult) : bool :=
  let isSponsoredByAttr := sponsoredByAttr r in
  let hasSponsoredClass :=
    contains (classList r) (lit "AdHolder")
    || contains (classList r) (lit "s-sponsored-list-item") in
  let hasSponsoredLabel := sponsoredLabel r in
  isSponsoredByAttr || hasSponshoredText (spans r) || hasSponsoredClass || hasSponsoredLabel.

Definition origin : jsstring := lit "https://www.amazon.in".

Definition fullUrl (href : jsstring) : jsstring :=
  if startsWith (lit "http") href then href else origin ++ href.

Definition productLinkOf (r : SearchResult) : option jsstring :=
  match link r with
  | Some (Some href) =>
      if truthy_str (Some href) && includes (lit "/dp/") href
      then Some (fullUrl href) else None
  | _ => None
  end.

(** The function evaluated in the page by [findFirstNonSponsoredProduct]. *)
Fixpoint findFirstNonSponsoredProduct (results : list SearchResult) : option jsstring :=
  match results with
  | [] => None
  | result :: rest =>
      if isSponsored result then findFirstNonSponsoredProduct rest
      else
        match productLinkOf result with
        | Some url => Some url
        | None => findFirstNonSponsoredProduct rest
        end
  end.

(** ** The product page *)

Record ProductPage : Type := {
  titleEl : option jsstring;              (* #productTitle *)
  priceWholeCentered : option jsstring;   (* .a-price.aok-align-center .a-price-whole *)
  priceWhole : option jsstring;           (* .a-price-whole *)
  offscreenPrice : option jsstring;       (* .a-price .a-offscreen *)
  textPrice : option jsstring;            (* .a-price.a-text-price .a-offscreen *)
  basisPrice : option jsstring;           (* .basisPrice .a-offscreen *)
  savingsPercentage : option jsstring;    (* .savingsPercentage *)
  ratingOutOfText : option jsstring;      (* [data-hook="rating-out-of-text"] *)
  iconStarSpan : option jsstring;         (* .a-icon-star span *)
  iconAlt : option jsstring;              (* i.a-icon-star span.a-icon-alt *)
  acrCustomerReviewText : option jsstring;(* #acrCustomerReviewText *)
  totalReviewCount : option jsstring;     (* [data-hook="total-review-count"] *)
  offerBadges : list jsstring;
  couponElements : list jsstring;
  bankOffers : list jsstring;             (* .a-section.a-spacing-small *)
  sellerProfileTrigger : option jsstring; (* #sellerProfileTriggerId *)
  merchantInfoFeature : option jsstring;  (* [data-feature-name="merchant-info"] a *)
  merchantInfo : option jsstring;         (* #merchant-info a *)
  availabilitySpan : option jsstring      (* #availability span *)
}.

Record Details : Type := {
  title : jsstring;
  price : option number;
  mrp : option number;
  discount : option number;
  rating : option number;
  totalRatings : option number;
  offers : list jsstring;
  seller : option jsstring;
  availability : option jsstring;
  productLink : option jsstring
}.

(** [a || b] on elements. *)
Definition orElse {A} (a b : option A) : option A :=
  match a with
  | Some _ => a
  | None => b
  end.

(** The class of [/[R,]/g], where R is the rupee sign U+20B9. *)
Definition currency_class (c : N) : bool := char_in [8377; 44]%N c.

Definition parseAmount (text : jsstring) : number :=
  parseFloat (trim (remove_class currency_class text)).

Definition extractPrice (page : ProductPage) : option number :=
  match orElse (priceWholeCentered page) (priceWhole page) with
  | None => option_map parseAmount (offscreenPrice page)
  | Some text => Some (parseAmount text)
  end.

Definition extractMrp (page : ProductPage) : option number :=
  option_map parseAmount (orElse (textPrice page) (basisPrice page)).

(** [/[-%]/g] *)
Definition discount_class (c : N) : bool := char_in [45; 37]%N c.

Definition parseDiscountBadge (el : option jsstring) : option number :=
  option_map (fun text => parseInt (remove_class discount_class text)) el.

Definition extractDiscount (price mrp : option number) (badge : option jsstring) : option number :=
  match price, mrp with
  | Some p, Some m =>
      if truthy_num (Some p) && truthy_num (Some m)
      then Some (Math_round (((m - p) / m) * 100)%float)
      else parseDiscountBadge badge
  | _, _ => parseDiscountBadge badge
  end.

Definition is_digit_or_dot (c : N) : bool := is_digit c || N.eqb c 46.

Definition extractRating (page : ProductPage) : option number :=
  match orElse (ratingOutOfText page) (orElse (iconStarSpan page) (iconAlt page)) with
  | Some text => option_map parseFloat (match_class_run is_digit_or_dot text)
  | None => None
  end.

(** [/[,\s]/g] *)
Definition comma_or_space (c : N) : bool := N.eqb c 44 || is_space c.

Definition extractTotalRatings (page : ProductPage) : option number :=
  match orElse (acrCustomerReviewText page) (totalReviewCount page) with
  | Some text =>
      option_map parseInt (match_class_run is_digit (remove_class comma_or_space text))
  | None => None
  end.

(** One turn of the loops over offer badges and coupons. *)
Definition pushOffer (offers : list jsstring) (el : jsstring) : list jsstring :=
  let offerText := collapse_spaces (trim el) in
  if truthy_str (Some offerText) && Nat.ltb 10 (List.length offerText)
  then offers ++ [offerText] else offers.

(** The coupon loop, whose bound [Math.min(couponElements.length,
    3 - offers.length)] is read again at every turn; [els] are the elements
    from index [i] on. *)
Fixpoint couponLoop (els : list jsstring) (i : nat) (offers : list jsstring)
  : list jsstring :=
  match els with
  | [] => offers
  | el :: rest =>
      if Nat.ltb i (3 - List.length offers)
      then couponLoop rest (S i) (pushOffer offers el)
      else offers
  end.

(** The loop over the bank offers. *)
Fixpoint bankLoop (els : list jsstring) (offers : list jsstring) : list jsstring :=
  match els with
  | [] => offers
  | elem :: rest =>
      if Nat.leb 3 (List.length offers) then offers
      else
        let text := toLowerCase elem in
        if (includes (lit "offer") text || includes (lit "cashback") text
            || includes (lit "discount") text)
           && Nat.ltb 20 (List.length elem)
        then bankLoop rest (offers ++ [substring0 200 (collapse_spaces (trim elem))])
        else bankLoop rest offers
  end.

Definition extractOffers (page : ProductPage) : list jsstring :=
  let badges := offerBadges page in
  let offers1 := fold_left pushOffer (firstn (Nat.min (List.length badges) 3) badges) [] in
  let offers2 := if Nat.ltb (List.length offers1) 3
                 then couponLoop (couponElements page) 0 offers1 else offers1 in
  let offers3 := if Nat.ltb (List.length offers2) 3
                 then bankLoop (bankOffers page) offers2 else offers2 in
  firstn 3 offers3.

Definition extractSeller (page : ProductPage) : option jsstring :=
  option_map trim
    (orElse (sellerProfileTrigger page)
       (orElse (merchantInfoFeature page) (merchantInfo page))).

(** The function evaluated in the page by [extractProductDetails], which
    returns the object [result] it fills. *)
Definition pageFunction (page : ProductPage) : Details :=
  let price := extractPrice page in
  let mrp := extractMrp page in
  {| title := match titleEl page with Some t => trim t | None => [] end;
     price := price;
     mrp := mrp;
     discount := extractDiscount price mrp (savingsPercentage page);
     rating := extractRating page;
     totalRatings := extractTotalRatings page;
     offers := extractOffers page;
     seller := extractSeller page;
     availability := option_map trim (availabilitySpan page);
     productLink := None |}.

(** The copy of [result] that [page.evaluate] resolves to: strings, arrays
    of strings and [null] as they are, Numbers as JSON carries them. *)
Definition returnByValue (result : Details) : Details :=
  {| title := title result;
     price := by_value (price result);
     mrp := by_value (mrp result);
     discount := by_value (discount result);
     rating := by_value (rating result);
     totalRatings := by_value (totalRatings result);
     offers := offers result;
     seller := seller result;
     availability := availability result;
     productLink := productLink result |}.

(** [extractProductDetails]: [const details = await page.evaluate(...);
    return details]. *)
Definition extractProductDetails (page : ProductPage) : Details :=
  returnByValue (pageFunction page).

(** ** The scrape *)

Record Site : Type := {
  oracle : Oracle;
  results : list SearchResult;
  page_at : jsstring -> ProductPage
}.

Definition baseUrl : jsstring := lit "https://www.amazon.in/s?k=".

Definition userAgent : jsstring :=
  lit "Mozilla/5.0 (Windows NT 10.0; Win64; x64) AppleWebKit/537.36 (KHTML, like Gecko) Chrome/120.0.0.0 Safari/537.36".

Definition resultsSelector : jsstring :=
  lit "[data-component-type=" ++ [34%N] ++ lit "s-search-result" ++ [34%N] ++ lit "]".

Definition titleSelector : jsstring := lit "#productTitle".

Definition URIError_message : jsstring := lit "URI malformed".
Definition NoOrganicResult : jsstring := lit "No non-sponsored products found".

Definition set_productLink (d : Details) (url : jsstring) : Details :=
  {| title := title d; price := price d; mrp := mrp d; discount := discount d;
     rating := rating d; totalRatings := totalRatings d; offers := offers d;
     seller := seller d; availability := availability d;
     productLink := Some url |}.

(** The body of the [try] block of [scrapeProduct]. *)
Definition scrapeBody (site : Site) (productName : jsstring) : M Details :=
  call NewPage ;;;
  call (SetViewport 1920 1080) ;;;
  call (SetUserAgent userAgent) ;;;
  q <- lift_option URIError_message (encodeURIComponent productName) ;;
  let searchUrl := baseUrl ++ q in
  call (Goto searchUrl) ;;;
  call (WaitForSelector resultsSelector) ;;;
  sleep 2000 ;;;
  call (Evaluate (lit "findFirstNonSponsoredProduct")) ;;;
  let firstProductUrl := findFirstNonSponsoredProduct (results site) in
  match firstProductUrl with
  | Some url =>
      if negb (truthy_str firstProductUrl) then throw NoOrganicResult
      else
        call (Goto url) ;;;
        call (WaitForSelector titleSelector) ;;;
        sleep 2000 ;;;
        call (Evaluate (lit "extractProductDetails")) ;;;
        let productDetails := extractProductDetails (page_at site url) in
        ret (set_productLink productDetails url)
  | None => throw NoOrganicResult
  end.

Definition scrapeProduct (site : Site) (productName : jsstring) : M Details :=
  call Launch ;;;
  try_finally
    (try_catch (scrapeBody site productName) (fun error => throw error))
    (call Close).

(** ** The controller *)

Record Rating : Type := {
  stars : option number;
  reviewCount : option number         (* totalReviews: productDetails.totalRatings *)
}.

Record Data : Type := {
  d_title : jsstring;
  d_price : jsstring;
  d_mrp : option jsstring;
  d_discount : option jsstring;
  d_rating : Rating;
  d_topOffers : list jsstring;
  d_seller : jsstring;
  d_availability : option jsstring;
  d_productLink : option jsstring
}.

Definition currency : jsstring := [8377%N].

Definition formatMoney (h : Host) (x : option number) : option jsstring :=
  match x with
  | Some v => if truthy_num x then Some (currency ++ toLocaleString_en_IN h v) else None
  | None => None
  end.

Definition formatPercent (h : Host) (x : option number) : option jsstring :=
  match x with
  | Some v => if truthy_num x then Some (Number_toString h v ++ lit "%") else None
  | None => None
  end.

Definition formatOutput (h : Host) (productDetails : Details) : Data :=
  {| d_title := title productDetails;
     d_price := match formatMoney h (price productDetails) with
                | Some s => s
                | None => lit "Not available"
                end;
     d_mrp := formatMoney h (mrp productDetails);
     d_discount := formatPercent h (discount productDetails);
     d_rating := {| stars := rating productDetails;
                    reviewCount := totalRatings productDetails |};
     d_topOffers := if Nat.ltb 0 (List.length (offers productDetails))
                    then offers productDetails
                    else [lit "No offers available"];
     d_seller := match seller productDetails with
                 | Some s => if truthy_str (Some s) then s else lit "Not specified"
                 | None => lit "Not specified"
                 end;
     d_availability := availability productDetails;
     d_productLink := productLink productDetails |}.

Definition amazonProductScrapper (h : Host) (site : Site) (productName : jsstring)
  : M (Envelope Data) :=
  try_catch
    (productDetails <- scrapeProduct site productName ;;
     ret (Success (formatOutput h productDetails)))
    (fun message => ret (Failure message)).

(** The calls of the [try] block when none rejects, and how it ends then. *)
Definition prelude : list event :=
  [NewPage; SetViewport 1920 1080; SetUserAgent userAgent].

Definition searchPhase (q : jsstring) : list event :=
  [Goto (baseUrl ++ q); WaitForSelector resultsSelector; Delay 2000;
   Evaluate (lit "findFirstNonSponsoredProduct")].

Definition detailPhase (url : jsstring) : list event :=
  [Goto url; WaitForSelector titleSelector; Delay 2000;
   Evaluate (lit "extractProductDetails")].

Definition plan (site : Site) (productName : jsstring) : list event * result Details :=
  match encodeURIComponent productName with
  | None => (prelude, Throw URIError_message)
  | Some q =>
      match findFirstNonSponsoredProduct (results site) with
      | Some url =>
          if truthy_str (Some url)
          then (prelude ++ searchPhase q ++ detailPhase url,
                Ok (set_productLink (extractProductDetails (page_at site url)) url))
          else (prelude ++ searchPhase q, Throw NoOrganicResult)
      | None => (prelude ++ searchPhase q, Throw NoOrganicResult)
      end
  end.

End Amazon.

(* ===================================================================== *)
(** * Myntra                                                              *)
(* ===================================================================== *)

Module Myntra.
Import JS Effects.
Local Open Scope js_scope.

(** ** The results page *)

Record Product : Type := {
  (* textContent of each element of product.querySelectorAll('span, div') *)
  sponsoredIndicators : list jsstring;
  (* product.querySelector('a[data-refreshpage="true"]'), and its href *)
  link : option (option jsstring)
}.

(** The loop over the indicators. *)
Fixpoint isSponsored (indicators : list jsstring) : bool :=
  match indicators with
  | [] => false
  | indicator :: rest =>
      let text := trim (toLowerCase indicator) in
      if str_eqb text (lit "sponsored") || str_eqb text (lit "ad") then true
      else isSponsored rest
  end.

Definition prefix : jsstring := lit "https://www.myntra.com/".

Definition fullUrl (href : jsstring) : jsstring :=
  if startsWith (lit "http") href then href else prefix ++ href.

Definition productLinkOf (p : Product) : option jsstring :=
  match link p with
  | Some (Some href) => if truthy_str (Some href) then Some (fullUrl href) else None
  | _ => None
  end.

(** The function evaluated in the page by [findFirstNonSponsoredProduct]. *)
Fixpoint findFirstNonSponsoredProduct (products : list Product) : option jsstring :=
  match products with
  | [] => None
  | product :: rest =>
      if isSponsored (sponsoredIndicators product) then findFirstNonSponsoredProduct rest
      else
        match productLinkOf product with
        | Some url => Some url
        | None => findFirstNonSponsoredProduct rest
        end
  end.

(** ** The product page *)

Record ProductPage : Type := {
  brandEl : option jsstring;              (* .pdp-title *)
  titleEl : option jsstring;              (* .pdp-name *)
  priceEl : option jsstring;              (* .pdp-price strong *)
  mrpEl : option jsstring;                (* .pdp-mrp *)
  discountEl : option jsstring;           (* .pdp-discount *)
  ratingEl : option jsstring;             (* .index-overallRating div *)
  ratingsCountEl : option jsstring;       (* .index-ratingsCount *)
  (* for each offer element, the textContent of its .pdp-offers-offerTitle *)
  offerElements : list (option jsstring);
  sellerEl : option jsstring;             (* .supplier-productSellerName *)
  (* for each size button, the textContent of its .size-buttons-unified-size *)
  sizeButtons : list (option jsstring)
}.

Record Details : Type := {
  title : jsstring;
  brand : jsstring;
  price : option number;
  mrp : option number;
  discount : option number;
  rating : option number;
  totalRatings : option number;
  offers : list jsstring;
  seller : option jsstring;
  sizes : list jsstring
}.

(** The class of [/[R,\s]/g], where R is the rupee sign U+20B9. *)
Definition price_class (c : N) : bool := char_in [8377; 44]%N c || is_space c.

(** The class of [/[R,\sMRP]/g]. *)
Definition mrp_class (c : N) : bool := char_in [8377; 44; 77; 82; 80]%N c || is_space c.

(** The class of [/[,\sk]/gi]. *)
Definition count_class (c : N) : bool := char_in [44; 107; 75]%N c || is_space c.

Definition is_digit_or_dot (c : N) : bool := is_digit c || N.eqb c 46.

Definition extractDiscount (el : option jsstring) : option number :=
  match el with
  | Some text => option_map parseInt (match_class_run is_digit text)
  | None => None
  end.

Definition extractTotalRatings (el : option jsstring) : option number :=
  match el with
  | Some text =>
      match match_class_run is_digit_or_dot (remove_class count_class text) with
      | Some count =>
          if includes (lit ".") count
          then Some (parseFloat count * 1000)%float
          else Some (parseInt count)
      | None => None
      end
  | None => None
  end.

(** One turn of the offers loop. *)
Definition pushOffer (offers : list jsstring) (titleEl : option jsstring) : list jsstring :=
  match titleEl with
  | Some t =>
      let offerText := collapse_spaces (trim t) in
      if truthy_str (Some offerText) && Nat.ltb 10 (List.length offerText)
      then offers ++ [offerText] else offers
  | None => offers
  end.

Definition extractOffers (els : list (option jsstring)) : list jsstring :=
  firstn 3 (fold_left pushOffer (firstn (Nat.min (List.length els) 3) els) []).

Definition pushSize (sizes : list jsstring) (sizeText : option jsstring) : list jsstring :=
  match sizeText with
  | Some t => sizes ++ [trim t]
  | None => sizes
  end.

(** The function evaluated in the page by [extractProductDetails], which
    returns the object [result] it fills. *)
Definition pageFunction (page : ProductPage) : Details :=
  {| brand := match brandEl page with Some t => trim t | None => [] end;
     title := match titleEl page with Some t => trim t | None => [] end;
     price := option_map (fun t => parseFloat (trim (remove_class price_class t)))
                (priceEl page);
     mrp := option_map (fun t => parseFloat (trim (remove_class mrp_class t)))
              (mrpEl page);
     discount := extractDiscount (discountEl page);
     rating := option_map (fun t => parseFloat (trim t)) (ratingEl page);
     totalRatings := extractTotalRatings (ratingsCountEl page);
     offers := extractOffers (offerElements page);
     seller := option_map trim (sellerEl page);
     sizes := fold_left pushSize (sizeButtons page) [] |}.

(** The copy of [result] that [page.evaluate] resolves to: strings, arrays
    of strings and [null] as they are, Numbers as JSON carries them. *)
Definition returnByValue (result : Details) : Details :=
  {| brand := brand result;
     title := title result;
     price := by_value (price result);
     mrp := by_value (mrp result);
     discount := by_value (discount result);
     rating := by_value (rating result);
     totalRatings := by_value (totalRatings result);
     offers := offers result;
     seller := seller result;
     sizes := sizes result |}.

(** [extractProductDetails]: [const details = await page.evaluate(...);
    return details]. *)
Definition extractProductDetails (page : ProductPage) : Details :=
  returnByValue (pageFunction page).

(** ** The scrape *)

Record Site : Type := {
  oracle : Oracle;
  products : list Product;
  page_at : jsstring -> ProductPage
}.

Definition baseUrl : jsstring := lit "https://www.myntra.com/".

Definition userAgent : jsstring :=
  lit "Mozilla/5.0 (Windows NT 10.0; Win64; x64) AppleWebKit/537.36 (KHTML, like Gecko) Chrome/120.0.0.0 Safari/537.36".

Definition searchBar : jsstring := lit ".desktop-searchBar".
Definition resultsSelector : jsstring := lit "li.product-base".
Definition titleSelector : jsstring := lit ".pdp-title".

Definition NoOrganicResult : jsstring := lit "No non-sponsored products found".

(** The body of the [try] block of [scrapeProduct]. *)
Definition scrapeBody (site : Site) (productName : jsstring) : M Details :=
  call NewPage ;;;
  call (SetViewport 1920 1080) ;;;
  call (SetUserAgent userAgent) ;;;
  call (Goto baseUrl) ;;;
  sleep 2000 ;;;
  call (WaitForSelector searchBar) ;;;
  call (Click searchBar) ;;;
  call (TypeText searchBar productName) ;;;
  sleep 1000 ;;;
  call (Press (lit "Enter")) ;;;
  call WaitForNavigation ;;;
  call (WaitForSelector resultsSelector) ;;;
  sleep 3000 ;;;
  call (Evaluate (lit "findFirstNonSponsoredProduct")) ;;;
  let firstProductUrl := findFirstNonSponsoredProduct (products site) in
  match firstProductUrl with
  | Some url =>
      if negb (truthy_str firstProductUrl) then throw NoOrganicResult
      else
        call (Goto url) ;;;
        call (WaitForSelector titleSelector) ;;;
        sleep 3000 ;;;
        call (Evaluate (lit "extractProductDetails")) ;;;
        ret (extractProductDetails (page_at site url))
  | None => throw NoOrganicResult
  end.

Definition scrapeProduct (site : Site) (productName : jsstring) : M Details :=
  call Launch ;;;
  try_finally
    (try_catch (scrapeBody site productName) (fun error => throw error))
    (call Close).

(** ** The controller *)

Record Rating : Type := {
  stars : option number;
  ratingCount : option number         (* totalRatings *)
}.

Record Data : Type := {
  d_brand : jsstring;
  d_title : jsstring;
  d_price : jsstring;
  d_mrp : option jsstring;
  d_discount : option jsstring;
  d_rating : Rating;
  d_topOffers : list jsstring;
  d_seller : jsstring;
  d_sizes : list jsstring
}.

Definition currency : jsstring := [8377%N].

Definition formatMoney (h : Host) (x : option number) : option jsstring :=
  match x with
  | Some v => if truthy_num x then Some (currency ++ toLocaleString_en_IN h v) else None
  | None => None
  end.

Definition formatPercent (h : Host) (x : option number) : option jsstring :=
  match x with
  | Some v => if truthy_num x then Some (Number_toString h v ++ lit "%") else None
  | None => None
  end.

Definition formatOutput (h : Host) (productDetails : Details) : Data :=
  {| d_brand := brand productDetails;
     d_title := title productDetails;
     d_price := match formatMoney h (price productDetails) with
                | Some s => s
                | None => lit "Not available"
                end;
     d_mrp := formatMoney h (mrp productDetails);
     d_discount := formatPercent h (discount productDetails);
     d_rating := {| stars := rating productDetails;
                    ratingCount := totalRatings productDetails |};
     d_topOffers := if Nat.ltb 0 (List.length (offers productDetails))
                    then offers productDetails
                    else [lit "No offers available"];
     d_seller := match seller productDetails with
                 | Some s => if truthy_str (Some s) then s else lit "Not specified"
                 | None => lit "Not specified"
                 end;
     d_sizes := if Nat.ltb 0 (List.length (sizes productDetails))
                then sizes productDetails
                else [lit "No sizes available"] |}.

Definition myntraProductScrapper (h : Host) (site : Site) (productName : jsstring)
  : M (Envelope Data) :=
  try_catch
    (productDetails <- scrapeProduct site productName ;;
     ret (Success (formatOutput h productDetails)))
    (fun message => ret (Failure message)).

(** The calls of the [try] block when none rejects, and how it ends then. *)
Definition prelude : list event :=
  [NewPage; SetViewport 1920 1080; SetUserAgent userAgent].

Definition searchPhase (productName : jsstring) : list event :=
  [Goto baseUrl; Delay 2000; WaitForSelector searchBar; Click searchBar;
   TypeText searchBar productName; Delay 1000; Press (lit "Enter");
   WaitForNavigation; WaitForSelector resultsSelector; Delay 3000;
   Evaluate (lit "findFirstNonSponsoredProduct")].

Definition detailPhase (url : jsstring) : list event :=
  [Goto url; WaitForSelector titleSelector; Delay 3000;
   Evaluate (lit "extractProductDetails")].

Definition plan (site : Site) (productName : jsstring) : list event * result Details :=
  match findFirstNonSponsoredProduct (products site) with
  | Some url =>
      if truthy_str (Some url)
      then (prelude ++ searchPhase productName ++ detailPhase url,
            Ok (extractProductDetails (page_at site url)))
      else (prelude ++ searchPhase productName, Throw NoOrganicResult)
  | None => (prelude ++ searchPhase productName, Throw NoOrganicResult)
  end.

End Myntra.

(* ===================================================================== *)
(** * The normalizer, field by field                                      *)
(* ===================================================================== *)

Module Normalizer.
Import JS.

(** How the five defaulted fields of [output.data] depend on the raw
    record: the formatted text when the raw value is truthy, the default
    otherwise. *)
Definition rule (h : Host) (currency : jsstring)
  (price mrp discount : option number) (offers : list jsstring)
  (seller : option jsstring)
  (d_price : jsstring) (d_mrp d_discount : option jsstring)
  (d_topOffers : list jsstring) (d_seller : jsstring) : Prop :=
  (forall p, price = Some p -> truthy_num price = true ->
             d_price = currency ++ toLocaleString_en_IN h p)
  /\ (truthy_num price = false <-> d_price = lit "Not available")
  /\ (forall m, mrp = Some m -> truthy_num mrp = true ->
                d_mrp = Some (currency ++ toLocaleString_en_IN h m))
  /\ (truthy_num mrp = false <-> d_mrp = None)
  /\ (forall d, discount = Some d -> truthy_num discount = true ->
                d_discount = Some (Number_toString h d ++ lit "%"))
  /\ (truthy_num discount = false <-> d_discount = None)
  /\ (offers <> [] -> d_topOffers = offers)
  /\ (offers = [] -> d_topOffers = [lit "No offers available"])
  /\ (forall s, seller = Some s -> s <> [] -> d_seller = s)
  /\ (seller = None \/ seller = Some [] -> d_seller = lit "Not specified").

End Normalizer.

(* ===================================================================== *)
(** * Listings                                                            *)
(* ===================================================================== *)

Module Listing.
Import JS.

(** A candidate the loop of a filter passes over: it is flagged as
    sponsored, or it has no usable link. *)
Definition passed_over {C : Type} (sponsored : C -> bool)
  (linkOf : C -> option jsstring) (c : C) : Prop :=
  sponsored c = true \/ linkOf c = None.

(** [url] is the link of the first candidate of [cs], in page order, that
    is not passed over. *)
Definition first_accepted {C : Type} (sponsored : C -> bool)
  (linkOf : C -> option jsstring) (cs : list C) (url : jsstring) : Prop :=
  exists pre c post,
    cs = pre ++ c :: post /\ Forall (passed_over sponsored linkOf) pre
    /\ sponsored c = false /\ linkOf c = Some url.

(** [linkOf] accepts a candidate exactly when its link element has a
    non-empty href that passes [accept], and then gives [absolute href]. *)
Definition resolves {C : Type} (link : C -> option (option jsstring))
  (accept : jsstring -> bool) (absolute : jsstring -> jsstring)
  (linkOf : C -> option jsstring) : Prop :=
  forall c url,
    linkOf c = Some url <->
    exists href,
      link c = Some (Some href) /\ href <> [] /\ accept href = true
      /\ url = absolute href.

(** A candidate whose href does not pass [accept] is skipped: the search
    goes on with the next candidate. *)
Definition skips {C : Type} (link : C -> option (option jsstring))
  (accept : jsstring -> bool) (find : list C -> option jsstring) : Prop :=
  forall c rest href,
    link c = Some (Some href) -> accept href = false ->
    find (c :: rest) = find rest.

(** The URL returned is the link of one of the candidates. *)
Definition returns_a_link {C : Type} (linkOf : C -> option jsstring)
  (find : list C -> option jsstring) : Prop :=
  forall cs url, find cs = Some url -> exists c, In c cs /\ linkOf c = Some url.

(** An href that starts with "http" is kept, any other gets [prefix] in
    front. *)
Definition absolutises (prefix : jsstring) (absolute : jsstring -> jsstring) : Prop :=
  forall href,
    (startsWith (lit "http") href = true -> absolute href = href)
    /\ (startsWith (lit "http") href = false -> absolute href = prefix ++ href).

End Listing.

(* ===================================================================== *)
(** * Concrete pages, listings and hosts                                  *)
(* ===================================================================== *)

Module Samples.
Import JS Effects.

(** A host for the examples: both functions print the integral part in
    decimal, [toLocaleString] with the digit groups of en-IN.  It is what
    an ECMAScript host prints on integral values of magnitude below
    10^21, which are the only ones the examples format. *)
Definition integer_part (x : number) : Z :=
  match Prim2SF x with
  | S754_finite s m e =>
      let v := if (0 <=? e)%Z then (Zpos m * 2 ^ e)%Z else (Zpos m / 2 ^ (- e))%Z in
      if s then (- v)%Z else v
  | _ => 0%Z
  end.

Definition decimal (z : Z) : jsstring := lit (NilZero.string_of_int (Z.to_int z)).

Fixpoint group2 (fuel : nat) (rev_digits : jsstring) : jsstring :=
  match fuel, rev_digits with
  | S f, a :: b :: ((_ :: _) as rest) => a :: b :: 44%N :: group2 f rest
  | _, _ => rev_digits
  end.

Definition group_indian (digits : jsstring) : jsstring :=
  match rev digits with
  | a :: b :: c :: ((_ :: _) as rest) =>
      rev (a :: b :: c :: 44%N :: group2 (List.length rest) rest)
  | _ => digits
  end.

Definition plain_host : Host :=
  {| Number_toString := fun x => decimal (integer_part x);
     toLocaleString_en_IN := fun x => group_indian (decimal (integer_part x)) |}.

(** A browser in which every call fulfils. *)
Definition fulfil : Oracle := fun _ _ => None.

Definition rupee : jsstring := [8377%N].

(** *** Flipkart *)

Definition flipkart_blank : Flipkart.ProductPage :=
  {| Flipkart.titleEl := None; Flipkart.priceEl := None; Flipkart.mrpEl := None;
     Flipkart.discountEl := None; Flipkart.ratingEl := None;
     Flipkart.ratingsReviewsEl := None; Flipkart.offerElements := [];
     Flipkart.sellerEl := None; Flipkart.availEl := None;
     Flipkart.cartBtn := false; Flipkart.deliveryEl := None |}.

(** The product page of the scenario of the specification: price 2999,
    mrp 4999, and a badge that says something else. *)
Definition flipkart_shoes : Flipkart.ProductPage :=
  {| Flipkart.titleEl := Some (lit " Nike Shoes ");
     Flipkart.priceEl := Some (lit "2,999");
     Flipkart.mrpEl := Some (lit "4,999");
     Flipkart.discountEl := Some (lit "35% off");
     Flipkart.ratingEl := Some (lit "4.3");
     Flipkart.ratingsReviewsEl := Some (lit "1,204 Ratings & 97 Reviews");
     Flipkart.offerElements :=
       [lit "Bank Offer 5% cashback on Axis Bank Card T&C";
        lit "Bank  Offer 5% cashback on Axis Bank Card";
        lit "Special Price Get extra 10% off T&C"];
     Flipkart.sellerEl := Some (lit "RetailNet 4.1");
     Flipkart.availEl := None;
     Flipkart.cartBtn := true;
     Flipkart.deliveryEl := Some (lit " Delivery by Monday ") |}.

Definition flipkart_sponsored (href : jsstring) : Flipkart.Container :=
  {| Flipkart.textContent := lit "Sponsored Nike";
     Flipkart.sponsoredBadge := true;
     Flipkart.parents := [];
     Flipkart.link := Some (Some href) |}.

Definition flipkart_organic (href : option (option jsstring)) : Flipkart.Container :=
  {| Flipkart.textContent := lit "Nike Shoes";
     Flipkart.sponsoredBadge := false;
     Flipkart.parents :=
       [{| Flipkart.is_body := false; Flipkart.classList := [lit "cPHDOP"] |};
        {| Flipkart.is_body := true; Flipkart.classList := [] |}];
     Flipkart.link := href |}.

(** Candidates 1 and 2 carry a sponsored marker, candidate 3 does not. *)
Definition flipkart_listing : list Flipkart.Container :=
  [flipkart_sponsored (lit "/p/ad-1"); flipkart_sponsored (lit "/p/ad-2");
   flipkart_organic (Some (Some (lit "/p/nike-shoes-123")))].

Definition flipkart_site (o : Oracle) (cs : list Flipkart.Container)
  (page : Flipkart.ProductPage) : Flipkart.Site :=
  {| Flipkart.oracle := o; Flipkart.containers := cs;
     Flipkart.page_at := fun _ => page |}.

(** *** Amazon *)

Definition amazon_blank : Amazon.ProductPage :=
  {| Amazon.titleEl := None; Amazon.priceWholeCentered := None;
     Amazon.priceWhole := None; Amazon.offscreenPrice := None;
     Amazon.textPrice := None; Amazon.basisPrice := None;
     Amazon.savingsPercentage := None; Amazon.ratingOutOfText := None;
     Amazon.iconStarSpan := None; Amazon.iconAlt := None;
     Amazon.acrCustomerReviewText := None; Amazon.totalReviewCount := None;
     Amazon.offerBadges := []; Amazon.couponElements := [];
     Amazon.bankOffers := []; Amazon.sellerProfileTrigger := None;
     Amazon.merchantInfoFeature := None; Amazon.merchantInfo := None;
     Amazon.availabilitySpan := None |}.

Definition amazon_priced (price mrp : jsstring) (badge : option jsstring)
  : Amazon.ProductPage :=
  {| Amazon.titleEl := Some (lit "Nike Shoes");
     Amazon.priceWholeCentered := None;
     Amazon.priceWhole := Some price; Amazon.offscreenPrice := None;
     Amazon.textPrice := Some mrp; Amazon.basisPrice := None;
     Amazon.savingsPercentage := badge; Amazon.ratingOutOfText := None;
     Amazon.iconStarSpan := None; Amazon.iconAlt := None;
     Amazon.acrCustomerReviewText := None; Amazon.totalReviewCount := None;
     Amazon.offerBadges := []; Amazon.couponElements := [];
     Amazon.bankOffers := []; Amazon.sellerProfileTrigger := None;
     Amazon.merchantInfoFeature := None; Amazon.merchantInfo := None;
     Amazon.availabilitySpan := None |}.

(** A page without a saving: price and mrp are both 999, and the seller
    element holds white space only. *)
Definition amazon_full_price : Amazon.ProductPage :=
  {| Amazon.titleEl := Some (lit "Nike Shoes");
     Amazon.priceWholeCentered := None;
     Amazon.priceWhole := Some (lit "999"); Amazon.offscreenPrice := None;
     Amazon.textPrice := Some (rupee ++ lit "999"); Amazon.basisPrice := None;
     Amazon.savingsPercentage := None; Amazon.ratingOutOfText := None;
     Amazon.iconStarSpan := None; Amazon.iconAlt := None;
     Amazon.acrCustomerReviewText := None; Amazon.totalReviewCount := None;
     Amazon.offerBadges := []; Amazon.couponElements := [];
     Amazon.bankOffers := []; Amazon.sellerProfileTrigger := Some (lit "  ");
     Amazon.merchantInfoFeature := None; Amazon.merchantInfo := None;
     Amazon.availabilitySpan := None |}.

(** A page that shows the same promotion in two badges. *)
Definition amazon_twice : Amazon.ProductPage :=
  {| Amazon.titleEl := Some (lit "Nike Shoes");
     Amazon.priceWholeCentered := None;
     Amazon.priceWhole := None; Amazon.offscreenPrice := None;
     Amazon.textPrice := None; Amazon.basisPrice := None;
     Amazon.savingsPercentage := None; Amazon.ratingOutOfText := None;
     Amazon.iconStarSpan := None; Amazon.iconAlt := None;
     Amazon.acrCustomerReviewText := None; Amazon.totalReviewCount := None;
     Amazon.offerBadges :=
       [lit "No Cost EMI available on select cards";
        lit " No Cost EMI  available on select cards "];
     Amazon.couponElements := [];
     Amazon.bankOffers := []; Amazon.sellerProfileTrigger := None;
     Amazon.merchantInfoFeature := None; Amazon.merchantInfo := None;
     Amazon.availabilitySpan := None |}.

Definition amazon_result (spans : list jsstring) (href : option (option jsstring))
  : Amazon.SearchResult :=
  {| Amazon.sponsoredByAttr := false; Amazon.spans := spans;
     Amazon.classList := [lit "s-result-item"]; Amazon.sponsoredLabel := false;
     Amazon.link := href |}.


(** A result whose only mark is a span that reads "Ad". *)
Definition amazon_ad : Amazon.SearchResult :=
  amazon_result [lit "Nike Shoes"; lit " Ad "] (Some (Some (lit "/dp/B0AD"))).

(** An organic result in which the link query finds nothing. *)
Definition amazon_unlinked : Amazon.SearchResult :=
  amazon_result [lit "Nike Shoes"] None.

Definition amazon_linked : Amazon.SearchResult :=
  amazon_result [lit "Nike Shoes"] (Some (Some (lit "/dp/B0OK"))).

(** A browser in which every navigation times out. *)
Definition no_network : Oracle :=
  fun _ ev =>
    match ev with
    | Goto _ => Some (lit "Navigation timeout of 60000 ms exceeded")
    | _ => None
    end.


(** A browser in which every call fulfils but the teardown. *)
Definition close_fails : Oracle :=
  fun _ ev =>
    match ev with
    | Close => Some (lit "Protocol error (Browser.close): Target closed")
    | _ => None
    end.

(** A browser whose navigations time out and whose teardown is rejected
    too. *)
Definition crashed : Oracle :=
  fun t ev =>
    match ev with
    | Close => close_fails t ev
    | _ => no_network t ev
    end.

Definition amazon_site (o : Oracle) (rs : list Amazon.SearchResult)
  (page : Amazon.ProductPage) : Amazon.Site :=
  {| Amazon.oracle := o; Amazon.results := rs; Amazon.page_at := fun _ => page |}.

(** *** Myntra *)

Definition myntra_blank : Myntra.ProductPage :=
  {| Myntra.brandEl := None; Myntra.titleEl := None; Myntra.priceEl := None;
     Myntra.mrpEl := None; Myntra.discountEl := None; Myntra.ratingEl := None;
     Myntra.ratingsCountEl := None; Myntra.offerElements := [];
     Myntra.sellerEl := None; Myntra.sizeButtons := [] |}.

(** A sale page: price 2999, mrp 4999, and a badge that says 50. *)
Definition myntra_sale : Myntra.ProductPage :=
  {| Myntra.brandEl := Some (lit "Nike"); Myntra.titleEl := Some (lit "Running Shoes");
     Myntra.priceEl := Some (rupee ++ lit "2999");
     Myntra.mrpEl := Some (lit "MRP " ++ rupee ++ lit "4999");
     Myntra.discountEl := Some (lit "(50% OFF)");
     Myntra.ratingEl := Some (lit "4.2");
     Myntra.ratingsCountEl := Some (lit "4.2k Ratings");
     Myntra.offerElements := []; Myntra.sellerEl := None;
     Myntra.sizeButtons := [] |}.

(** A page that lists the same offer twice. *)
Definition myntra_twice : Myntra.ProductPage :=
  {| Myntra.brandEl := Some (lit "Nike"); Myntra.titleEl := Some (lit "Running Shoes");
     Myntra.priceEl := None; Myntra.mrpEl := None; Myntra.discountEl := None;
     Myntra.ratingEl := None; Myntra.ratingsCountEl := None;
     Myntra.offerElements :=
       [Some (lit "Best Price: Rs. 2499"); Some (lit "Best Price:  Rs. 2499 ")];
     Myntra.sellerEl := None; Myntra.sizeButtons := [] |}.

Definition myntra_counted (text : jsstring) : Myntra.ProductPage :=
  {| Myntra.brandEl := None; Myntra.titleEl := None; Myntra.priceEl := None;
     Myntra.mrpEl := None; Myntra.discountEl := None; Myntra.ratingEl := None;
     Myntra.ratingsCountEl := Some text; Myntra.offerElements := [];
     Myntra.sellerEl := None; Myntra.sizeButtons := [] |}.

Definition myntra_product (indicators : list jsstring) (href : option (option jsstring))
  : Myntra.Product :=
  {| Myntra.sponsoredIndicators := indicators; Myntra.link := href |}.

Definition myntra_site (o : Oracle) (ps : list Myntra.Product)
  (page : Myntra.ProductPage) : Myntra.Site :=
  {| Myntra.oracle := o; Myntra.products := ps; Myntra.page_at := fun _ => page |}.

End Samples.

(* ===================================================================== *)
(** * The wording of the specification                                    *)
(* ===================================================================== *)

(** Definitions that follow the words of the specification rather than
    the code, to compare the two. *)
Module Stated.
Import JS.

(** The four sponsorship signals of the SponsoredFilter, read on an Amazon
    search result: (a) a sponsored-marker element, (b) a text equal to
    "sponsored" or "ad" after normalisation, (c) membership in a
    promotional class, (d) a sponsored-label element. *)
Definition amazon_signal (r : Amazon.SearchResult) : bool :=
  Amazon.sponsoredByAttr r
  || existsb (fun span =>
                let text := trim (toLowerCase span) in
                str_eqb text (lit "sponsored") || str_eqb text (lit "ad"))
       (Amazon.spans r)
  || (Amazon.contains (Amazon.classList r) (lit "AdHolder")
      || Amazon.contains (Amazon.classList r) (lit "s-sponsored-list-item"))
  || Amazon.sponsoredLabel r.

End Stated.

(* ===================================================================== *)
(** * Requests, the routes and the name unifier                           *)
(* ===================================================================== *)

Module Http.
Import JS Effects.

(** A value found in a parsed request: what the JSON body parser or the
    query parser builds, and [undefined] for a property that is not
    there. *)
Inductive value : Type :=
| JUndefined
| JNull
| JBoolean (b : bool)
| JNumber (x : number)
| JString (s : jsstring)
(* An array or an object.  A handler reads nothing inside; it uses the
   value as text at most, and [text] is what that conversion gives: the
   string, or the message of the TypeError raised when the value has no
   primitive value (an own [toString] that is not a function). *)
| JArray (text : result jsstring)
| JObject (text : result jsstring).

(** [!!v] *)
Definition truthy (v : value) : bool :=
  match v with
  | JUndefined | JNull => false
  | JBoolean b => b
  | JNumber x => truthy_num (Some x)
  | JString s => truthy_str (Some s)
  | JArray _ | JObject _ => true
  end.

(** [typeof v] *)
Definition typeof (v : value) : jsstring :=
  match v with
  | JUndefined => lit "undefined"
  | JBoolean _ => lit "boolean"
  | JNumber _ => lit "number"
  | JString _ => lit "string"
  | JNull | JArray _ | JObject _ => lit "object"
  end.

(** The own properties of a parsed object, each name once; [o[key]] is
    [undefined] when there is none of that name. *)
Definition object := list (jsstring * value).

Fixpoint get (key : jsstring) (o : object) : value :=
  match o with
  | [] => JUndefined
  | (k, v) :: rest => if str_eqb k key then v else get key rest
  end.

(** The request as a handler reads it.  [body] is [req.body] after the
    JSON parser: the parsed object, or [undefined] ([None]) when no body
    was parsed; an array body has none of the properties read here and is
    the object without properties.  [query] is [req.query], always an
    object. *)
Record Request : Type := {
  body : option object;
  query : object
}.

(** [res.status(status).json(json)]; [res.json] alone answers 200. *)
Record Response (P : Type) : Type := {
  status : Z;
  json : P
}.
Arguments status {P} r.
Arguments json {P} r.

(** What the process and the host contribute to a handler. *)
Record Server : Type := {
  (* String(v) for a value that is not a string *)
  ToString : value -> jsstring;
  (* the message of the TypeError of [const { name } = undefined] *)
  destructure_message : jsstring -> jsstring;
  (* error.stack of the error with this message *)
  stack : jsstring -> jsstring;
  (* process.env.NODE_ENV and process.env.GOOGLE_API_KEY *)
  NODE_ENV : option jsstring;
  GOOGLE_API_KEY : option jsstring
}.

(** The string a parameter that is used as text stands for. *)
Definition toString (sv : Server) (v : value) : jsstring :=
  match v with
  | JString s => s
  | _ => ToString sv v
  end.

(** The value of [${v}] in a template literal: the conversion to a string,
    which raises the TypeError of an array or an object that has no
    primitive value. *)
Definition template (sv : Server) (v : value) : result jsstring :=
  match v with
  | JArray text | JObject text => text
  | _ => Ok (toString sv v)
  end.

End Http.

Module Routes.
Import JS Effects Http.
Local Open Scope js_scope.

(** The bodies the Amazon and the Flipkart route answer with:
    [{ error }], or an envelope (the controller's, or the
    [{ success: false, error }] of the [catch]). *)
Inductive Reply (D : Type) : Type :=
| Required (error : jsstring)
| Result (output : Envelope D).
Arguments Required {D} error.
Arguments Result {D} output.

Definition productNameOf (o : object) : value := get (lit "productName") o.

(** [req.body || {}] *)
Definition bodyOrEmpty (req : Request) : object :=
  match body req with
  | Some o => o
  | None => []
  end.

(** [router.post("/amazon-scrape", ...)] *)
Definition amazonScrape (sv : Server) (h : Host) (site : Amazon.Site) (req : Request)
  : M (Response (Reply Amazon.Data)) :=
  try_catch
    (let productName := productNameOf (bodyOrEmpty req) in
     if negb (truthy productName) || negb (str_eqb (typeof productName) (lit "string"))
     then ret {| status := 400; json := Required (lit "productName is required") |}
     else
       result <- Amazon.amazonProductScrapper h site (toString sv productName) ;;
       ret {| status := 200; json := Result result |})
    (fun error =>
       ret {| status := 500;
              json := Result (Failure (lit "Internal server error")) |}).

(** [router.post("/flipkart-scrape", ...)] *)
Definition flipkartScrape (sv : Server) (h : Host) (site : Flipkart.Site) (req : Request)
  : M (Response (Reply Flipkart.Data)) :=
  try_catch
    (let productName := productNameOf (bodyOrEmpty req) in
     if negb (truthy productName) || negb (str_eqb (typeof productName) (lit "string"))
     then ret {| status := 400; json := Required (lit "productName is required") |}
     else
       result <- Flipkart.flipkartProductScrapper h site (toString sv productName) ;;
       ret {| status := 200; json := Result result |})
    (fun error =>
       ret {| status := 500;
              json := Result (Failure (lit "Internal server error")) |}).

(** The bodies the Myntra routes answer with: an envelope, or the object
    of the [catch], [{ success: false, platform, error, details }], whose
    [details] is [undefined] outside development. *)
Inductive MyntraReply : Type :=
| MyntraResult (output : Envelope Myntra.Data)
| MyntraError (platform error : jsstring) (details : option jsstring).

Definition development (sv : Server) : bool :=
  match NODE_ENV sv with
  | Some e => str_eqb e (lit "development")
  | None => false
  end.

Definition myntraCatch (sv : Server) (message : jsstring) : M (Response MyntraReply) :=
  ret {| status := 500;
         json := MyntraError (lit "Myntra") message
                   (if development sv then Some (stack sv message) else None) |}.

(** The part the two Myntra handlers share after [productName] is read:
    the test, the line logged with [${productName}] in it, and the call.
    [scraper] is the imported controller, which is handed the value as it
    is. *)
Definition myntraAnswer (sv : Server) (scraper : value -> M (Envelope Myntra.Data))
  (required : jsstring) (productName : value) : M (Response MyntraReply) :=
  if negb (truthy productName)
  then ret {| status := 400; json := MyntraResult (Failure required) |}
  else
    logged <- settled (template sv productName) ;;
    result <- scraper productName ;;
    ret {| status := 200; json := MyntraResult result |}.

(** [router.get('/myntra-scrape', ...)] *)
Definition myntraScrapeGet (sv : Server) (scraper : value -> M (Envelope Myntra.Data))
  (req : Request) : M (Response MyntraReply) :=
  try_catch
    (myntraAnswer sv scraper
       (lit "Product name is required. Usage: /myntra-scrape?productName=YourProduct")
       (productNameOf (query req)))
    (myntraCatch sv).

(** [router.post('/myntra-scrape', ...)]: [const { productName } = req.body]
    raises a TypeError when there is no body. *)
Definition myntraScrapePost (sv : Server) (scraper : value -> M (Envelope Myntra.Data))
  (req : Request) : M (Response MyntraReply) :=
  try_catch
    (match body req with
     | None => throw (destructure_message sv (lit "productName"))
     | Some o =>
         myntraAnswer sv scraper (lit "Product name is required in request body")
           (productNameOf o)
     end)
    (myntraCatch sv).

(** The controller on the values it is made for, the strings; what the
    browser library does with another value that is typed into the search
    bar is [other]. *)
Definition myntraScraper (h : Host) (site : Myntra.Site)
  (other : value -> M (Envelope Myntra.Data)) (productName : value)
  : M (Envelope Myntra.Data) :=
  match productName with
  | JString s => Myntra.myntraProductScrapper h site s
  | _ => other productName
  end.

End Routes.

Module Unify.
Import JS Effects Http.

(** The bodies [unifyname] answers with. *)
Inductive Reply : Type :=
| Error (error : jsstring)                   (* { error } *)
| ErrorDetails (error details : jsstring)    (* { error, details } *)
| Unified (unifiedProductName : jsstring).   (* { unifiedProductName } *)

(** One request to the generative model: the key the client was built
    with, the name of the model and the text of the only part. *)
Record Generate : Type := {
  apiKey : jsstring;
  model : jsstring;
  text : jsstring
}.

(** The service: for a request, [response.text()] of what
    [generateContent] fulfils with, or the message of the error that the
    call or [response.text()] raises. *)
Definition Gemini := Generate -> result jsstring.

Definition newline : jsstring := [10%N].

(** The template literal, up to and after [${link}]. *)
Definition promptBefore : jsstring :=
  newline
  ++ lit "      You are a product name extraction and normalization AI." ++ newline
  ++ lit "      Given a product link from any e-commerce platform," ++ newline
  ++ lit "      extract the main product name (brand + model + essential specs) and return "
  ++ newline
  ++ lit "      a clean, unified product name suitable for searching across all platforms."
  ++ newline
  ++ lit "      Now process this link: ".

Definition promptAfter : jsstring :=
  newline
  ++ lit "      Return only the unified product name. No explanation." ++ newline
  ++ lit "    ".

(** [unifyname]: the requests made to the model, and the answer.  The
    template literal of the prompt converts [link] to a string; a TypeError
    raised there is caught like any other. *)
Definition unifyname (sv : Server) (gemini : Gemini) (req : Request)
  : list Generate * Response Reply :=
  match body req with
  | None =>
      ([], {| status := 500;
              json := ErrorDetails (lit "Internal server error")
                        (destructure_message sv (lit "link")) |})
  | Some o =>
      let link := get (lit "link") o in
      if negb (truthy link)
      then ([], {| status := 400; json := Error (lit "Please provide a product link.") |})
      else
        match GOOGLE_API_KEY sv with
        | Some (c :: k) =>
            match template sv link with
            | Ok linkText =>
                let prompt := promptBefore ++ linkText ++ promptAfter in
                let request := {| apiKey := c :: k; model := lit "gemini-2.0-flash";
                                  text := prompt |} in
                ([request],
                 match gemini request with
                 | Ok responseText =>
                     {| status := 200; json := Unified (trim responseText) |}
                 | Throw message =>
                     {| status := 500;
                        json := ErrorDetails (lit "Internal server error") message |}
                 end)
            | Throw message =>
                ([], {| status := 500;
                        json := ErrorDetails (lit "Internal server error") message |})
            end
        | _ =>
            ([], {| status := 500;
                    json := Error (lit "Missing GOOGLE_API_KEY in .env file") |})
        end
  end.

End Unify.

(* ===================================================================== *)
(** * Vocabulary of the further properties                                *)
(* ===================================================================== *)

Module Text.
Import JS.

(** No white space at either end. *)
Definition trimmed (s : jsstring) : bool :=
  match s with
  | c :: _ => negb (is_space c)
  | [] => true
  end
  && match rev s with
     | c :: _ => negb (is_space c)
     | [] => true
     end.

(** Every white-space character is a single U+0020 between two other
    characters or at an end. *)
Fixpoint single_spaced (s : jsstring) : bool :=
  match s with
  | [] => true
  | c :: s' =>
      (if is_space c
       then N.eqb c 32 && match s' with
                          | d :: _ => negb (is_space d)
                          | [] => true
                          end
       else true)
      && single_spaced s'
  end.

(** What the test [offerText && offerText.length > 10] lets through after
    [trim] and the collapse of white space. *)
Definition normalised (o : jsstring) : Prop :=
  (10 < List.length o)%nat /\ trimmed o = true /\ single_spaced o = true.

(** Not empty, and single-spaced. *)
Definition worded (o : jsstring) : Prop := o <> [] /\ single_spaced o = true.

(** [p] occurs in [s], letters compared without case. *)
Fixpoint includes_ci (p s : jsstring) : bool :=
  startsWith_ci p s ||
  match s with
  | [] => false
  | _ :: s' => includes_ci p s'
  end.

(** A UTF-16 code unit. *)
Definition code_unit (c : N) : bool := N.ltb c 65536.

Definition is_surrogate (c : N) : bool := in_range 55296 57343 c.

(** The characters [encodeURIComponent] writes: the unreserved ones and
    the escapes, a percent sign and two capital hexadecimal digits. *)
Definition url_safe (c : N) : bool := is_unreserved c || N.eqb c 37.

End Text.

Module Trace.
Import JS Effects.

(** The URLs navigated to, in order. *)
Fixpoint navigations (t : list event) : list jsstring :=
  match t with
  | [] => []
  | Goto url :: t' => url :: navigations t'
  | _ :: t' => navigations t'
  end.

End Trace.

(* ===================================================================== *)
(** * Concrete requests, servers and more pages                           *)
(* ===================================================================== *)

Module Cases.
Import JS Effects Http.

(** A page that shows three coupons and nothing else that is an offer. *)
Definition amazon_coupons : Amazon.ProductPage :=
  {| Amazon.titleEl := Some (lit "Nike Shoes");
     Amazon.priceWholeCentered := None;
     Amazon.priceWhole := None; Amazon.offscreenPrice := None;
     Amazon.textPrice := None; Amazon.basisPrice := None;
     Amazon.savingsPercentage := None; Amazon.ratingOutOfText := None;
     Amazon.iconStarSpan := None; Amazon.iconAlt := None;
     Amazon.acrCustomerReviewText := None; Amazon.totalReviewCount := None;
     Amazon.offerBadges := [];
     Amazon.couponElements :=
       [lit "Apply 5% coupon on this item";
        lit "Save 10% with coupon FESTIVE";
        lit "Extra 2% off on prepaid orders"];
     Amazon.bankOffers := []; Amazon.sellerProfileTrigger := None;
     Amazon.merchantInfoFeature := None; Amazon.merchantInfo := None;
     Amazon.availabilitySpan := None |}.

(** A Flipkart page whose price is written with the rupee sign. *)
Definition flipkart_rupee : Flipkart.ProductPage :=
  {| Flipkart.titleEl := Some (lit "Nike Shoes");
     Flipkart.priceEl := Some (Samples.rupee ++ lit "2,999");
     Flipkart.mrpEl := Some (Samples.rupee ++ lit "4,999");
     Flipkart.discountEl := Some (lit "40% off");
     Flipkart.ratingEl := None; Flipkart.ratingsReviewsEl := None;
     Flipkart.offerElements := []; Flipkart.sellerEl := None;
     Flipkart.availEl := None; Flipkart.cartBtn := true;
     Flipkart.deliveryEl := None |}.

(** A Flipkart page of a product that nobody has rated. *)
Definition flipkart_unrated : Flipkart.ProductPage :=
  {| Flipkart.titleEl := Some (lit "Nike Shoes");
     Flipkart.priceEl := Some (lit "2,999");
     Flipkart.mrpEl := None;
     Flipkart.discountEl := Some (lit "Special price");
     Flipkart.ratingEl := Some (lit "No ratings yet.");
     Flipkart.ratingsReviewsEl := None;
     Flipkart.offerElements := []; Flipkart.sellerEl := None;
     Flipkart.availEl := None; Flipkart.cartBtn := true;
     Flipkart.deliveryEl := None |}.

(** A server with a key, outside development. *)
Definition server : Server :=
  {| ToString := fun v =>
       match v with
       | JUndefined => lit "undefined"
       | JNull => lit "null"
       | JBoolean b => if b then lit "true" else lit "false"
       | JNumber x => Number_toString Samples.plain_host x
       | JString s => s
       | JArray _ | JObject _ => []
       end;
     destructure_message := fun name =>
       lit "Cannot destructure property '" ++ name
       ++ lit "' of 'req.body' as it is undefined.";
     stack := fun message => lit "TypeError: " ++ message;
     NODE_ENV := None;
     GOOGLE_API_KEY := Some (lit "key-1") |}.

(** A model that answers every request with the same name, in white
    space. *)
Definition gemini : Unify.Gemini :=
  fun _ => Ok (lit "  Nike Air Max 90 " ++ [10%N]).

Definition post (fields : object) : Request :=
  {| body := Some fields; query := [] |}.

Definition get_query (fields : object) : Request :=
  {| body := None; query := fields |}.

(** A body that names a product link. *)
Definition linked : object :=
  [(lit "link", JString (lit "https://www.amazon.in/dp/B0OK"))].

(** The value of the JSON text [{"toString": 1}]: an object whose own
    [toString] is not a function. *)
Definition no_primitive : value :=
  JObject (Throw (lit "Cannot convert object to primitive value")).

End Cases.

(* ===================================================================== *)
(** * Properties                                                          *)
(* ===================================================================== *)

Import JS Effects.

(** ** The embedding on concrete inputs *)

Example Math_round_ties :
  Math_round 2.5%float = 3%float /\ Math_round (-2.5)%float = (-2)%float
  /\ Math_round 0.5%float = 1%float /\ Math_round (-0.5)%float = neg_zero
  /\ Math_round 40%float = 40%float /\ Math_round nan = nan.
Proof. repeat split. Qed.

Example parseFloat_prefixes :
  parseFloat (lit "  2999.50 only") = 2999.5%float
  /\ parseFloat (lit "1.2.3") = parseFloat (lit "1.2")
  /\ parseFloat (lit "-.5e1") = (-5)%float
  /\ parseFloat (lit "Rs. 2999") = nan
  /\ parseFloat (lit ".") = nan
  /\ parseFloat [] = nan.
Proof. repeat split. Qed.

Example parseInt_prefixes :
  parseInt (lit " 42% off") = 42%float
  /\ parseInt (lit "0x1F") = 31%float
  /\ parseInt (lit "-7.9") = (-7)%float
  /\ parseInt (lit "off") = nan.
Proof. repeat split. Qed.

Example encodeURIComponent_query :
  encodeURIComponent (lit "Nike Shoes & co/1") = Some (lit "Nike%20Shoes%20%26%20co%2F1")
  /\ encodeURIComponent [8377%N] = Some (lit "%E2%82%B9")
  /\ encodeURIComponent [55357%N; 56845%N] = Some (lit "%F0%9F%98%8D")
  /\ encodeURIComponent [55357%N] = None.
Proof. repeat split. Qed.

Example string_operations :
  trim (lit "  a b  ") = lit "a b"
  /\ collapse_spaces (lit "a   b  c ") = lit "a b c "
  /\ match_class_run is_digit (lit "ab123cd45") = Some (lit "123")
  /\ toLowerCase (lit "SpOnsored") = lit "sponsored"
  /\ Flipkart.cut_terms (lit "5% off t&c apply") = lit "5% off "
  /\ Flipkart.match_count (lit "Ratings") (lit "1,204 Ratings & 97 Reviews")
     = Some (lit "1,204")
  /\ Flipkart.match_count (lit "Reviews") (lit "1,204 Ratings & 97 Reviews")
     = Some (lit "97").
Proof. repeat split. Qed.

(** The price regular expression of the Flipkart file does not remove the
    rupee sign, so a price text that starts with it parses to NaN. *)
Example Flipkart_price_with_rupee_sign :
  Flipkart.parsePrice (Some (Samples.rupee ++ lit "2,999")) = Some nan
  /\ Amazon.parseAmount (Samples.rupee ++ lit "2,999") = 2999%float.
Proof. split; reflexivity. Qed.

Example numbers_by_value :
  json_number nan = None
  /\ json_number infinity = None
  /\ json_number neg_infinity = None
  /\ json_number neg_zero = Some zero
  /\ json_number 2999%float = Some 2999%float.
Proof. repeat split. Qed.

(** The scenario of the specification: the query "Nike Shoes", candidates 1
    and 2 sponsored, candidate 3 linking to /p/nike-shoes-123, price 2999
    and mrp 4999. *)
Example scenario_nike_shoes :
  exists trace data,
    run (Flipkart.flipkartProductScrapper Samples.plain_host
           (Samples.flipkart_site Samples.fulfil Samples.flipkart_listing
              Samples.flipkart_shoes)
           (lit "Nike Shoes")) Samples.fulfil
    = (trace, Ok (Success data))
    /\ Flipkart.d_discount data = Some (lit "40%")
    /\ Flipkart.d_productLink data
       = Some (lit "https://www.flipkart.com/p/nike-shoes-123")
    /\ Flipkart.d_topOffers data
       = [lit "Bank Offer 5% cashback on Axis Bank Card";
          lit "Special Price Get extra 10% off"]
    /\ Flipkart.d_seller data = lit "RetailNet"
    /\ trace
       = [Launch; NewPage; SetViewport 1920 1080; SetUserAgent Flipkart.userAgent;
          Goto (lit "https://www.flipkart.com/search?q=Nike%20Shoes");
          WaitForSelector Flipkart.resultsSelector; Delay 3000;
          Evaluate (lit "findFirstNonSponsoredProduct");
          Goto (lit "https://www.flipkart.com/p/nike-shoes-123");
          WaitForSelector Flipkart.titleSelector; Delay 3000;
          Evaluate (lit "extractProductDetails"); Close].
Proof. eexists. eexists. split; [reflexivity|]. repeat split. Qed.

(** ** The monad against straight-line execution *)

Lemma bind_call {A} (ev : event) (f : unit -> M A) o t :
  bind (call ev) f o t =
  match outcome o t ev with
  | Some m => (t ++ [ev], Throw m)
  | None => f tt o (t ++ [ev])
  end.
Proof. unfold bind, call. destruct (outcome o t ev); reflexivity. Qed.

Lemma bind_ret {A B} (a : A) (f : A -> M B) o t : bind (ret a) f o t = f a o t.
Proof. reflexivity. Qed.

Lemma bind_throw {A B} m (f : A -> M B) o t : bind (throw m) f o t = (t, Throw m).
Proof. reflexivity. Qed.

Lemma exec_cons_view {A} o t ev rest (r : result A) :
  (let (made, x) := exec o t (ev :: rest) in
   (t ++ made, match x with Some m => Throw m | None => r end)) =
  match outcome o t ev with
  | Some m => (t ++ [ev], Throw m)
  | None =>
      let (made, x) := exec o (t ++ [ev]) rest in
      ((t ++ [ev]) ++ made, match x with Some m => Throw m | None => r end)
  end.
Proof.
  simpl. destruct (outcome o t ev); [reflexivity|].
  destruct (exec o (t ++ [ev]) rest). rewrite <- app_assoc. reflexivity.
Qed.

Lemma exec_nil_view {A} o t (r : result A) :
  (let (made, x) := exec o t [] in
   (t ++ made, match x with Some m => Throw m | None => r end)) = (t, r).
Proof. simpl. rewrite app_nil_r. reflexivity. Qed.

(** One call of the program against one call of the plan, as long as
    there are calls; then the two ends are compared. *)
Ltac run_calls :=
  repeat first
    [ rewrite bind_call, exec_cons_view;
      match goal with
      | |- match outcome ?o ?t ?ev with _ => _ end = _ =>
          destruct (outcome o t ev)
      end; [reflexivity|]
    | rewrite bind_ret
    | rewrite bind_throw ];
  rewrite exec_nil_view; reflexivity.

Lemma Flipkart_scrapeBody_exec site name o t :
  Flipkart.scrapeBody site name o t =
  let (calls, r) := Flipkart.plan site name in
  let (made, x) := exec o t calls in
  (t ++ made, match x with Some m => Throw m | None => r end).
Proof.
  unfold Flipkart.scrapeBody, Flipkart.plan, sleep,
    Flipkart.prelude, Flipkart.searchPhase, Flipkart.detailPhase.
  destruct (encodeURIComponent name) as [q|];
    [destruct (Flipkart.findFirstNonSponsoredProduct (Flipkart.containers site)) as [url|];
     [destruct (truthy_str (Some url))|]|];
    cbv beta iota zeta; cbn [app lift_option negb]; run_calls.
Qed.

Ltac respond_settle body_lemma the_plan :=
  unfold run, try_catch, try_finally, bind, call, ret, throw, settle;
  cbv beta iota;
  match goal with |- context [outcome ?o [] Launch] => destruct (outcome o [] Launch) end;
  cbv beta iota;
  [destruct the_plan; reflexivity|];
  rewrite body_lemma;
  destruct the_plan as [? [?|?]];
  cbn -[outcome exec];
  match goal with |- context [exec ?o ?t ?c] => destruct (exec o t c) as [? [?|]] end;
  cbn -[outcome exec];
  match goal with |- context [outcome ?o ?t Close] => destruct (outcome o t Close) end;
  reflexivity.

Lemma Flipkart_respond h site name :
  run (Flipkart.flipkartProductScrapper h site name) (Flipkart.oracle site) =
  let (calls, r) := Flipkart.plan site name in
  let (trace, env) :=
    settle (Flipkart.oracle site) calls (map_result (Flipkart.formatOutput h) r) in
  (trace, Ok env).
Proof.
  unfold Flipkart.flipkartProductScrapper, Flipkart.scrapeProduct.
  respond_settle Flipkart_scrapeBody_exec (Flipkart.plan site name).
Qed.

Lemma Amazon_scrapeBody_exec site name o t :
  Amazon.scrapeBody site name o t =
  let (calls, r) := Amazon.plan site name in
  let (made, x) := exec o t calls in
  (t ++ made, match x with Some m => Throw m | None => r end).
Proof.
  unfold Amazon.scrapeBody, Amazon.plan, sleep,
    Amazon.prelude, Amazon.searchPhase, Amazon.detailPhase.
  destruct (encodeURIComponent name) as [q|];
    [destruct (Amazon.findFirstNonSponsoredProduct (Amazon.results site)) as [url|];
     [destruct (truthy_str (Some url))|]|];
    cbv beta iota zeta; cbn [app lift_option negb]; run_calls.
Qed.

Lemma Amazon_respond h site name :
  run (Amazon.amazonProductScrapper h site name) (Amazon.oracle site) =
  let (calls, r) := Amazon.plan site name in
  let (trace, env) :=
    settle (Amazon.oracle site) calls (map_result (Amazon.formatOutput h) r) in
  (trace, Ok env).
Proof.
  unfold Amazon.amazonProductScrapper, Amazon.scrapeProduct.
  respond_settle Amazon_scrapeBody_exec (Amazon.plan site name).
Qed.

Lemma Myntra_scrapeBody_exec site name o t :
  Myntra.scrapeBody site name o t =
  let (calls, r) := Myntra.plan site name in
  let (made, x) := exec o t calls in
  (t ++ made, match x with Some m => Throw m | None => r end).
Proof.
  unfold Myntra.scrapeBody, Myntra.plan, sleep,
    Myntra.prelude, Myntra.searchPhase, Myntra.detailPhase.
  destruct (Myntra.findFirstNonSponsoredProduct (Myntra.products site)) as [url|];
    [destruct (truthy_str (Some url))|];
    cbv beta iota zeta; cbn [app negb]; run_calls.
Qed.

Lemma Myntra_respond h site name :
  run (Myntra.myntraProductScrapper h site name) (Myntra.oracle site) =
  let (calls, r) := Myntra.plan site name in
  let (trace, env) :=
    settle (Myntra.oracle site) calls (map_result (Myntra.formatOutput h) r) in
  (trace, Ok env).
Proof.
  unfold Myntra.myntraProductScrapper, Myntra.scrapeProduct.
  respond_settle Myntra_scrapeBody_exec (Myntra.plan site name).
Qed.

(** ** Straight-line execution *)

(** The calls made are an initial part of the plan, and all of it when
    nothing was rejected. *)
Lemma exec_prefix o plan : forall t made r,
  exec o t plan = (made, r) ->
  exists rest, plan = made ++ rest /\ (r = None -> rest = []).
Proof.
  induction plan as [|ev plan IH]; intros t made r H; simpl in H.
  - inversion H; subst. exists []. split; reflexivity.
  - destruct (outcome o t ev) as [m|] eqn:E.
    + inversion H; subst. exists plan. split; [reflexivity | discriminate].
    + destruct (exec o (t ++ [ev]) plan) as [made' r'] eqn:E'.
      inversion H; subst.
      destruct (IH _ _ _ E') as [rest [Hp Hr]].
      exists rest. split; [simpl; f_equal; exact Hp | exact Hr].
Qed.

(** Every call made fulfilled, except that the last one settled as the
    execution did. *)
Lemma exec_outcomes o plan : forall t pre ev post r,
  exec o t plan = (pre ++ ev :: post, r) ->
  outcome o (t ++ pre) ev = match post with [] => r | _ :: _ => None end.
Proof.
  induction plan as [|e plan IH]; intros t pre ev post r H; simpl in H.
  - destruct pre; discriminate.
  - destruct (outcome o t e) as [m|] eqn:E.
    + destruct pre as [|x pre]; simpl in H.
      * inversion H; subst. rewrite app_nil_r. exact E.
      * inversion H as [[Hx Hp Hr]]. destruct pre; discriminate.
    + destruct (exec o (t ++ [e]) plan) as [made' r'] eqn:E'.
      destruct pre as [|x pre]; simpl in H.
      * inversion H; subst. rewrite app_nil_r.
        destruct post as [|y post]; [|exact E].
        destruct plan as [|e2 plan]; simpl in E'.
        -- inversion E'; subst. exact E.
        -- destruct (outcome o (t ++ [ev]) e2);
             [|destruct (exec o ((t ++ [ev]) ++ [e2]) plan)]; inversion E'.
      * inversion H; subst.
        replace (t ++ x :: pre) with ((t ++ [x]) ++ pre)
          by (rewrite <- app_assoc; reflexivity).
        eapply IH. exact E'.
Qed.

Lemma exec_app o p1 : forall t p2,
  exec o t (p1 ++ p2) =
  match exec o t p1 with
  | (made, Some m) => (made, Some m)
  | (made, None) => let (made', r) := exec o (t ++ made) p2 in (made ++ made', r)
  end.
Proof.
  induction p1 as [|ev p1 IH]; intros t p2; simpl.
  - rewrite app_nil_r. destruct (exec o t p2); reflexivity.
  - destruct (outcome o t ev); [reflexivity|].
    rewrite IH. destruct (exec o (t ++ [ev]) p1) as [made [m|]]; [reflexivity|].
    rewrite <- app_assoc. simpl.
    destruct (exec o (t ++ ev :: made) p2); reflexivity.
Qed.

Lemma split_last {A} (l : list A) (c : A) pre ev post :
  l ++ [c] = pre ++ ev :: post ->
  (post = [] /\ pre = l /\ ev = c) \/
  (exists post', post = post' ++ [c] /\ l = pre ++ ev :: post').
Proof.
  revert pre. induction l as [|a l IH]; intros pre H.
  - destruct pre as [|x pre]; simpl in H.
    + inversion H; subst. left. repeat split.
    + inversion H as [[Hx Hp]]. destruct pre; discriminate.
  - destruct pre as [|x pre]; simpl in H.
    + inversion H; subst. right. exists l. split; reflexivity.
    + inversion H; subst.
      destruct (IH pre H2) as [[Hp [Hl Hc]]|[post' [Hp Hl]]].
      * left. subst. repeat split.
      * right. exists post'. subst. split; reflexivity.
Qed.

(** ** The shape of a whole call *)

Lemma settle_rejection {D} o plan (c : result D) trace env :
  settle o plan c = (trace, env) ->
  forall pre ev post m,
    trace = pre ++ ev :: post -> outcome o pre ev = Some m ->
    (post = [] /\ env = Failure m) \/
    (post = [Close] /\ (outcome o (pre ++ [ev]) Close = None -> env = Failure m)).
Proof.
  unfold settle. cbn [outcome]. intros H pre ev post m Ht Hm. subst trace.
  destruct (o [] Launch) as [m0|] eqn:HL.
  - injection H as Ht He. subst env.
    destruct pre as [|x pre]; simpl in Ht.
    + inversion Ht; subst. cbn [outcome] in Hm.
      left. split; [reflexivity | congruence].
    + inversion Ht as [[Hx Hp]]. destruct pre; discriminate.
  - destruct (exec o [Launch] plan) as [made r1] eqn:HE.
    injection H as Ht He. subst env.
    change (Launch :: made ++ [Close]) with ((Launch :: made) ++ [Close]) in Ht.
    apply split_last in Ht.
    destruct Ht as [[Hp [Hpre Hev]]|[post' [Hp Hmade]]].
    + subst. cbn [outcome] in Hm. left. split; [reflexivity|].
      rewrite Hm. reflexivity.
    + destruct pre as [|x pre]; simpl in Hmade.
      * inversion Hmade; subst. cbn [outcome] in Hm. congruence.
      * inversion Hmade; subst x made.
        pose proof (exec_outcomes _ _ _ _ _ _ _ HE) as Ho. simpl in Ho.
        rewrite Hm in Ho.
        destruct post' as [|y post']; [|discriminate].
        subst post. right. split; [reflexivity|].
        intros HC. simpl in HC. rewrite HC. rewrite <- Ho. reflexivity.
Qed.

Lemma settle_success {D} o plan (c : result D) trace d :
  settle o plan c = (trace, Success d) ->
  c = Ok d /\ trace = Launch :: plan ++ [Close] /\ quiet o trace.
Proof.
  unfold settle, quiet. cbn [outcome]. intros H.
  destruct (o [] Launch) as [m0|] eqn:HL; [discriminate|].
  destruct (exec o [Launch] plan) as [made r1] eqn:HE.
  destruct (o (Launch :: made) Close) eqn:HC; [discriminate|].
  destruct r1; [discriminate|].
  destruct c; [|discriminate].
  inversion H; subst.
  destruct (exec_prefix _ _ _ _ _ HE) as [rest [Hp Hr]].
  rewrite (Hr eq_refl), app_nil_r in Hp. subst made.
  repeat split.
  simpl. rewrite HL. rewrite exec_app, HE. simpl. rewrite HC. reflexivity.
Qed.

Lemma settle_quiet {D} o plan (c : result D) :
  quiet o (Launch :: plan ++ [Close]) ->
  settle o plan c =
  (Launch :: plan ++ [Close],
   match c with Ok d => Success d | Throw m => Failure m end).
Proof.
  unfold settle, quiet. simpl.
  destruct (o [] Launch) as [m0|] eqn:HL; [discriminate|].
  rewrite exec_app.
  destruct (exec o [Launch] plan) as [made [m|]] eqn:HE; [discriminate|].
  simpl.
  destruct (o (Launch :: made) Close) eqn:HC; [discriminate|].
  intros H. inversion H as [Hm].
  apply app_inv_tail in Hm. subst made. reflexivity.
Qed.

Lemma settle_teardown {D} o plan (c : result D) :
  outcome o [] Launch = None ->
  exists made rest,
    plan = made ++ rest /\ fst (settle o plan c) = Launch :: made ++ [Close].
Proof.
  unfold settle. intros HL. rewrite HL.
  destruct (exec o [Launch] plan) as [made r1] eqn:HE.
  destruct (exec_prefix _ _ _ _ _ HE) as [rest [Hp _]].
  exists made, rest. split; [exact Hp | reflexivity].
Qed.

Lemma settle_law {D} o plan (c : result D) :
  short_circuit_law o plan c (fst (settle o plan c)) (snd (settle o plan c)).
Proof.
  destruct (settle o plan c) as [trace env] eqn:E. simpl.
  split; [|split].
  - apply (settle_rejection _ _ _ _ _ E).
  - intros m Hc Hq. rewrite (settle_quiet _ _ c Hq) in E.
    inversion E; subst. split; reflexivity.
  - intros d Hd. subst env. apply (settle_success _ _ _ _ _ E).
Qed.

(** ** Strings and numbers *)

Lemma str_eqb_eq s : forall t, str_eqb s t = true <-> s = t.
Proof.
  induction s as [|c s IH]; intros [|d t]; simpl; split; intros H;
    try reflexivity; try discriminate.
  - apply andb_true_iff in H. destruct H as [Hc Hs].
    apply N.eqb_eq in Hc. apply IH in Hs. subst. reflexivity.
  - inversion H; subst. rewrite N.eqb_refl. simpl. apply IH. reflexivity.
Qed.

Lemma contains_In cls name :
  existsb (str_eqb name) cls = true <-> In name cls.
Proof.
  rewrite existsb_exists. split.
  - intros [x [Hx He]]. apply str_eqb_eq in He. subst. exact Hx.
  - intros H. exists name. split; [exact H | apply str_eqb_eq; reflexivity].
Qed.

Lemma truthy_str_nonempty s : truthy_str (Some s) = true <-> s <> [].
Proof. destruct s; simpl; split; congruence. Qed.

Lemma includes_head_In c m : forall s, includes (c :: m) s = true -> In c s.
Proof.
  induction s as [|d s IH]; simpl.
  - discriminate.
  - intros H. apply orb_true_iff in H. destruct H as [H|H].
    + apply andb_true_iff in H. destruct H as [H _].
      apply N.eqb_eq in H. left. symmetry. exact H.
    + right. apply IH. exact H.
Qed.

Lemma remove_class_app cls s t :
  remove_class cls (s ++ t) = remove_class cls s ++ remove_class cls t.
Proof. unfold remove_class. apply filter_app. Qed.

Lemma float_neq (x y : number) :
  (x =? y)%float = false -> (y =? y)%float = true -> x <> y.
Proof. intros H1 H2 E. subst. congruence. Qed.

Lemma Some_float_neq (x y : number) :
  (x =? y)%float = false -> (y =? y)%float = true -> Some x <> Some y.
Proof. intros H1 H2 E. injection E as E. exact (float_neq x y H1 H2 E). Qed.

(** ** Numbers that are not finite *)

Lemma SFcompare_refl s m e :
  SFcompare (S754_finite s m e) (S754_finite s m e) = Some Eq.
Proof.
  simpl. rewrite Z.compare_refl.
  assert (Pos.compare_cont Eq m m = Eq) as -> by apply Pos.compare_cont_refl.
  destruct s; reflexivity.
Qed.

(** A Number is NaN or an infinity when its value in the specification of
    binary64 is. *)
Lemma not_finite_spec x :
  is_nan x || is_infinity x = true <->
  match Prim2SF x with
  | S754_nan | S754_infinity _ => True
  | _ => False
  end.
Proof.
  unfold is_nan, is_infinity. rewrite !eqb_spec, abs_spec.
  change (Prim2SF infinity) with (S754_infinity false).
  destruct (Prim2SF x) as [s|s| |s m e].
  - destruct s; simpl; split; [discriminate | intros []| discriminate | intros []].
  - destruct s; simpl; split; auto.
  - simpl; split; auto.
  - unfold SFeqb. rewrite SFcompare_refl. simpl. split; [discriminate | intros []].
Qed.

(** The percentage computed from a price or an mrp that is not finite is
    not finite. *)
Lemma percentage_not_finite (p m : number) :
  is_nan p || is_infinity p = true \/ is_nan m || is_infinity m = true ->
  is_nan (((m - p) / m) * 100)%float || is_infinity (((m - p) / m) * 100)%float = true.
Proof.
  rewrite !not_finite_spec, mul_spec, div_spec, sub_spec.
  change (Prim2SF 100%float) with (S754_finite false 7036874417766400 (-46)).
  destruct (Prim2SF p) as [sp|sp| |sp mp ep], (Prim2SF m) as [sm|sm| |sm mm em];
    try (destruct sp); try (destruct sm); simpl; tauto.
Qed.

Lemma json_number_none v :
  json_number v = None <-> is_nan v || is_infinity v = true.
Proof.
  unfold json_number. destruct (is_nan v || is_infinity v).
  - split; reflexivity.
  - destruct (is_zero v); split; discriminate.
Qed.

(** [Math.round] keeps what is not finite, which arrives as [null]. *)
Lemma round_not_finite x :
  is_nan x || is_infinity x = true -> json_number (Math_round x) = None.
Proof.
  intros H. unfold Math_round. rewrite H. apply json_number_none. exact H.
Qed.

(** ** The loop of a filter *)

Section FirstAccepted.
Context {C : Type}.
Variable sponsored : C -> bool.
Variable linkOf : C -> option jsstring.
Variable find : list C -> option jsstring.
Hypothesis find_nil : find [] = None.
Hypothesis find_cons : forall c rest,
  find (c :: rest) =
  if sponsored c then find rest
  else match linkOf c with
       | Some url => Some url
       | None => find rest
       end.

Local Abbreviation passed_over := (Listing.passed_over sponsored linkOf).

Lemma find_some cs url :
  find cs = Some url <-> Listing.first_accepted sponsored linkOf cs url.
Proof.
  unfold Listing.first_accepted.
  induction cs as [|x cs IH].
  - rewrite find_nil. split; [discriminate|].
    intros [pre [c [post [H _]]]]. destruct pre; discriminate.
  - rewrite find_cons. split.
    + destruct (sponsored x) eqn:Hs; [|destruct (linkOf x) as [u|] eqn:Hl].
      * intros H. apply IH in H. destruct H as [pre [c [post [Hc [Hp Hr]]]]].
        exists (x :: pre), c, post. subst.
        split; [reflexivity|]. split; [|exact Hr].
        constructor; [left; exact Hs | exact Hp].
      * intros H. inversion H; subst.
        exists [], x, cs. repeat split; auto.
      * intros H. apply IH in H. destruct H as [pre [c [post [Hc [Hp Hr]]]]].
        exists (x :: pre), c, post. subst.
        split; [reflexivity|]. split; [|exact Hr].
        constructor; [right; exact Hl | exact Hp].
    + intros [pre [c [post [Hc [Hp [Hs Hl]]]]]].
      destruct pre as [|y pre]; simpl in Hc; inversion Hc; subst.
      * rewrite Hs, Hl. reflexivity.
      * inversion Hp as [|? ? Hy Hp']; subst.
        assert (find (pre ++ c :: post) = Some url) as Hf
          by (apply IH; exists pre, c, post; auto).
        destruct Hy as [Hy|Hy]; rewrite Hy; [exact Hf|].
        destruct (sponsored y); exact Hf.
Qed.

Lemma find_none cs : find cs = None <-> Forall passed_over cs.
Proof.
  induction cs as [|x cs IH].
  - rewrite find_nil. split; auto.
  - rewrite find_cons. split.
    + destruct (sponsored x) eqn:Hs; [|destruct (linkOf x) as [u|] eqn:Hl].
      * intros H. constructor; [left; exact Hs | apply IH; exact H].
      * discriminate.
      * intros H. constructor; [right; exact Hl | apply IH; exact H].
    + intros H. inversion H as [|? ? Hx Hcs]; subst.
      apply IH in Hcs.
      destruct Hx as [Hx|Hx]; rewrite Hx; [exact Hcs|].
      destruct (sponsored x); exact Hcs.
Qed.
End FirstAccepted.

Lemma first_accepted_In {C} (sponsored : C -> bool) linkOf cs url :
  Listing.first_accepted sponsored linkOf cs url ->
  exists c, In c cs /\ linkOf c = Some url.
Proof.
  intros [pre [c [post [Hc [_ [_ Hl]]]]]]. exists c. split; [|exact Hl].
  subst cs. apply in_or_app. right. left. reflexivity.
Qed.


Lemma Flipkart_resolves :
  Listing.resolves Flipkart.link (includes (lit "/p/")) Flipkart.fullUrl
    Flipkart.productLinkOf.
Proof.
  intros c url. unfold Flipkart.productLinkOf.
  destruct (Flipkart.link c) as [[href|]|].
  - destruct (truthy_str (Some href)) eqn:Ht; simpl.
    + destruct (includes (lit "/p/") href) eqn:Hi.
      * split.
        -- intros H. inversion H; subst. exists href.
           apply truthy_str_nonempty in Ht. auto.
        -- intros [h' [Hl [_ [_ Hu]]]]. inversion Hl; subst. reflexivity.
      * split; [discriminate|].
        intros [h' [Hl [_ [Ha _]]]]. inversion Hl; subst. congruence.
    + split; [discriminate|].
      intros [h' [Hl [Hn _]]]. inversion Hl; subst.
      apply truthy_str_nonempty in Hn. congruence.
  - split; [discriminate | intros [h' [Hl _]]; discriminate].
  - split; [discriminate | intros [h' [Hl _]]; discriminate].
Qed.

Lemma Amazon_resolves :
  Listing.resolves Amazon.link (includes (lit "/dp/")) Amazon.fullUrl
    Amazon.productLinkOf.
Proof.
  intros c url. unfold Amazon.productLinkOf.
  destruct (Amazon.link c) as [[href|]|].
  - destruct (truthy_str (Some href)) eqn:Ht; simpl.
    + destruct (includes (lit "/dp/") href) eqn:Hi.
      * split.
        -- intros H. inversion H; subst. exists href.
           apply truthy_str_nonempty in Ht. auto.
        -- intros [h' [Hl [_ [_ Hu]]]]. inversion Hl; subst. reflexivity.
      * split; [discriminate|].
        intros [h' [Hl [_ [Ha _]]]]. inversion Hl; subst. congruence.
    + split; [discriminate|].
      intros [h' [Hl [Hn _]]]. inversion Hl; subst.
      apply truthy_str_nonempty in Hn. congruence.
  - split; [discriminate | intros [h' [Hl _]]; discriminate].
  - split; [discriminate | intros [h' [Hl _]]; discriminate].
Qed.

Lemma Myntra_resolves :
  Listing.resolves Myntra.link (fun _ => true) Myntra.fullUrl Myntra.productLinkOf.
Proof.
  intros c url. unfold Myntra.productLinkOf.
  destruct (Myntra.link c) as [[href|]|].
  - destruct (truthy_str (Some href)) eqn:Ht.
    + split.
      * intros H. inversion H; subst. exists href.
        apply truthy_str_nonempty in Ht. auto.
      * intros [h' [Hl [_ [_ Hu]]]]. inversion Hl; subst. reflexivity.
    + split; [discriminate|].
      intros [h' [Hl [Hn _]]]. inversion Hl; subst.
      apply truthy_str_nonempty in Hn. congruence.
  - split; [discriminate | intros [h' [Hl _]]; discriminate].
  - split; [discriminate | intros [h' [Hl _]]; discriminate].
Qed.

Lemma fullUrl_nonempty prefix href :
  href <> [] -> (if startsWith (lit "http") href then href else prefix ++ href) <> [].
Proof.
  intros Hn. destruct (startsWith (lit "http") href); [exact Hn|].
  intros H. apply app_eq_nil in H. destruct H as [_ H]. exact (Hn H).
Qed.

Lemma Flipkart_found_truthy cs url :
  Flipkart.findFirstNonSponsoredProduct cs = Some url -> truthy_str (Some url) = true.
Proof.
  intros H.
  apply (find_some Flipkart.isSponsored Flipkart.productLinkOf) in H;
    [|reflexivity|reflexivity].
  apply first_accepted_In in H. destruct H as [c [_ Hl]].
  apply Flipkart_resolves in Hl. destruct Hl as [href [_ [Hn [_ ->]]]].
  apply truthy_str_nonempty. apply fullUrl_nonempty. exact Hn.
Qed.

Lemma Amazon_found_truthy rs url :
  Amazon.findFirstNonSponsoredProduct rs = Some url -> truthy_str (Some url) = true.
Proof.
  intros H.
  apply (find_some Amazon.isSponsored Amazon.productLinkOf) in H;
    [|reflexivity|reflexivity].
  apply first_accepted_In in H. destruct H as [c [_ Hl]].
  apply Amazon_resolves in Hl. destruct Hl as [href [_ [Hn [_ ->]]]].
  apply truthy_str_nonempty. apply fullUrl_nonempty. exact Hn.
Qed.

Lemma Myntra_found_truthy ps url :
  Myntra.findFirstNonSponsoredProduct ps = Some url -> truthy_str (Some url) = true.
Proof.
  intros H.
  apply (find_some (fun p => Myntra.isSponsored (Myntra.sponsoredIndicators p))
           Myntra.productLinkOf) in H; [|reflexivity|reflexivity].
  apply first_accepted_In in H. destruct H as [c [_ Hl]].
  apply Myntra_resolves in Hl. destruct Hl as [href [_ [Hn [_ ->]]]].
  apply truthy_str_nonempty. apply fullUrl_nonempty. exact Hn.
Qed.

(** ** C1: where the discount comes from *)

(** A Number that arrives truthy is the Number that left the page. *)
Lemma by_value_truthy x p :
  by_value x = Some p -> truthy_num (Some p) = true -> x = Some p.
Proof.
  destruct x as [v|]; [|discriminate]. cbn [by_value]. unfold json_number.
  destruct (is_nan v || is_infinity v); [discriminate|].
  destruct (is_zero v); intros [= <-]; [discriminate | reflexivity].
Qed.

Lemma Flipkart_discount_computed page p m :
  Flipkart.price (Flipkart.extractProductDetails page) = Some p ->
  Flipkart.mrp (Flipkart.extractProductDetails page) = Some m ->
  truthy_num (Some p) = true -> truthy_num (Some m) = true ->
  Flipkart.discount (Flipkart.extractProductDetails page)
  = json_number (Math_round (((m - p) / m) * 100)%float).
Proof.
  cbn [Flipkart.extractProductDetails Flipkart.returnByValue Flipkart.pageFunction
       Flipkart.price Flipkart.mrp Flipkart.discount].
  intros Ep Em Hp Hm.
  rewrite (by_value_truthy _ _ Ep Hp), (by_value_truthy _ _ Em Hm).
  unfold Flipkart.extractDiscount. rewrite Hp, Hm. reflexivity.
Qed.

Lemma Flipkart_discount_parsed page :
  truthy_num (Flipkart.price (Flipkart.pageFunction page))
  && truthy_num (Flipkart.mrp (Flipkart.pageFunction page)) = false ->
  Flipkart.discount (Flipkart.extractProductDetails page)
  = by_value (Flipkart.parseDiscountBadge (Flipkart.discountEl page)).
Proof.
  cbn [Flipkart.extractProductDetails Flipkart.returnByValue Flipkart.pageFunction
       Flipkart.price Flipkart.mrp Flipkart.discount].
  unfold Flipkart.extractDiscount.
  destruct (Flipkart.parsePrice (Flipkart.priceEl page)) as [p|]; [|reflexivity].
  destruct (Flipkart.parsePrice (Flipkart.mrpEl page)) as [m|];
    [|intros _; reflexivity].
  intros ->. reflexivity.
Qed.

Lemma Amazon_discount_computed page p m :
  Amazon.price (Amazon.extractProductDetails page) = Some p ->
  Amazon.mrp (Amazon.extractProductDetails page) = Some m ->
  truthy_num (Some p) = true -> truthy_num (Some m) = true ->
  Amazon.discount (Amazon.extractProductDetails page)
  = json_number (Math_round (((m - p) / m) * 100)%float).
Proof.
  cbn [Amazon.extractProductDetails Amazon.returnByValue Amazon.pageFunction
       Amazon.price Amazon.mrp Amazon.discount].
  intros Ep Em Hp Hm.
  rewrite (by_value_truthy _ _ Ep Hp), (by_value_truthy _ _ Em Hm).
  unfold Amazon.extractDiscount. rewrite Hp, Hm. reflexivity.
Qed.

Lemma Amazon_discount_parsed page :
  truthy_num (Amazon.price (Amazon.pageFunction page))
  && truthy_num (Amazon.mrp (Amazon.pageFunction page)) = false ->
  Amazon.discount (Amazon.extractProductDetails page)
  = by_value (Amazon.parseDiscountBadge (Amazon.savingsPercentage page)).
Proof.
  cbn [Amazon.extractProductDetails Amazon.returnByValue Amazon.pageFunction
       Amazon.price Amazon.mrp Amazon.discount].
  unfold Amazon.extractDiscount.
  destruct (Amazon.extractPrice page) as [p|]; [|reflexivity].
  destruct (Amazon.extractMrp page) as [m|]; [|intros _; reflexivity].
  intros ->. reflexivity.
Qed.

(** C1, as the code has it.  On Flipkart and on Amazon, when the price and
    the mrp of the returned record are both truthy (not null, not zero)
    its discount is [Math.round(((mrp - price) / mrp) * 100)] of these two
    values as the record carries a Number out of the page (-0 as 0, null
    when it is not finite), and the badge is not read.  When in the page
    one of the two is null, NaN or zero, the discount is what the badge
    parses to, carried likewise: null without a badge, and null for a badge
    without a digit.  On Myntra the discount is read from the badge alone,
    whatever price and mrp are. *)
Theorem C1_discount_source
  (fp : Flipkart.ProductPage) (ap : Amazon.ProductPage) (mp mp' : Myntra.ProductPage)
  (p m : number) :
  (Flipkart.price (Flipkart.extractProductDetails fp) = Some p ->
   Flipkart.mrp (Flipkart.extractProductDetails fp) = Some m ->
   truthy_num (Some p) = true -> truthy_num (Some m) = true ->
   Flipkart.discount (Flipkart.extractProductDetails fp)
   = json_number (Math_round (((m - p) / m) * 100)%float))
  /\ (truthy_num (Flipkart.price (Flipkart.pageFunction fp))
      && truthy_num (Flipkart.mrp (Flipkart.pageFunction fp)) = false ->
      Flipkart.discount (Flipkart.extractProductDetails fp)
      = by_value (Flipkart.parseDiscountBadge (Flipkart.discountEl fp)))
  /\ (Amazon.price (Amazon.extractProductDetails ap) = Some p ->
      Amazon.mrp (Amazon.extractProductDetails ap) = Some m ->
      truthy_num (Some p) = true -> truthy_num (Some m) = true ->
      Amazon.discount (Amazon.extractProductDetails ap)
      = json_number (Math_round (((m - p) / m) * 100)%float))
  /\ (truthy_num (Amazon.price (Amazon.pageFunction ap))
      && truthy_num (Amazon.mrp (Amazon.pageFunction ap)) = false ->
      Amazon.discount (Amazon.extractProductDetails ap)
      = by_value (Amazon.parseDiscountBadge (Amazon.savingsPercentage ap)))
  /\ (Myntra.discountEl mp = Myntra.discountEl mp' ->
      Myntra.discount (Myntra.extractProductDetails mp)
      = Myntra.discount (Myntra.extractProductDetails mp')).
Proof.
  repeat split.
  - apply Flipkart_discount_computed.
  - apply Flipkart_discount_parsed.
  - apply Amazon_discount_computed.
  - apply Amazon_discount_parsed.
  - cbn [Myntra.extractProductDetails Myntra.returnByValue Myntra.pageFunction
         Myntra.discount].
    intros ->. reflexivity.
Qed.

(** The scenario of the specification on Flipkart and on Amazon: price
    2999 and mrp 4999 give 40, though the Flipkart badge says 35. *)
Lemma C1_discount_source_witness :
  Flipkart.discount (Flipkart.extractProductDetails Samples.flipkart_shoes)
  = Some 40%float
  /\ Amazon.discount
       (Amazon.extractProductDetails
          (Samples.amazon_priced (lit "2,999.") (Samples.rupee ++ lit "4,999.00") None))
     = Some 40%float.
Proof.
  pose proof (C1_discount_source Samples.flipkart_shoes
                (Samples.amazon_priced (lit "2,999.") (Samples.rupee ++ lit "4,999.00") None)
                Samples.myntra_blank Samples.myntra_blank 2999%float 4999%float)
    as [HF [_ [HA _]]].
  split.
  - rewrite (HF eq_refl eq_refl eq_refl eq_refl). reflexivity.
  - rewrite (HA eq_refl eq_refl eq_refl eq_refl). reflexivity.
Defined.

(** C1 as stated fails.  On Myntra a page with price 2999 and mrp 4999
    whose badge reads 50 yields discount 50, not 40.  On Amazon a page with
    price 0 and mrp 499 yields the 15 of its badge, not 100. *)
Lemma C1_counterexample :
  (Myntra.price (Myntra.extractProductDetails Samples.myntra_sale) = Some 2999%float
   /\ Myntra.mrp (Myntra.extractProductDetails Samples.myntra_sale) = Some 4999%float
   /\ Myntra.discount (Myntra.extractProductDetails Samples.myntra_sale) = Some 50%float
   /\ Myntra.discount (Myntra.extractProductDetails Samples.myntra_sale)
      <> Some (Math_round (((4999 - 2999) / 4999) * 100)%float))
  /\
  (let page := Samples.amazon_priced (lit "0") (Samples.rupee ++ lit "499")
                 (Some (lit "-15%")) in
   Amazon.price (Amazon.extractProductDetails page) = Some 0%float
   /\ Amazon.mrp (Amazon.extractProductDetails page) = Some 499%float
   /\ Amazon.discount (Amazon.extractProductDetails page) = Some 15%float
   /\ Amazon.discount (Amazon.extractProductDetails page)
      <> Some (Math_round (((499 - 0) / 499) * 100)%float)).
Proof.
  split; cbv zeta; repeat split; try reflexivity.
  - apply Some_float_neq; reflexivity.
  - apply Some_float_neq; reflexivity.
Qed.

(** ** C2: the first candidate that is accepted *)

Lemma Amazon_hasSponshoredText spans :
  Amazon.hasSponshoredText spans = true <->
  exists span, In span spans /\ trim (toLowerCase span) = lit "sponsored".
Proof.
  induction spans as [|s spans IH]; simpl.
  - split; [discriminate | intros [x [[] _]]].
  - destruct (str_eqb (trim (toLowerCase s)) (lit "sponsored")) eqn:E.
    + split; [|reflexivity]. intros _. exists s. split; [left; reflexivity|].
      apply str_eqb_eq. exact E.
    + rewrite IH. split.
      * intros [x [Hx Hs]]. exists x. split; [right; exact Hx | exact Hs].
      * intros [x [[Hx|Hx] Hs]].
        -- subst x. apply str_eqb_eq in Hs. unfold lit in *. simpl in *. congruence.
        -- exists x. split; assumption.
Qed.

(** The signals the Amazon filter reads. *)
Lemma Amazon_isSponsored r :
  Amazon.isSponsored r = true <->
  Amazon.sponsoredByAttr r = true
  \/ (exists span, In span (Amazon.spans r)
                   /\ trim (toLowerCase span) = lit "sponsored")
  \/ In (lit "AdHolder") (Amazon.classList r)
  \/ In (lit "s-sponsored-list-item") (Amazon.classList r)
  \/ Amazon.sponsoredLabel r = true.
Proof.
  unfold Amazon.isSponsored, Amazon.contains.
  rewrite !orb_true_iff, Amazon_hasSponshoredText, !contains_In. tauto.
Qed.

(** The signals the Flipkart filter reads: the badge query, and a class
    of an ancestor met before [document.body]. *)
Lemma Flipkart_isParentSponsored ps :
  Flipkart.isParentSponsored ps = true <->
  exists pre p post,
    ps = pre ++ p :: post
    /\ Forall (fun a => Flipkart.is_body a = false) (pre ++ [p])
    /\ (In (lit "Pvc1Aq") (Flipkart.classList p)
        \/ In (lit "_3tfP8f") (Flipkart.classList p)).
Proof.
  induction ps as [|a ps IH]; simpl.
  - split; [discriminate|]. intros [pre [p [post [H _]]]]. destruct pre; discriminate.
  - destruct (Flipkart.is_body a) eqn:Hb.
    + split; [discriminate|].
      intros [pre [p [post [H [Hf _]]]]].
      destruct pre as [|x pre]; simpl in H, Hf; inversion H; subst;
        inversion Hf; subst; congruence.
    + destruct (Flipkart.contains (Flipkart.classList a) (lit "Pvc1Aq")
                || Flipkart.contains (Flipkart.classList a) (lit "_3tfP8f")) eqn:Hc.
      * split; [|reflexivity]. intros _.
        exists [], a, ps. split; [reflexivity|]. split.
        -- constructor; [exact Hb | constructor].
        -- unfold Flipkart.contains in Hc.
           rewrite orb_true_iff, !contains_In in Hc. exact Hc.
      * rewrite IH. split.
        -- intros [pre [p [post [H [Hf Hi]]]]].
           exists (a :: pre), p, post. subst. split; [reflexivity|].
           split; [constructor; assumption | exact Hi].
        -- intros [pre [p [post [H [Hf Hi]]]]].
           destruct pre as [|x pre]; simpl in H, Hf; inversion H; subst.
           ++ unfold Flipkart.contains in Hc.
              rewrite <- !contains_In, <- orb_true_iff in Hi. congruence.
           ++ inversion Hf; subst. exists pre, p, post. auto.
Qed.

Lemma Myntra_isSponsored indicators :
  Myntra.isSponsored indicators = true <->
  exists i, In i indicators
            /\ (trim (toLowerCase i) = lit "sponsored" \/ trim (toLowerCase i) = lit "ad").
Proof.
  induction indicators as [|x xs IH]; simpl.
  - split; [discriminate | intros [i [[] _]]].
  - destruct (str_eqb (trim (toLowerCase x)) (lit "sponsored")
              || str_eqb (trim (toLowerCase x)) (lit "ad")) eqn:E.
    + split; [|reflexivity]. intros _. exists x. split; [left; reflexivity|].
      rewrite orb_true_iff, !str_eqb_eq in E. exact E.
    + rewrite IH. split.
      * intros [i [Hi Hs]]. exists i. split; [right; exact Hi | exact Hs].
      * intros [i [[Hi|Hi] Hs]].
        -- subst i. rewrite <- !str_eqb_eq, <- orb_true_iff in Hs. congruence.
        -- exists i. split; assumption.
Qed.

(** C2, as the code has it.  On each platform the filter returns the link
    of the first candidate, in page order, that the platform's own test does
    not flag and that has a usable link; every candidate before it is
    flagged or has no usable link; it returns null exactly when every
    candidate is passed over.  So no flagged candidate is ever returned and
    the page order decides.  The signals read are: on Amazon the marker
    element, a span whose lowered and trimmed text is "sponsored", the
    classes AdHolder and s-sponsored-list-item, the label element; on
    Flipkart the badge query and a class Pvc1Aq or _3tfP8f on an ancestor
    below the body; on Myntra a span or div whose lowered and trimmed text
    is "sponsored" or "ad". *)
Theorem C2_first_accepted_in_page_order :
  (forall rs url,
     Amazon.findFirstNonSponsoredProduct rs = Some url <->
     Listing.first_accepted Amazon.isSponsored Amazon.productLinkOf rs url)
  /\ (forall rs,
        Amazon.findFirstNonSponsoredProduct rs = None <->
        Forall (Listing.passed_over Amazon.isSponsored Amazon.productLinkOf) rs)
  /\ (forall cs url,
        Flipkart.findFirstNonSponsoredProduct cs = Some url <->
        Listing.first_accepted Flipkart.isSponsored Flipkart.productLinkOf cs url)
  /\ (forall cs,
        Flipkart.findFirstNonSponsoredProduct cs = None <->
        Forall (Listing.passed_over Flipkart.isSponsored Flipkart.productLinkOf) cs)
  /\ (forall ps url,
        Myntra.findFirstNonSponsoredProduct ps = Some url <->
        Listing.first_accepted
          (fun p => Myntra.isSponsored (Myntra.sponsoredIndicators p))
          Myntra.productLinkOf ps url)
  /\ (forall ps,
        Myntra.findFirstNonSponsoredProduct ps = None <->
        Forall (Listing.passed_over
                  (fun p => Myntra.isSponsored (Myntra.sponsoredIndicators p))
                  Myntra.productLinkOf) ps)
  /\ (forall r,
        Amazon.isSponsored r = true <->
        Amazon.sponsoredByAttr r = true
        \/ (exists span, In span (Amazon.spans r)
                         /\ trim (toLowerCase span) = lit "sponsored")
        \/ In (lit "AdHolder") (Amazon.classList r)
        \/ In (lit "s-sponsored-list-item") (Amazon.classList r)
        \/ Amazon.sponsoredLabel r = true)
  /\ (forall c,
        Flipkart.isSponsored c = true <->
        Flipkart.sponsoredBadge c = true
        \/ exists pre p post,
             Flipkart.parents c = pre ++ p :: post
             /\ Forall (fun a => Flipkart.is_body a = false) (pre ++ [p])
             /\ (In (lit "Pvc1Aq") (Flipkart.classList p)
                 \/ In (lit "_3tfP8f") (Flipkart.classList p)))
  /\ (forall p,
        Myntra.isSponsored (Myntra.sponsoredIndicators p) = true <->
        exists i, In i (Myntra.sponsoredIndicators p)
                  /\ (trim (toLowerCase i) = lit "sponsored"
                      \/ trim (toLowerCase i) = lit "ad")).
Proof.
  split; [|split; [|split; [|split; [|split; [|split; [|split; [|split]]]]]]].
  - intros rs url. apply find_some; reflexivity.
  - intros rs. apply find_none; reflexivity.
  - intros cs url. apply find_some; reflexivity.
  - intros cs. apply find_none; reflexivity.
  - intros ps url.
    apply (find_some (fun p => Myntra.isSponsored (Myntra.sponsoredIndicators p)));
      reflexivity.
  - intros ps.
    apply (find_none (fun p => Myntra.isSponsored (Myntra.sponsoredIndicators p)));
      reflexivity.
  - apply Amazon_isSponsored.
  - intros c. unfold Flipkart.isSponsored.
    rewrite orb_true_iff, Flipkart_isParentSponsored. reflexivity.
  - intros p. apply Myntra_isSponsored.
Qed.

(** C2 as stated fails on Amazon.  A result whose span reads "Ad" carries
    signal (b) of the specification and is returned all the same; and when
    the first result without any signal has no link, the URL returned is
    the one of a later result. *)
Lemma C2_counterexample :
  (Stated.amazon_signal Samples.amazon_ad = true
   /\ Amazon.findFirstNonSponsoredProduct [Samples.amazon_ad]
      = Some (lit "https://www.amazon.in/dp/B0AD"))
  /\
  (Stated.amazon_signal Samples.amazon_unlinked = false
   /\ Amazon.productLinkOf Samples.amazon_unlinked = None
   /\ Amazon.productLinkOf Samples.amazon_linked
      = Some (lit "https://www.amazon.in/dp/B0OK")
   /\ Amazon.findFirstNonSponsoredProduct [Samples.amazon_unlinked; Samples.amazon_linked]
      = Some (lit "https://www.amazon.in/dp/B0OK")).
Proof. repeat split. Qed.

(** ** C3: the offers list *)

Lemma existsb_str_eqb_In x l : existsb (str_eqb x) l = true <-> In x l.
Proof. apply contains_In. Qed.

Lemma Flipkart_pushOffer_NoDup offers el :
  NoDup offers -> NoDup (Flipkart.pushOffer offers el).
Proof.
  intros H. unfold Flipkart.pushOffer.
  destruct (truthy_str (Some (collapse_spaces (trim el)))
            && Nat.ltb 10 (List.length (collapse_spaces (trim el)))); [|exact H].
  destruct (truthy_str (Some (trim (Flipkart.cut_terms (collapse_spaces (trim el))))))
    ; simpl; [|exact H].
  destruct (existsb (str_eqb (trim (Flipkart.cut_terms (collapse_spaces (trim el)))))
              offers) eqn:E; simpl; [exact H|].
  apply NoDup_app; [exact H | repeat constructor; intros [] |].
  intros x Hx [Hy|[]]. subst x.
  apply existsb_str_eqb_In in Hx. congruence.
Qed.

Lemma fold_pushOffer_NoDup els : forall offers,
  NoDup offers -> NoDup (fold_left Flipkart.pushOffer els offers).
Proof.
  induction els as [|el els IH]; intros offers H; simpl.
  - exact H.
  - apply IH. apply Flipkart_pushOffer_NoDup. exact H.
Qed.

Lemma NoDup_firstn {A} n : forall l : list A, NoDup l -> NoDup (firstn n l).
Proof.
  induction n as [|n IH]; intros [|x l] H; simpl; try constructor.
  - inversion H; subst. intros Hin. apply H2.
    apply (In_nth _ _ x) in Hin. destruct Hin as [i [Hi Hn]].
    rewrite <- (firstn_skipn n l). apply in_or_app. left.
    rewrite <- Hn. apply nth_In. exact Hi.
  - inversion H; subst. apply IH. assumption.
Qed.

Lemma Flipkart_offers_NoDup page :
  NoDup (Flipkart.offers (Flipkart.extractProductDetails page)).
Proof.
  cbn [Flipkart.extractProductDetails Flipkart.returnByValue Flipkart.pageFunction
       Flipkart.offers].
  unfold Flipkart.extractOffers.
  apply NoDup_firstn. apply fold_pushOffer_NoDup. constructor.
Qed.

Lemma firstn_3_length {A} (l : list A) : (List.length (firstn 3 l) <= 3)%nat.
Proof. apply firstn_le_length. Qed.

(** C3 on the code.  On every platform the offers of the record are at
    most three, and on Flipkart no two of them are equal.  On Amazon and
    on Myntra nothing removes duplicates: a page that shows one promotion
    twice yields it twice. *)
Theorem C3_offers_capped_and_duplicates :
  (forall page,
     (List.length (Flipkart.offers (Flipkart.extractProductDetails page)) <= 3)%nat
     /\ NoDup (Flipkart.offers (Flipkart.extractProductDetails page)))
  /\ (forall page,
        (List.length (Amazon.offers (Amazon.extractProductDetails page)) <= 3)%nat)
  /\ (forall page,
        (List.length (Myntra.offers (Myntra.extractProductDetails page)) <= 3)%nat)
  /\ Amazon.offers (Amazon.extractProductDetails Samples.amazon_twice)
     = [lit "No Cost EMI available on select cards";
        lit "No Cost EMI available on select cards"]
  /\ Myntra.offers (Myntra.extractProductDetails Samples.myntra_twice)
     = [lit "Best Price: Rs. 2499"; lit "Best Price: Rs. 2499"].
Proof.
  split; [|split; [|split; [|split]]].
  - intros page. split; [apply firstn_3_length | apply Flipkart_offers_NoDup].
  - intros page. apply firstn_3_length.
  - intros page. apply firstn_3_length.
  - reflexivity.
  - reflexivity.
Qed.

(** ** C4: no organic result *)
















(** ** C5: missing elements *)

(** When every call fulfils and the filter finds a link, the envelope is a
    success whatever the product page holds. *)
Lemma Flipkart_success h site name q url :
  encodeURIComponent name = Some q ->
  Flipkart.findFirstNonSponsoredProduct (Flipkart.containers site) = Some url ->
  quiet (Flipkart.oracle site)
    (Launch :: Flipkart.prelude ++ Flipkart.searchPhase q
            ++ Flipkart.detailPhase url ++ [Close]) ->
  snd (run (Flipkart.flipkartProductScrapper h site name) (Flipkart.oracle site))
  = Ok (Success
          (Flipkart.formatOutput h
             (Flipkart.set_productLink
                (Flipkart.extractProductDetails (Flipkart.page_at site url)) url))).
Proof.
  intros Hq Hf Hquiet. rewrite Flipkart_respond.
  unfold Flipkart.plan. rewrite Hq, Hf, (Flipkart_found_truthy _ _ Hf).
  assert (quiet (Flipkart.oracle site)
            (Launch :: (Flipkart.prelude ++ Flipkart.searchPhase q
                        ++ Flipkart.detailPhase url) ++ [Close])) as Hquiet'
    by (rewrite <- !app_assoc; exact Hquiet).
  rewrite (settle_quiet _ _ _ Hquiet'). reflexivity.
Qed.

Lemma Amazon_success h site name q url :
  encodeURIComponent name = Some q ->
  Amazon.findFirstNonSponsoredProduct (Amazon.results site) = Some url ->
  quiet (Amazon.oracle site)
    (Launch :: Amazon.prelude ++ Amazon.searchPhase q
            ++ Amazon.detailPhase url ++ [Close]) ->
  snd (run (Amazon.amazonProductScrapper h site name) (Amazon.oracle site))
  = Ok (Success
          (Amazon.formatOutput h
             (Amazon.set_productLink
                (Amazon.extractProductDetails (Amazon.page_at site url)) url))).
Proof.
  intros Hq Hf Hquiet. rewrite Amazon_respond.
  unfold Amazon.plan. rewrite Hq, Hf, (Amazon_found_truthy _ _ Hf).
  assert (quiet (Amazon.oracle site)
            (Launch :: (Amazon.prelude ++ Amazon.searchPhase q
                        ++ Amazon.detailPhase url) ++ [Close])) as Hquiet'
    by (rewrite <- !app_assoc; exact Hquiet).
  rewrite (settle_quiet _ _ _ Hquiet'). reflexivity.
Qed.

Lemma Myntra_success h site name url :
  Myntra.findFirstNonSponsoredProduct (Myntra.products site) = Some url ->
  quiet (Myntra.oracle site)
    (Launch :: Myntra.prelude ++ Myntra.searchPhase name
            ++ Myntra.detailPhase url ++ [Close]) ->
  snd (run (Myntra.myntraProductScrapper h site name) (Myntra.oracle site))
  = Ok (Success
          (Myntra.formatOutput h
             (Myntra.extractProductDetails (Myntra.page_at site url)))).
Proof.
  intros Hf Hquiet. rewrite Myntra_respond.
  unfold Myntra.plan. rewrite Hf, (Myntra_found_truthy _ _ Hf).
  assert (quiet (Myntra.oracle site)
            (Launch :: (Myntra.prelude ++ Myntra.searchPhase name
                        ++ Myntra.detailPhase url) ++ [Close])) as Hquiet'
    by (rewrite <- !app_assoc; exact Hquiet).
  rewrite (settle_quiet _ _ _ Hquiet'). reflexivity.
Qed.

Lemma Flipkart_missing page :
  (Flipkart.priceEl page = None ->
   Flipkart.price (Flipkart.extractProductDetails page) = None)
  /\ (Flipkart.mrpEl page = None ->
      Flipkart.mrp (Flipkart.extractProductDetails page) = None)
  /\ (Flipkart.discountEl page = None ->
      Flipkart.priceEl page = None \/ Flipkart.mrpEl page = None ->
      Flipkart.discount (Flipkart.extractProductDetails page) = None)
  /\ (Flipkart.ratingEl page = None ->
      Flipkart.rating (Flipkart.extractProductDetails page) = None)
  /\ (Flipkart.ratingsReviewsEl page = None ->
      Flipkart.totalRatings (Flipkart.extractProductDetails page) = None
      /\ Flipkart.totalReviews (Flipkart.extractProductDetails page) = None)
  /\ (Flipkart.sellerEl page = None ->
      Flipkart.seller (Flipkart.extractProductDetails page) = None)
  /\ (Flipkart.deliveryEl page = None ->
      Flipkart.delivery (Flipkart.extractProductDetails page) = None)
  /\ (Flipkart.availEl page = None ->
      Flipkart.availability (Flipkart.extractProductDetails page)
      = Some (if Flipkart.cartBtn page then lit "In Stock"
              else lit "Check availability")).
Proof.
  cbn [Flipkart.extractProductDetails Flipkart.returnByValue Flipkart.pageFunction
       Flipkart.price Flipkart.mrp Flipkart.discount
       Flipkart.rating Flipkart.totalRatings Flipkart.totalReviews Flipkart.seller
       Flipkart.delivery Flipkart.availability].
  split; [|split; [|split; [|split; [|split; [|split; [|split]]]]]].
  - intros ->. reflexivity.
  - intros ->. reflexivity.
  - intros -> [-> | ->]; [reflexivity|].
    destruct (Flipkart.parsePrice (Flipkart.priceEl page)); reflexivity.
  - intros ->. reflexivity.
  - intros ->. split; reflexivity.
  - intros ->. reflexivity.
  - intros ->. reflexivity.
  - intros ->. simpl. destruct (Flipkart.cartBtn page); reflexivity.
Qed.

Lemma Amazon_missing page :
  (Amazon.priceWholeCentered page = None -> Amazon.priceWhole page = None ->
   Amazon.offscreenPrice page = None ->
   Amazon.price (Amazon.extractProductDetails page) = None)
  /\ (Amazon.textPrice page = None -> Amazon.basisPrice page = None ->
      Amazon.mrp (Amazon.extractProductDetails page) = None)
  /\ (Amazon.savingsPercentage page = None ->
      Amazon.price (Amazon.extractProductDetails page) = None
      \/ Amazon.mrp (Amazon.extractProductDetails page) = None ->
      Amazon.discount (Amazon.extractProductDetails page) = None)
  /\ (Amazon.ratingOutOfText page = None -> Amazon.iconStarSpan page = None ->
      Amazon.iconAlt page = None ->
      Amazon.rating (Amazon.extractProductDetails page) = None)
  /\ (Amazon.acrCustomerReviewText page = None -> Amazon.totalReviewCount page = None ->
      Amazon.totalRatings (Amazon.extractProductDetails page) = None)
  /\ (Amazon.sellerProfileTrigger page = None -> Amazon.merchantInfoFeature page = None ->
      Amazon.merchantInfo page = None ->
      Amazon.seller (Amazon.extractProductDetails page) = None)
  /\ (Amazon.availabilitySpan page = None ->
      Amazon.availability (Amazon.extractProductDetails page) = None).
Proof.
  cbn [Amazon.extractProductDetails Amazon.returnByValue Amazon.pageFunction
       Amazon.price Amazon.mrp Amazon.discount
       Amazon.rating Amazon.totalRatings Amazon.seller Amazon.availability].
  repeat split.
  - unfold Amazon.extractPrice. intros -> -> ->. reflexivity.
  - unfold Amazon.extractMrp. intros -> ->. reflexivity.
  - intros ->. unfold Amazon.extractDiscount.
    destruct (Amazon.extractPrice page) as [p|]; [|reflexivity].
    destruct (Amazon.extractMrp page) as [m|]; [|reflexivity].
    destruct (truthy_num (Some p) && truthy_num (Some m)); [|reflexivity].
    cbn [by_value]. intros H. rewrite !json_number_none in H.
    apply round_not_finite. apply percentage_not_finite. exact H.
  - unfold Amazon.extractRating. intros -> -> ->. reflexivity.
  - unfold Amazon.extractTotalRatings. intros -> ->. reflexivity.
  - unfold Amazon.extractSeller. intros -> -> ->. reflexivity.
  - intros ->. reflexivity.
Qed.

Lemma Myntra_missing page :
  (Myntra.priceEl page = None ->
   Myntra.price (Myntra.extractProductDetails page) = None)
  /\ (Myntra.mrpEl page = None ->
      Myntra.mrp (Myntra.extractProductDetails page) = None)
  /\ (Myntra.discountEl page = None ->
      Myntra.discount (Myntra.extractProductDetails page) = None)
  /\ (Myntra.ratingEl page = None ->
      Myntra.rating (Myntra.extractProductDetails page) = None)
  /\ (Myntra.ratingsCountEl page = None ->
      Myntra.totalRatings (Myntra.extractProductDetails page) = None)
  /\ (Myntra.sellerEl page = None ->
      Myntra.seller (Myntra.extractProductDetails page) = None).
Proof.
  cbn [Myntra.extractProductDetails Myntra.returnByValue Myntra.pageFunction
       Myntra.price Myntra.mrp Myntra.discount
       Myntra.rating Myntra.totalRatings Myntra.seller].
  repeat split; intros ->; reflexivity.
Qed.

(** C5, as the code has it.  When the element of a field is absent at all
    of its selectors the field of the record is null, for price, mrp,
    rating, the rating and review counts, seller and delivery on every
    platform that has the field, and for discount when the badge is absent
    and price or mrp is missing too; availability is null on Amazon, but on
    Flipkart it is never null: without the availability element it is 'In
    Stock' when an enabled cart button exists and 'Check availability'
    otherwise.  Whatever the product page holds, when every call fulfils
    and the filter finds a link the controller returns a success
    envelope. *)
Theorem C5_missing_elements
  (h : Host) (name q url : jsstring)
  (fs : Flipkart.Site) (zs : Amazon.Site) (ms : Myntra.Site)
  (fp : Flipkart.ProductPage) (zp : Amazon.ProductPage) (mp : Myntra.ProductPage) :
  ((Flipkart.priceEl fp = None ->
    Flipkart.price (Flipkart.extractProductDetails fp) = None)
   /\ (Flipkart.mrpEl fp = None ->
       Flipkart.mrp (Flipkart.extractProductDetails fp) = None)
   /\ (Flipkart.discountEl fp = None ->
       Flipkart.priceEl fp = None \/ Flipkart.mrpEl fp = None ->
       Flipkart.discount (Flipkart.extractProductDetails fp) = None)
   /\ (Flipkart.ratingEl fp = None ->
       Flipkart.rating (Flipkart.extractProductDetails fp) = None)
   /\ (Flipkart.ratingsReviewsEl fp = None ->
       Flipkart.totalRatings (Flipkart.extractProductDetails fp) = None
       /\ Flipkart.totalReviews (Flipkart.extractProductDetails fp) = None)
   /\ (Flipkart.sellerEl fp = None ->
       Flipkart.seller (Flipkart.extractProductDetails fp) = None)
   /\ (Flipkart.deliveryEl fp = None ->
       Flipkart.delivery (Flipkart.extractProductDetails fp) = None)
   /\ (Flipkart.availEl fp = None ->
       Flipkart.availability (Flipkart.extractProductDetails fp)
       = Some (if Flipkart.cartBtn fp then lit "In Stock"
               else lit "Check availability")))
  /\
  ((Amazon.priceWholeCentered zp = None -> Amazon.priceWhole zp = None ->
    Amazon.offscreenPrice zp = None ->
    Amazon.price (Amazon.extractProductDetails zp) = None)
   /\ (Amazon.textPrice zp = None -> Amazon.basisPrice zp = None ->
       Amazon.mrp (Amazon.extractProductDetails zp) = None)
   /\ (Amazon.savingsPercentage zp = None ->
       Amazon.price (Amazon.extractProductDetails zp) = None
       \/ Amazon.mrp (Amazon.extractProductDetails zp) = None ->
       Amazon.discount (Amazon.extractProductDetails zp) = None)
   /\ (Amazon.ratingOutOfText zp = None -> Amazon.iconStarSpan zp = None ->
       Amazon.iconAlt zp = None ->
       Amazon.rating (Amazon.extractProductDetails zp) = None)
   /\ (Amazon.acrCustomerReviewText zp = None -> Amazon.totalReviewCount zp = None ->
       Amazon.totalRatings (Amazon.extractProductDetails zp) = None)
   /\ (Amazon.sellerProfileTrigger zp = None -> Amazon.merchantInfoFeature zp = None ->
       Amazon.merchantInfo zp = None ->
       Amazon.seller (Amazon.extractProductDetails zp) = None)
   /\ (Amazon.availabilitySpan zp = None ->
       Amazon.availability (Amazon.extractProductDetails zp) = None))
  /\
  ((Myntra.priceEl mp = None ->
    Myntra.price (Myntra.extractProductDetails mp) = None)
   /\ (Myntra.mrpEl mp = None ->
       Myntra.mrp (Myntra.extractProductDetails mp) = None)
   /\ (Myntra.discountEl mp = None ->
       Myntra.discount (Myntra.extractProductDetails mp) = None)
   /\ (Myntra.ratingEl mp = None ->
       Myntra.rating (Myntra.extractProductDetails mp) = None)
   /\ (Myntra.ratingsCountEl mp = None ->
       Myntra.totalRatings (Myntra.extractProductDetails mp) = None)
   /\ (Myntra.sellerEl mp = None ->
       Myntra.seller (Myntra.extractProductDetails mp) = None))
  /\
  ((encodeURIComponent name = Some q ->
    Flipkart.findFirstNonSponsoredProduct (Flipkart.containers fs) = Some url ->
    quiet (Flipkart.oracle fs)
      (Launch :: Flipkart.prelude ++ Flipkart.searchPhase q
              ++ Flipkart.detailPhase url ++ [Close]) ->
    snd (run (Flipkart.flipkartProductScrapper h fs name) (Flipkart.oracle fs))
    = Ok (Success
            (Flipkart.formatOutput h
               (Flipkart.set_productLink
                  (Flipkart.extractProductDetails (Flipkart.page_at fs url)) url))))
   /\ (encodeURIComponent name = Some q ->
       Amazon.findFirstNonSponsoredProduct (Amazon.results zs) = Some url ->
       quiet (Amazon.oracle zs)
         (Launch :: Amazon.prelude ++ Amazon.searchPhase q
                 ++ Amazon.detailPhase url ++ [Close]) ->
       snd (run (Amazon.amazonProductScrapper h zs name) (Amazon.oracle zs))
       = Ok (Success
               (Amazon.formatOutput h
                  (Amazon.set_productLink
                     (Amazon.extractProductDetails (Amazon.page_at zs url)) url))))
   /\ (Myntra.findFirstNonSponsoredProduct (Myntra.products ms) = Some url ->
       quiet (Myntra.oracle ms)
         (Launch :: Myntra.prelude ++ Myntra.searchPhase name
                 ++ Myntra.detailPhase url ++ [Close]) ->
       snd (run (Myntra.myntraProductScrapper h ms name) (Myntra.oracle ms))
       = Ok (Success
               (Myntra.formatOutput h
                  (Myntra.extractProductDetails (Myntra.page_at ms url)))))).
Proof.
  split; [apply Flipkart_missing|].
  split; [apply Amazon_missing|].
  split; [apply Myntra_missing|].
  split; [apply Flipkart_success|].
  split; [apply Amazon_success | apply Myntra_success].
Qed.

(** The search of the scenario of the specification ends on a product
    page without any of the optional elements: the call succeeds, the
    stars are null, and the availability is the sentinel. *)
Lemma C5_missing_elements_witness :
  exists data,
    snd (run (Flipkart.flipkartProductScrapper Samples.plain_host
                (Samples.flipkart_site Samples.fulfil Samples.flipkart_listing
                   Samples.flipkart_blank)
                (lit "Nike Shoes")) Samples.fulfil)
    = Ok (Success data)
    /\ Flipkart.stars (Flipkart.d_rating data) = None
    /\ Flipkart.d_price data = lit "Not available"
    /\ Flipkart.d_availability data = Some (lit "Check availability")
    /\ Flipkart.d_productLink data
       = Some (lit "https://www.flipkart.com/p/nike-shoes-123").
Proof.
  destruct (C5_missing_elements Samples.plain_host (lit "Nike Shoes")
              (lit "Nike%20Shoes") (lit "https://www.flipkart.com/p/nike-shoes-123")
              (Samples.flipkart_site Samples.fulfil Samples.flipkart_listing
                 Samples.flipkart_blank)
              (Samples.amazon_site Samples.fulfil [] Samples.amazon_blank)
              (Samples.myntra_site Samples.fulfil [] Samples.myntra_blank)
              Samples.flipkart_blank Samples.amazon_blank Samples.myntra_blank)
    as [_ [_ [_ [HF _]]]].
  specialize (HF eq_refl eq_refl eq_refl).
  change (Flipkart.oracle _) with Samples.fulfil in HF.
  eexists. split; [exact HF|]. repeat split.
Defined.

(** C5 as stated fails for Flipkart's availability: on a product page
    with no availability element and no cart button the field is not null
    but 'Check availability', in the record and in the envelope of the
    successful call. *)
Lemma C5_counterexample :
  Flipkart.availEl Samples.flipkart_blank = None
  /\ Flipkart.cartBtn Samples.flipkart_blank = false
  /\ Flipkart.availability (Flipkart.extractProductDetails Samples.flipkart_blank)
     = Some (lit "Check availability")
  /\ exists data,
       snd (run (Flipkart.flipkartProductScrapper Samples.plain_host
                   (Samples.flipkart_site Samples.fulfil Samples.flipkart_listing
                      Samples.flipkart_blank)
                   (lit "Nike Shoes")) Samples.fulfil)
       = Ok (Success data)
       /\ Flipkart.d_availability data = Some (lit "Check availability").
Proof.
  repeat split. eexists. split; reflexivity.
Qed.

(** ** C6: the normalizer *)

Lemma rule_holds h cur price mrp discount offers seller :
  (forall x, cur ++ x <> lit "Not available") ->
  Normalizer.rule h cur price mrp discount offers seller
    (match
       match price with
       | Some v => if truthy_num price
                   then Some (cur ++ toLocaleString_en_IN h v) else None
       | None => None
       end
     with
     | Some s => s
     | None => lit "Not available"
     end)
    (match mrp with
     | Some v => if truthy_num mrp
                 then Some (cur ++ toLocaleString_en_IN h v) else None
     | None => None
     end)
    (match discount with
     | Some v => if truthy_num discount
                 then Some (Number_toString h v ++ lit "%") else None
     | None => None
     end)
    (if Nat.ltb 0 (List.length offers) then offers else [lit "No offers available"])
    (match seller with
     | Some s => if truthy_str (Some s) then s else lit "Not specified"
     | None => lit "Not specified"
     end).
Proof.
  intros Hcur. unfold Normalizer.rule.
  split; [|split; [|split; [|split; [|split; [|split; [|split; [|split; [|split]]]]]]]].
  - intros p -> Ht. rewrite Ht. reflexivity.
  - split.
    + intros Ht. destruct price as [p|]; [rewrite Ht|]; reflexivity.
    + destruct price as [p|]; [|reflexivity].
      destruct (truthy_num (Some p)); [|reflexivity].
      intros H. exfalso. exact (Hcur _ H).
  - intros m -> Ht. rewrite Ht. reflexivity.
  - split.
    + intros Ht. destruct mrp as [m|]; [rewrite Ht|]; reflexivity.
    + destruct mrp as [m|]; [|reflexivity].
      destruct (truthy_num (Some m)); [discriminate | reflexivity].
  - intros d -> Ht. rewrite Ht. reflexivity.
  - split.
    + intros Ht. destruct discount as [d|]; [rewrite Ht|]; reflexivity.
    + destruct discount as [d|]; [|reflexivity].
      destruct (truthy_num (Some d)); [discriminate | reflexivity].
  - destruct offers as [|o os]; [intros H; contradiction | reflexivity].
  - intros ->. reflexivity.
  - intros s -> Hs. destruct s as [|c s]; [contradiction | reflexivity].
  - intros [->| ->]; reflexivity.
Qed.

Lemma Flipkart_formatOutput_rule h d :
  Normalizer.rule h Flipkart.currency
    (Flipkart.price d) (Flipkart.mrp d) (Flipkart.discount d)
    (Flipkart.offers d) (Flipkart.seller d)
    (Flipkart.d_price (Flipkart.formatOutput h d))
    (Flipkart.d_mrp (Flipkart.formatOutput h d))
    (Flipkart.d_discount (Flipkart.formatOutput h d))
    (Flipkart.d_topOffers (Flipkart.formatOutput h d))
    (Flipkart.d_seller (Flipkart.formatOutput h d)).
Proof.
  apply rule_holds. intros x H. cbn in H. discriminate H.
Qed.

Lemma Amazon_formatOutput_rule h d :
  Normalizer.rule h Amazon.currency
    (Amazon.price d) (Amazon.mrp d) (Amazon.discount d)
    (Amazon.offers d) (Amazon.seller d)
    (Amazon.d_price (Amazon.formatOutput h d))
    (Amazon.d_mrp (Amazon.formatOutput h d))
    (Amazon.d_discount (Amazon.formatOutput h d))
    (Amazon.d_topOffers (Amazon.formatOutput h d))
    (Amazon.d_seller (Amazon.formatOutput h d)).
Proof.
  apply rule_holds. intros x H. cbn in H. discriminate H.
Qed.

Lemma Myntra_formatOutput_rule h d :
  Normalizer.rule h Myntra.currency
    (Myntra.price d) (Myntra.mrp d) (Myntra.discount d)
    (Myntra.offers d) (Myntra.seller d)
    (Myntra.d_price (Myntra.formatOutput h d))
    (Myntra.d_mrp (Myntra.formatOutput h d))
    (Myntra.d_discount (Myntra.formatOutput h d))
    (Myntra.d_topOffers (Myntra.formatOutput h d))
    (Myntra.d_seller (Myntra.formatOutput h d)).
Proof.
  apply rule_holds. intros x H. cbn in H. discriminate H.
Qed.

(** C6, as the code has it.  On each platform the normalizer maps the raw
    record by truthiness: price is the currency prefix followed by
    [toLocaleString('en-IN')] when the raw price is truthy (not null, not
    NaN, not zero) and 'Not available' exactly when it is falsy; mrp is the
    formatted text when truthy and null exactly when falsy; discount is the
    number followed by '%' when truthy and null exactly when falsy;
    topOffers is the offers list when it is not empty and ['No offers
    available'] otherwise; seller is the raw seller when it is a non-empty
    string and 'Not specified' when it is null or empty. *)
Theorem C6_normalizer_by_truthiness
  (h : Host) (fd : Flipkart.Details) (zd : Amazon.Details) (md : Myntra.Details) :
  Normalizer.rule h Flipkart.currency
    (Flipkart.price fd) (Flipkart.mrp fd) (Flipkart.discount fd)
    (Flipkart.offers fd) (Flipkart.seller fd)
    (Flipkart.d_price (Flipkart.formatOutput h fd))
    (Flipkart.d_mrp (Flipkart.formatOutput h fd))
    (Flipkart.d_discount (Flipkart.formatOutput h fd))
    (Flipkart.d_topOffers (Flipkart.formatOutput h fd))
    (Flipkart.d_seller (Flipkart.formatOutput h fd))
  /\ Normalizer.rule h Amazon.currency
       (Amazon.price zd) (Amazon.mrp zd) (Amazon.discount zd)
       (Amazon.offers zd) (Amazon.seller zd)
       (Amazon.d_price (Amazon.formatOutput h zd))
       (Amazon.d_mrp (Amazon.formatOutput h zd))
       (Amazon.d_discount (Amazon.formatOutput h zd))
       (Amazon.d_topOffers (Amazon.formatOutput h zd))
       (Amazon.d_seller (Amazon.formatOutput h zd))
  /\ Normalizer.rule h Myntra.currency
       (Myntra.price md) (Myntra.mrp md) (Myntra.discount md)
       (Myntra.offers md) (Myntra.seller md)
       (Myntra.d_price (Myntra.formatOutput h md))
       (Myntra.d_mrp (Myntra.formatOutput h md))
       (Myntra.d_discount (Myntra.formatOutput h md))
       (Myntra.d_topOffers (Myntra.formatOutput h md))
       (Myntra.d_seller (Myntra.formatOutput h md)).
Proof.
  split; [|split].
  - apply Flipkart_formatOutput_rule.
  - apply Amazon_formatOutput_rule.
  - apply Myntra_formatOutput_rule.
Qed.

(** The record of the scenario of the specification, normalized: price
    2999 is formatted with the groups of en-IN, discount 40 becomes "40%". *)
Lemma C6_normalizer_by_truthiness_witness :
  Flipkart.d_price
    (Flipkart.formatOutput Samples.plain_host
       (Flipkart.extractProductDetails Samples.flipkart_shoes))
  = Flipkart.currency ++ lit "2,999"
  /\ Flipkart.d_discount
       (Flipkart.formatOutput Samples.plain_host
          (Flipkart.extractProductDetails Samples.flipkart_shoes))
     = Some (lit "40%").
Proof.
  destruct (C6_normalizer_by_truthiness Samples.plain_host
              (Flipkart.extractProductDetails Samples.flipkart_shoes)
              (Amazon.extractProductDetails Samples.amazon_blank)
              (Myntra.extractProductDetails Samples.myntra_blank))
    as [[Hprice [_ [_ [_ [Hdiscount _]]]]] _].
  split.
  - rewrite (Hprice 2999%float eq_refl eq_refl). reflexivity.
  - rewrite (Hdiscount 40%float eq_refl eq_refl). reflexivity.
Defined.

(** C6 as stated fails: a raw value that is not null but falsy gets the
    default.  With price and mrp both 999 the raw discount is 0, not null,
    and the envelope's discount is null; a seller element of white space
    gives the raw seller '', not null, and the envelope says 'Not
    specified'. *)
Lemma C6_counterexample :
  Amazon.discount (Amazon.extractProductDetails Samples.amazon_full_price)
  = Some 0%float
  /\ Amazon.d_discount
       (Amazon.formatOutput Samples.plain_host
          (Amazon.extractProductDetails Samples.amazon_full_price))
     = None
  /\ Amazon.seller (Amazon.extractProductDetails Samples.amazon_full_price)
     = Some []
  /\ Amazon.d_seller
       (Amazon.formatOutput Samples.plain_host
          (Amazon.extractProductDetails Samples.amazon_full_price))
     = lit "Not specified".
Proof. repeat split. Qed.

(** ** C7: the product link *)

Lemma Flipkart_skips :
  Listing.skips Flipkart.link (includes (lit "/p/"))
    Flipkart.findFirstNonSponsoredProduct.
Proof.
  intros c rest href Hl Ha. cbn [Flipkart.findFirstNonSponsoredProduct].
  unfold Flipkart.productLinkOf. rewrite Hl, Ha, andb_false_r.
  destruct (Flipkart.isSponsored c); reflexivity.
Qed.

Lemma Amazon_skips :
  Listing.skips Amazon.link (includes (lit "/dp/"))
    Amazon.findFirstNonSponsoredProduct.
Proof.
  intros c rest href Hl Ha. cbn [Amazon.findFirstNonSponsoredProduct].
  unfold Amazon.productLinkOf. rewrite Hl, Ha, andb_false_r.
  destruct (Amazon.isSponsored c); reflexivity.
Qed.

(** C7, as the code has it.  On Flipkart a candidate is accepted exactly
    when its link has a non-empty href that contains "/p/", on Amazon
    "/dp/"; a candidate whose href lacks the marker is skipped and the next
    one is tried.  On Myntra every non-empty href of the link element is
    accepted.  On all three the URL returned is the link of a candidate of
    the list, and the link is the href itself when it starts with "http"
    and the platform's prefix followed by the href otherwise
    (https://www.flipkart.com, https://www.amazon.in,
    https://www.myntra.com/). *)
Theorem C7_product_link :
  (Listing.resolves Flipkart.link (includes (lit "/p/")) Flipkart.fullUrl
     Flipkart.productLinkOf
   /\ Listing.skips Flipkart.link (includes (lit "/p/"))
        Flipkart.findFirstNonSponsoredProduct
   /\ Listing.returns_a_link Flipkart.productLinkOf
        Flipkart.findFirstNonSponsoredProduct
   /\ Listing.absolutises (lit "https://www.flipkart.com") Flipkart.fullUrl)
  /\
  (Listing.resolves Amazon.link (includes (lit "/dp/")) Amazon.fullUrl
     Amazon.productLinkOf
   /\ Listing.skips Amazon.link (includes (lit "/dp/"))
        Amazon.findFirstNonSponsoredProduct
   /\ Listing.returns_a_link Amazon.productLinkOf
        Amazon.findFirstNonSponsoredProduct
   /\ Listing.absolutises (lit "https://www.amazon.in") Amazon.fullUrl)
  /\
  (Listing.resolves Myntra.link (fun _ => true) Myntra.fullUrl Myntra.productLinkOf
   /\ Listing.returns_a_link Myntra.productLinkOf
        Myntra.findFirstNonSponsoredProduct
   /\ Listing.absolutises (lit "https://www.myntra.com/") Myntra.fullUrl).
Proof.
  split; [|split].
  - split; [apply Flipkart_resolves | split; [apply Flipkart_skips | split]].
    + intros cs url H.
      apply (first_accepted_In Flipkart.isSponsored).
      apply (find_some Flipkart.isSponsored Flipkart.productLinkOf
               Flipkart.findFirstNonSponsoredProduct); [reflexivity | reflexivity | exact H].
    + intros href. unfold Flipkart.fullUrl.
      split; intros ->; reflexivity.
  - split; [apply Amazon_resolves | split; [apply Amazon_skips | split]].
    + intros cs url H.
      apply (first_accepted_In Amazon.isSponsored).
      apply (find_some Amazon.isSponsored Amazon.productLinkOf
               Amazon.findFirstNonSponsoredProduct); [reflexivity | reflexivity | exact H].
    + intros href. unfold Amazon.fullUrl.
      split; intros ->; reflexivity.
  - split; [apply Myntra_resolves | split].
    + intros cs url H.
      apply (first_accepted_In
               (fun p => Myntra.isSponsored (Myntra.sponsoredIndicators p))).
      apply (find_some (fun p => Myntra.isSponsored (Myntra.sponsoredIndicators p))
               Myntra.productLinkOf Myntra.findFirstNonSponsoredProduct);
        [reflexivity | reflexivity | exact H].
    + intros href. unfold Myntra.fullUrl.
      split; intros ->; reflexivity.
Qed.

(** The organic candidate of the scenario of the specification is accepted
    with its href made absolute, and a candidate in front of the list
    whose href is not a product path is skipped. *)
Lemma C7_product_link_witness :
  Flipkart.productLinkOf
    (Samples.flipkart_organic (Some (Some (lit "/p/nike-shoes-123"))))
  = Some (lit "https://www.flipkart.com/p/nike-shoes-123")
  /\ Flipkart.findFirstNonSponsoredProduct
       (Samples.flipkart_organic (Some (Some (lit "/search?q=nike")))
        :: Samples.flipkart_listing)
     = Flipkart.findFirstNonSponsoredProduct Samples.flipkart_listing.
Proof.
  destruct C7_product_link as [[Hres [Hskip [_ Habs]]] _].
  split.
  - apply Hres. exists (lit "/p/nike-shoes-123").
    split; [reflexivity|]. split; [discriminate|]. split; [reflexivity|].
    symmetry. apply (proj2 (Habs (lit "/p/nike-shoes-123"))). reflexivity.
  - apply (Hskip _ _ (lit "/search?q=nike")); reflexivity.
Defined.

(** C7 as stated fails on Myntra: no marker is looked for.  Two hrefs
    that have no character in common are both accepted, so no non-empty
    marker is contained in every accepted href. *)
Lemma C7_counterexample :
  Myntra.findFirstNonSponsoredProduct
    [Samples.myntra_product [lit "Nike"] (Some (Some (lit "nike-air/1")))]
  = Some (lit "https://www.myntra.com/nike-air/1")
  /\ Myntra.findFirstNonSponsoredProduct
       [Samples.myntra_product [lit "Tops"] (Some (Some (lit "tops_205")))]
     = Some (lit "https://www.myntra.com/tops_205")
  /\ forall marker,
       marker <> [] -> includes marker (lit "nike-air/1") = true ->
       includes marker (lit "tops_205") = false.
Proof.
  split; [reflexivity | split; [reflexivity|]].
  intros [|c m] Hne H; [contradiction|].
  apply includes_head_In in H. cbn in H.
  repeat (destruct H as [H|H]; [subst c; reflexivity|]).
  destruct H.
Qed.

(** ** C8: failures and the envelope *)

Lemma Flipkart_law h site name :
  exists trace env,
    run (Flipkart.flipkartProductScrapper h site name) (Flipkart.oracle site)
    = (trace, Ok env)
    /\ short_circuit_law (Flipkart.oracle site) (fst (Flipkart.plan site name))
         (map_result (Flipkart.formatOutput h) (snd (Flipkart.plan site name)))
         trace env.
Proof.
  rewrite Flipkart_respond.
  destruct (Flipkart.plan site name) as [calls r]. cbn [fst snd].
  pose proof (settle_law (Flipkart.oracle site) calls
                (map_result (Flipkart.formatOutput h) r)) as L.
  destruct (settle _ calls _) as [trace env].
  exists trace, env. split; [reflexivity | exact L].
Qed.

Lemma Amazon_law h site name :
  exists trace env,
    run (Amazon.amazonProductScrapper h site name) (Amazon.oracle site)
    = (trace, Ok env)
    /\ short_circuit_law (Amazon.oracle site) (fst (Amazon.plan site name))
         (map_result (Amazon.formatOutput h) (snd (Amazon.plan site name)))
         trace env.
Proof.
  rewrite Amazon_respond.
  destruct (Amazon.plan site name) as [calls r]. cbn [fst snd].
  pose proof (settle_law (Amazon.oracle site) calls
                (map_result (Amazon.formatOutput h) r)) as L.
  destruct (settle _ calls _) as [trace env].
  exists trace, env. split; [reflexivity | exact L].
Qed.

Lemma Myntra_law h site name :
  exists trace env,
    run (Myntra.myntraProductScrapper h site name) (Myntra.oracle site)
    = (trace, Ok env)
    /\ short_circuit_law (Myntra.oracle site) (fst (Myntra.plan site name))
         (map_result (Myntra.formatOutput h) (snd (Myntra.plan site name)))
         trace env.
Proof.
  rewrite Myntra_respond.
  destruct (Myntra.plan site name) as [calls r]. cbn [fst snd].
  pose proof (settle_law (Myntra.oracle site) calls
                (map_result (Myntra.formatOutput h) r)) as L.
  destruct (settle _ calls _) as [trace env].
  exists trace, env. split; [reflexivity | exact L].
Qed.

(** C8, as the code has it.  On each platform the controller always
    returns an envelope (it never throws), and the calls it made and the
    envelope obey the short-circuit law for the plan of the scrape.  A
    rejected call (launch, navigation, selector wait, any other) is
    followed by nothing but the teardown, and its message is the [error]
    of [{ success: false, error }] when [browser.close()] fulfils; when
    [browser.close()] is rejected, the message of that last rejection is
    the error.  The exception of an empty search ("No non-sponsored
    products found") is the error when every call fulfils.  Success is
    returned only when every call of the plan was made once, in order, and
    fulfilled. *)
Theorem C8_failure_short_circuits
  (h : Host) (name : jsstring)
  (fs : Flipkart.Site) (zs : Amazon.Site) (ms : Myntra.Site) :
  (exists trace env,
     run (Flipkart.flipkartProductScrapper h fs name) (Flipkart.oracle fs)
     = (trace, Ok env)
     /\ short_circuit_law (Flipkart.oracle fs) (fst (Flipkart.plan fs name))
          (map_result (Flipkart.formatOutput h) (snd (Flipkart.plan fs name)))
          trace env)
  /\ (exists trace env,
        run (Amazon.amazonProductScrapper h zs name) (Amazon.oracle zs)
        = (trace, Ok env)
        /\ short_circuit_law (Amazon.oracle zs) (fst (Amazon.plan zs name))
             (map_result (Amazon.formatOutput h) (snd (Amazon.plan zs name)))
             trace env)
  /\ (exists trace env,
        run (Myntra.myntraProductScrapper h ms name) (Myntra.oracle ms)
        = (trace, Ok env)
        /\ short_circuit_law (Myntra.oracle ms) (fst (Myntra.plan ms name))
             (map_result (Myntra.formatOutput h) (snd (Myntra.plan ms name)))
             trace env).
Proof.
  split; [apply Flipkart_law | split; [apply Amazon_law | apply Myntra_law]].
Qed.

(** A search on Flipkart in a browser whose navigations time out: the
    calls stop at the first navigation, the teardown follows, and the
    message of the timeout is the error. *)
Lemma C8_failure_short_circuits_witness :
  run (Flipkart.flipkartProductScrapper Samples.plain_host
         (Samples.flipkart_site Samples.no_network Samples.flipkart_listing
            Samples.flipkart_shoes)
         (lit "Nike Shoes")) Samples.no_network
  = ([Launch; NewPage; SetViewport 1920 1080; SetUserAgent Flipkart.userAgent;
      Goto (lit "https://www.flipkart.com/search?q=Nike%20Shoes"); Close],
     Ok (Failure (lit "Navigation timeout of 60000 ms exceeded"))).
Proof.
  destruct (C8_failure_short_circuits Samples.plain_host (lit "Nike Shoes")
              (Samples.flipkart_site Samples.no_network Samples.flipkart_listing
                 Samples.flipkart_shoes)
              (Samples.amazon_site Samples.no_network [] Samples.amazon_blank)
              (Samples.myntra_site Samples.no_network [] Samples.myntra_blank))
    as [[trace [env [Hrun [Hrej _]]]] _].
  change (Flipkart.oracle _) with Samples.no_network in Hrun, Hrej.
  assert (fst (run (Flipkart.flipkartProductScrapper Samples.plain_host
                      (Samples.flipkart_site Samples.no_network
                         Samples.flipkart_listing Samples.flipkart_shoes)
                      (lit "Nike Shoes")) Samples.no_network)
          = [Launch; NewPage; SetViewport 1920 1080; SetUserAgent Flipkart.userAgent;
             Goto (lit "https://www.flipkart.com/search?q=Nike%20Shoes"); Close])
    as Htrace by reflexivity.
  rewrite Hrun in Htrace |- *. cbn [fst] in Htrace. subst trace.
  f_equal. f_equal.
  destruct (Hrej [Launch; NewPage; SetViewport 1920 1080;
                  SetUserAgent Flipkart.userAgent]
              (Goto (lit "https://www.flipkart.com/search?q=Nike%20Shoes"))
              [Close] (lit "Navigation timeout of 60000 ms exceeded")
              eq_refl eq_refl) as [[Hp _]|[_ He]].
  - discriminate Hp.
  - apply He. reflexivity.
Defined.

(** C8 as stated fails when the teardown fails too.  In a browser whose
    navigations time out and whose [browser.close()] is rejected, the
    navigation to the search URL is the step that fails, and the error of
    the envelope is not its message but the message of the rejected
    teardown. *)
Lemma C8_counterexample :
  outcome Samples.crashed
    [Launch; NewPage; SetViewport 1920 1080; SetUserAgent Flipkart.userAgent]
    (Goto (lit "https://www.flipkart.com/search?q=Nike%20Shoes"))
  = Some (lit "Navigation timeout of 60000 ms exceeded")
  /\ run (Flipkart.flipkartProductScrapper Samples.plain_host
            (Samples.flipkart_site Samples.crashed Samples.flipkart_listing
               Samples.flipkart_shoes)
            (lit "Nike Shoes")) Samples.crashed
     = ([Launch; NewPage; SetViewport 1920 1080; SetUserAgent Flipkart.userAgent;
         Goto (lit "https://www.flipkart.com/search?q=Nike%20Shoes"); Close],
        Ok (Failure (lit "Protocol error (Browser.close): Target closed")))
  /\ lit "Protocol error (Browser.close): Target closed"
     <> lit "Navigation timeout of 60000 ms exceeded".
Proof.
  split; [reflexivity|]. split; [reflexivity | discriminate].
Qed.

(** ** C9: the teardown *)

Ltac no_teardown :=
  let ev := fresh "ev" in
  let H := fresh "H" in
  intros ev H;
  unfold Flipkart.prelude, Flipkart.searchPhase, Flipkart.detailPhase,
    Amazon.prelude, Amazon.searchPhase, Amazon.detailPhase,
    Myntra.prelude, Myntra.searchPhase, Myntra.detailPhase in H;
  cbn [fst In app] in H;
  repeat (destruct H as [H|H]; [subst ev; split; discriminate|]);
  destruct H.

Lemma Flipkart_plan_no_teardown site name :
  forall ev, In ev (fst (Flipkart.plan site name)) -> ev <> Close /\ ev <> Launch.
Proof.
  unfold Flipkart.plan.
  destruct (encodeURIComponent name) as [q|];
    [destruct (Flipkart.findFirstNonSponsoredProduct (Flipkart.containers site)) as [url|];
     [destruct (truthy_str (Some url))|]|];
    no_teardown.
Qed.

Lemma Amazon_plan_no_teardown site name :
  forall ev, In ev (fst (Amazon.plan site name)) -> ev <> Close /\ ev <> Launch.
Proof.
  unfold Amazon.plan.
  destruct (encodeURIComponent name) as [q|];
    [destruct (Amazon.findFirstNonSponsoredProduct (Amazon.results site)) as [url|];
     [destruct (truthy_str (Some url))|]|];
    no_teardown.
Qed.

Lemma Myntra_plan_no_teardown site name :
  forall ev, In ev (fst (Myntra.plan site name)) -> ev <> Close /\ ev <> Launch.
Proof.
  unfold Myntra.plan.
  destruct (Myntra.findFirstNonSponsoredProduct (Myntra.products site)) as [url|];
    [destruct (truthy_str (Some url))|];
    no_teardown.
Qed.

Lemma settle_one_teardown {D} o plan (c : result D) :
  (forall ev, In ev plan -> ev <> Close /\ ev <> Launch) ->
  outcome o [] Launch = None ->
  exists made,
    fst (settle o plan c) = Launch :: made ++ [Close]
    /\ ~ In Close made /\ ~ In Launch made.
Proof.
  intros Hplan HL.
  destruct (settle_teardown o plan c HL) as [made [rest [Hp Ht]]].
  exists made. split; [exact Ht|].
  split; intros Hin;
    destruct (Hplan _ (eq_ind_r (fun l => In _ l) (in_or_app _ _ _ (or_introl Hin)) Hp))
      as [H1 H2]; congruence.
Qed.

(** C9.  On each platform, whenever the launch fulfils, the calls made
    are the launch, then calls of the body, then the teardown: the last
    call is [browser.close()], it is made once, and this holds however the
    body ends (a return, a rejected navigation or selector wait, a rejected
    evaluation, the exception of an empty search). *)
Theorem C9_teardown_on_every_exit
  (h : Host) (name : jsstring)
  (fs : Flipkart.Site) (zs : Amazon.Site) (ms : Myntra.Site) :
  (outcome (Flipkart.oracle fs) [] Launch = None ->
   exists made,
     fst (run (Flipkart.flipkartProductScrapper h fs name) (Flipkart.oracle fs))
     = Launch :: made ++ [Close]
     /\ ~ In Close made /\ ~ In Launch made)
  /\ (outcome (Amazon.oracle zs) [] Launch = None ->
      exists made,
        fst (run (Amazon.amazonProductScrapper h zs name) (Amazon.oracle zs))
        = Launch :: made ++ [Close]
        /\ ~ In Close made /\ ~ In Launch made)
  /\ (outcome (Myntra.oracle ms) [] Launch = None ->
      exists made,
        fst (run (Myntra.myntraProductScrapper h ms name) (Myntra.oracle ms))
        = Launch :: made ++ [Close]
        /\ ~ In Close made /\ ~ In Launch made).
Proof.
  split; [|split]; intros HL.
  - rewrite Flipkart_respond.
    pose proof (Flipkart_plan_no_teardown fs name) as Hplan.
    destruct (Flipkart.plan fs name) as [calls r]. cbn [fst] in Hplan.
    destruct (settle_one_teardown (Flipkart.oracle fs) calls
                (map_result (Flipkart.formatOutput h) r) Hplan HL) as [made Hm].
    destruct (settle _ calls _) as [trace env]. exists made. exact Hm.
  - rewrite Amazon_respond.
    pose proof (Amazon_plan_no_teardown zs name) as Hplan.
    destruct (Amazon.plan zs name) as [calls r]. cbn [fst] in Hplan.
    destruct (settle_one_teardown (Amazon.oracle zs) calls
                (map_result (Amazon.formatOutput h) r) Hplan HL) as [made Hm].
    destruct (settle _ calls _) as [trace env]. exists made. exact Hm.
  - rewrite Myntra_respond.
    pose proof (Myntra_plan_no_teardown ms name) as Hplan.
    destruct (Myntra.plan ms name) as [calls r]. cbn [fst] in Hplan.
    destruct (settle_one_teardown (Myntra.oracle ms) calls
                (map_result (Myntra.formatOutput h) r) Hplan HL) as [made Hm].
    destruct (settle _ calls _) as [trace env]. exists made. exact Hm.
Qed.

(** A browser that launches and whose navigations time out: the teardown
    is the last call all the same. *)
Lemma C9_teardown_on_every_exit_witness :
  exists made,
    fst (run (Flipkart.flipkartProductScrapper Samples.plain_host
                (Samples.flipkart_site Samples.no_network Samples.flipkart_listing
                   Samples.flipkart_shoes)
                (lit "Nike Shoes")) Samples.no_network)
    = Launch :: made ++ [Close]
    /\ ~ In Close made /\ ~ In Launch made.
Proof.
  exact (proj1 (C9_teardown_on_every_exit Samples.plain_host (lit "Nike Shoes")
                  (Samples.flipkart_site Samples.no_network Samples.flipkart_listing
                     Samples.flipkart_shoes)
                  (Samples.amazon_site Samples.no_network [] Samples.amazon_blank)
                  (Samples.myntra_site Samples.no_network [] Samples.myntra_blank))
           eq_refl).
Defined.

(** ** C10: the ratings count on Myntra *)

Lemma Myntra_count_suffix_k text :
  Myntra.extractTotalRatings (Some (text ++ lit "k"))
  = Myntra.extractTotalRatings (Some text).
Proof.
  unfold Myntra.extractTotalRatings.
  rewrite remove_class_app.
  change (remove_class Myntra.count_class (lit "k")) with (@nil N).
  rewrite app_nil_r. reflexivity.
Qed.

(** C10.  Let [count] be the first run of digits and dots of the
    ratings-count text once commas, white space and the letters k and K
    are removed.  When [count] contains a dot, totalRatings is
    [parseFloat(count) * 1000]; when it does not, totalRatings is
    [parseInt(count)]; either Number is in the returned record as it
    leaves the page, null when it is not finite (a run without a digit, or
    one too long for a Number).  Only the dot decides: the text followed by
    a "k" gives the same totalRatings as the text alone. *)
Theorem C10_decimal_point_multiplies
  (page : Myntra.ProductPage) (text count : jsstring)
  (Hel : Myntra.ratingsCountEl page = Some text)
  (Hmatch : match_class_run Myntra.is_digit_or_dot
              (remove_class Myntra.count_class text) = Some count) :
  (includes (lit ".") count = true ->
   Myntra.totalRatings (Myntra.extractProductDetails page)
   = json_number (parseFloat count * 1000)%float)
  /\ (includes (lit ".") count = false ->
      Myntra.totalRatings (Myntra.extractProductDetails page)
      = json_number (parseInt count))
  /\ (forall page',
        Myntra.ratingsCountEl page' = Some (text ++ lit "k") ->
        Myntra.totalRatings (Myntra.extractProductDetails page')
        = Myntra.totalRatings (Myntra.extractProductDetails page)).
Proof.
  cbn [Myntra.extractProductDetails Myntra.returnByValue Myntra.pageFunction
       Myntra.totalRatings].
  split; [|split].
  - intros Hdot. rewrite Hel. unfold Myntra.extractTotalRatings.
    rewrite Hmatch, Hdot. reflexivity.
  - intros Hdot. rewrite Hel. unfold Myntra.extractTotalRatings.
    rewrite Hmatch, Hdot. reflexivity.
  - intros page' Hel'. rewrite Hel, Hel', Myntra_count_suffix_k. reflexivity.
Qed.

(** A count displayed as "4.2", without a suffix, yields 4200; "4.2k
    Ratings" yields 4200 too; "1500" yields 1500. *)
Lemma C10_decimal_point_multiplies_witness :
  Myntra.totalRatings (Myntra.extractProductDetails (Samples.myntra_counted (lit "4.2")))
  = Some 4200%float
  /\ Myntra.totalRatings
       (Myntra.extractProductDetails (Samples.myntra_counted (lit "4.2k Ratings")))
     = Some 4200%float
  /\ Myntra.totalRatings
       (Myntra.extractProductDetails (Samples.myntra_counted (lit "1500")))
     = Some 1500%float.
Proof.
  split; [|split].
  - rewrite (proj1 (C10_decimal_point_multiplies
                      (Samples.myntra_counted (lit "4.2")) (lit "4.2") (lit "4.2")
                      eq_refl eq_refl) eq_refl).
    reflexivity.
  - rewrite (proj1 (C10_decimal_point_multiplies
                      (Samples.myntra_counted (lit "4.2k Ratings"))
                      (lit "4.2k Ratings") (lit "4.2") eq_refl eq_refl) eq_refl).
    reflexivity.
  - rewrite (proj1 (proj2 (C10_decimal_point_multiplies
                             (Samples.myntra_counted (lit "1500")) (lit "1500")
                             (lit "1500") eq_refl eq_refl)) eq_refl).
    reflexivity.
Defined.

(* ===================================================================== *)
(** * Further properties of the code                                      *)
(* ===================================================================== *)

(** ** The further definitions on concrete inputs *)

Example amounts_and_counts :
  Amazon.parseAmount (Samples.rupee ++ lit "1,23,456") = 123456%float
  /\ Flipkart.parseDiscountBadge (Some (lit "35% off")) = Some 35%float
  /\ Amazon.parseDiscountBadge (Some (lit "-35%")) = Some 35%float
  /\ Flipkart.extractCount (lit "Ratings") (Some (lit "1,204 Ratings & 97 Reviews"))
     = Some 1204%float
  /\ Flipkart.extractCount (lit "Reviews") (Some (lit "1,204 Ratings & 97 Reviews"))
     = Some 97%float
  /\ Flipkart.extractCount (lit "Ratings") (Some (lit "1,204 ratings")) = None
  /\ Flipkart.extractRating (Some (lit "New")) = None
  /\ Amazon.rating (Amazon.extractProductDetails
                      (Samples.amazon_priced (lit "999") (lit "1,499") None))
     = None
  /\ Flipkart.rating (Flipkart.pageFunction Cases.flipkart_unrated) = Some nan
  /\ Flipkart.rating (Flipkart.extractProductDetails Cases.flipkart_unrated) = None
  /\ Flipkart.discount (Flipkart.pageFunction Cases.flipkart_unrated) = Some nan
  /\ Flipkart.discount (Flipkart.extractProductDetails Cases.flipkart_unrated) = None
  /\ Flipkart.price (Flipkart.extractProductDetails Cases.flipkart_unrated)
     = Some 2999%float.
Proof. repeat split. Qed.

Example requests_to_the_routes :
  run (Routes.amazonScrape Cases.server Samples.plain_host
         (Samples.amazon_site Samples.fulfil [] Samples.amazon_blank)
         (Cases.post [(lit "productName", Http.JNumber 5%float)])) Samples.fulfil
  = ([], Ok {| Http.status := 400%Z;
               Http.json := Routes.Required (lit "productName is required") |})
  /\ run (Routes.flipkartScrape Cases.server Samples.plain_host
            (Samples.flipkart_site Samples.fulfil
               [Samples.flipkart_sponsored (lit "/p/ad-1")] Samples.flipkart_blank)
            (Cases.post [(lit "productName", Http.JString (lit "Nike Shoes"))]))
       Samples.fulfil
     = ([Launch; NewPage; SetViewport 1920 1080; SetUserAgent Flipkart.userAgent;
         Goto (lit "https://www.flipkart.com/search?q=Nike%20Shoes");
         WaitForSelector Flipkart.resultsSelector; Delay 3000;
         Evaluate (lit "findFirstNonSponsoredProduct"); Close],
        Ok {| Http.status := 200%Z;
              Http.json :=
                Routes.Result (Failure (lit "No non-sponsored products found")) |})
  /\ run (Routes.myntraScrapeGet Cases.server
            (Routes.myntraScraper Samples.plain_host
               (Samples.myntra_site Samples.fulfil [] Samples.myntra_blank)
               (fun _ => ret (Failure (lit "text is not iterable"))))
            (Cases.get_query [(lit "productName", Http.JString [])])) Samples.fulfil
     = ([], Ok {| Http.status := 400%Z;
                  Http.json :=
                    Routes.MyntraResult
                      (Failure
                         (lit "Product name is required. Usage: /myntra-scrape?productName=YourProduct")) |})
  /\ run (Routes.myntraScrapePost Cases.server
            (Routes.myntraScraper Samples.plain_host
               (Samples.myntra_site Samples.fulfil [] Samples.myntra_blank)
               (fun _ => ret (Failure (lit "text is not iterable"))))
            (Cases.post [(lit "productName", Cases.no_primitive)])) Samples.fulfil
     = ([], Ok {| Http.status := 500%Z;
                  Http.json :=
                    Routes.MyntraError (lit "Myntra")
                      (lit "Cannot convert object to primitive value") None |})
  /\ Unify.unifyname Cases.server Cases.gemini (Cases.post [])
     = ([], {| Http.status := 400%Z;
               Http.json := Unify.Error (lit "Please provide a product link.") |})
  /\ Unify.unifyname Cases.server Cases.gemini
       (Cases.post [(lit "link", Cases.no_primitive)])
     = ([], {| Http.status := 500%Z;
               Http.json :=
                 Unify.ErrorDetails (lit "Internal server error")
                   (lit "Cannot convert object to primitive value") |}).
Proof. repeat split. Qed.

(** ** White space *)

Lemma trimStart_split s :
  exists ws, s = ws ++ trimStart s /\ forallb is_space ws = true.
Proof.
  induction s as [|c s [ws [Hs Hw]]]; simpl.
  - exists []. split; reflexivity.
  - destruct (is_space c) eqn:Hc.
    + exists (c :: ws). simpl. rewrite Hc, Hw. split; [f_equal; exact Hs | reflexivity].
    + exists []. split; reflexivity.
Qed.

Lemma trimStart_head s c rest : trimStart s = c :: rest -> is_space c = false.
Proof.
  induction s as [|d s IH]; simpl; [discriminate|].
  destruct (is_space d) eqn:Hd; [exact IH|].
  intros H. inversion H; subst. exact Hd.
Qed.

Lemma trimEnd_split s :
  exists ws, s = trimEnd s ++ ws /\ forallb is_space ws = true.
Proof.
  unfold trimEnd. destruct (trimStart_split (rev s)) as [ws [Hs Hw]].
  exists (rev ws). split.
  - rewrite <- rev_app_distr, <- Hs, rev_involutive. reflexivity.
  - rewrite forallb_forall in *. intros x Hx. apply Hw. apply in_rev. exact Hx.
Qed.

Lemma trimEnd_last s c rest : rev (trimEnd s) = c :: rest -> is_space c = false.
Proof.
  unfold trimEnd. rewrite rev_involutive. apply trimStart_head.
Qed.

(** [trim] leaves a contiguous part of the text. *)
Lemma trim_split s :
  exists ws1 ws2,
    s = ws1 ++ trim s ++ ws2
    /\ forallb is_space ws1 = true /\ forallb is_space ws2 = true.
Proof.
  unfold trim.
  destruct (trimStart_split s) as [ws1 [H1 Hw1]].
  destruct (trimEnd_split (trimStart s)) as [ws2 [H2 Hw2]].
  exists ws1, ws2. split; [|split; assumption].
  rewrite <- H2. exact H1.
Qed.

Lemma trimmed_trim s : Text.trimmed (trim s) = true.
Proof.
  unfold Text.trimmed. apply andb_true_iff. split.
  - unfold trim.
    destruct (trimEnd_split (trimStart s)) as [ws [Hs _]].
    destruct (trimEnd (trimStart s)) as [|c r]; [reflexivity|].
    simpl in Hs. rewrite (trimStart_head _ _ _ Hs). reflexivity.
  - unfold trim.
    destruct (rev (trimEnd (trimStart s))) as [|c r] eqn:E; [reflexivity|].
    rewrite (trimEnd_last _ _ _ E). reflexivity.
Qed.

Lemma trimmed_fixed s : Text.trimmed s = true -> trim s = s.
Proof.
  unfold Text.trimmed, trim. intros H. apply andb_true_iff in H. destruct H as [H1 H2].
  assert (trimStart s = s) as ->.
  { destruct s as [|c s]; [reflexivity|]. simpl.
    apply negb_true_iff in H1. rewrite H1. reflexivity. }
  unfold trimEnd.
  destruct (rev s) as [|c r] eqn:E.
  - simpl. apply (f_equal (@rev N)) in E. rewrite rev_involutive in E. subst. reflexivity.
  - simpl. apply negb_true_iff in H2. rewrite H2. rewrite <- E. apply rev_involutive.
Qed.

Lemma collapse_spaces_cons c s :
  collapse_spaces (c :: s) =
  if is_space c then
    match s with
    | d :: _ => if is_space d then collapse_spaces s else 32%N :: collapse_spaces s
    | [] => [32%N]
    end
  else c :: collapse_spaces s.
Proof. reflexivity. Qed.

Lemma single_spaced_collapse s : Text.single_spaced (collapse_spaces s) = true.
Proof.
  induction s as [|c s IH]; [reflexivity|].
  rewrite collapse_spaces_cons.
  destruct (is_space c) eqn:Hc.
  - destruct s as [|d s]; [reflexivity|].
    destruct (is_space d) eqn:Hd; [exact IH|].
    rewrite collapse_spaces_cons, Hd in IH |- *.
    cbn [Text.single_spaced]. cbn [Text.single_spaced] in IH.
    rewrite Hd in IH |- *. simpl in IH |- *. exact IH.
  - cbn [Text.single_spaced]. rewrite Hc, IH. reflexivity.
Qed.

Lemma collapse_spaces_last s c :
  is_space c = false -> exists pre, collapse_spaces (s ++ [c]) = pre ++ [c].
Proof.
  intros Hc. induction s as [|a s [pre IH]].
  - exists []. simpl. rewrite Hc. reflexivity.
  - change ((a :: s) ++ [c]) with (a :: (s ++ [c])).
    rewrite collapse_spaces_cons.
    destruct (is_space a).
    + destruct (s ++ [c]) as [|d r] eqn:E; [destruct s; discriminate|].
      destruct (is_space d).
      * exists pre. exact IH.
      * exists (32%N :: pre). rewrite IH. reflexivity.
    + exists (a :: pre). rewrite IH. reflexivity.
Qed.

Lemma collapse_spaces_nonempty s : s <> [] -> collapse_spaces s <> [].
Proof.
  induction s as [|c s IH]; [congruence|]. intros _.
  rewrite collapse_spaces_cons.
  destruct (is_space c); [|discriminate].
  destruct s as [|d s]; [discriminate|].
  destruct (is_space d); [apply IH|]; discriminate.
Qed.

Lemma trimmed_collapse s :
  Text.trimmed s = true -> Text.trimmed (collapse_spaces s) = true.
Proof.
  unfold Text.trimmed. intros H. apply andb_true_iff in H. destruct H as [H1 H2].
  apply andb_true_iff. split.
  - destruct s as [|c s]; [reflexivity|].
    apply negb_true_iff in H1. rewrite collapse_spaces_cons, H1, H1. reflexivity.
  - destruct (rev s) as [|c r] eqn:E.
    + apply (f_equal (@rev N)) in E. rewrite rev_involutive in E. subst. reflexivity.
    + apply (f_equal (@rev N)) in E. rewrite rev_involutive in E. simpl in E. subst s.
      apply negb_true_iff in H2.
      destruct (collapse_spaces_last (rev r) c H2) as [pre ->].
      rewrite rev_app_distr. simpl. rewrite H2. reflexivity.
Qed.

Lemma single_spaced_firstn n : forall s,
  Text.single_spaced s = true -> Text.single_spaced (firstn n s) = true.
Proof.
  induction n as [|n IH]; intros [|c s] H; try reflexivity.
  cbn [firstn Text.single_spaced]. cbn [Text.single_spaced] in H.
  apply andb_true_iff in H. destruct H as [Hc Hs].
  rewrite (IH _ Hs), andb_true_r.
  destruct (is_space c); [|reflexivity].
  apply andb_true_iff in Hc. destruct Hc as [Hc Hd]. rewrite Hc. simpl.
  destruct n; [reflexivity|]. destruct s; [reflexivity|]. exact Hd.
Qed.

(** An invariant of a loop that pushes to a list. *)
Lemma fold_left_Forall {A B} (P : B -> Prop) (f : list B -> A -> list B) :
  (forall acc a, Forall P acc -> Forall P (f acc a)) ->
  forall l acc, Forall P acc -> Forall P (fold_left f l acc).
Proof.
  intros Hf. induction l as [|a l IH]; intros acc H; simpl; [exact H|].
  apply IH. apply Hf. exact H.
Qed.

Lemma Forall_snoc {A} (P : A -> Prop) l x : Forall P l -> P x -> Forall P (l ++ [x]).
Proof. intros Hl Hx. apply Forall_app. split; [exact Hl | constructor; [exact Hx | constructor]]. Qed.

Lemma Forall_firstn {A} (P : A -> Prop) n : forall l, Forall P l -> Forall P (firstn n l).
Proof.
  induction n as [|n IH]; intros [|a l] H; simpl; try constructor.
  - inversion H; assumption.
  - apply IH. inversion H; assumption.
Qed.


(** ** The search URL *)

Lemma in_range_bounds lo hi c :
  in_range lo hi c = true <-> (lo <= c <= hi)%N.
Proof.
  unfold in_range. rewrite andb_true_iff, !N.leb_le. reflexivity.
Qed.

(** A hexadecimal digit is written "0" to "9" or "A" to "F". *)
Lemma hex_digit_safe n : (n < 16)%N -> Text.url_safe (hex_digit n) = true.
Proof.
  intros H. unfold Text.url_safe, hex_digit, is_unreserved.
  destruct (N.ltb_spec n 10) as [Hn|Hn].
  - assert (is_digit (48 + n) = true) as -> by (apply in_range_bounds; lia).
    rewrite orb_true_r. reflexivity.
  - assert (in_range 65 90 (55 + n) = true) as -> by (apply in_range_bounds; lia).
    reflexivity.
Qed.

Lemma percent_safe b : (b < 256)%N -> forallb Text.url_safe (percent b) = true.
Proof.
  intros H. unfold percent. cbn [forallb].
  rewrite (hex_digit_safe (b / 16)), (hex_digit_safe (b mod 16)).
  - reflexivity.
  - apply N.mod_lt. discriminate.
  - apply N.Div0.div_lt_upper_bound. exact H.
Qed.

Lemma utf8_bytes cp b : (cp < 1114112)%N -> In b (utf8 cp) -> (b < 256)%N.
Proof.
  intros H. unfold utf8.
  assert (forall a, a mod 64 < 64)%N as Hm by (intros a; apply N.mod_lt; discriminate).
  pose proof (Hm cp). pose proof (Hm (cp / 64)%N). pose proof (Hm (cp / 4096)%N).
  destruct (N.ltb_spec cp 128) as [L1|L1];
    [|destruct (N.ltb_spec cp 2048) as [L2|L2];
      [|destruct (N.ltb_spec cp 65536) as [L3|L3]]]; cbn [In]; intros Hb.
  - lia.
  - assert (cp / 64 < 32)%N by (apply N.Div0.div_lt_upper_bound; lia). lia.
  - assert (cp / 4096 < 16)%N by (apply N.Div0.div_lt_upper_bound; lia). lia.
  - assert (cp / 262144 < 5)%N by (apply N.Div0.div_lt_upper_bound; lia). lia.
Qed.

Lemma escape_safe cp :
  (cp < 1114112)%N -> forallb Text.url_safe (flat_map percent (utf8 cp)) = true.
Proof.
  intros H. apply forallb_forall. intros x Hx.
  apply in_flat_map in Hx. destruct Hx as [b [Hb Hx]].
  pose proof (percent_safe b (utf8_bytes cp b H Hb)) as Hp.
  rewrite forallb_forall in Hp. apply Hp. exact Hx.
Qed.

Lemma encodeURIComponent_cons c s' :
  encodeURIComponent (c :: s') =
  if is_unreserved c then option_map (cons c) (encodeURIComponent s')
  else if in_range 56320 57343 c then None
  else if in_range 55296 56319 c then
    match s' with
    | d :: s'' =>
        if in_range 56320 57343 d then
          option_map
            (app (flat_map percent (utf8 ((c - 55296) * 1024 + (d - 56320) + 65536))))
            (encodeURIComponent s'')
        else None
    | [] => None
    end
  else option_map (app (flat_map percent (utf8 c))) (encodeURIComponent s').
Proof. reflexivity. Qed.

(** What [encodeURIComponent] writes is unreserved characters and
    escapes. *)
Lemma encodeURIComponent_safe : forall n s q,
  (List.length s <= n)%nat ->
  forallb Text.code_unit s = true ->
  encodeURIComponent s = Some q -> forallb Text.url_safe q = true.
Proof.
  induction n as [|n IH]; intros s q Hn Hs Hq.
  - destruct s; [|simpl in Hn; lia]. inversion Hq. reflexivity.
  - destruct s as [|c s']; [inversion Hq; reflexivity|].
    simpl in Hn. cbn [forallb] in Hs. apply andb_true_iff in Hs. destruct Hs as [Hc Hs'].
    unfold Text.code_unit in Hc. apply N.ltb_lt in Hc.
    rewrite encodeURIComponent_cons in Hq.
    destruct (is_unreserved c) eqn:U.
    + destruct (encodeURIComponent s') as [q'|] eqn:E; [|discriminate].
      inversion Hq; subst q. cbn [forallb].
      unfold Text.url_safe at 1. rewrite U. simpl.
      apply (IH s' q'); [lia | exact Hs' | exact E].
    + destruct (in_range 56320 57343 c) eqn:L; [discriminate|].
      destruct (in_range 55296 56319 c) eqn:Hh.
      * destruct s' as [|d s'']; [discriminate|].
        destruct (in_range 56320 57343 d) eqn:Ld; [|discriminate].
        destruct (encodeURIComponent s'') as [q'|] eqn:E; [|discriminate].
        inversion Hq; subst q. rewrite forallb_app.
        apply in_range_bounds in Hh, Ld.
        rewrite escape_safe by lia. simpl.
        cbn [forallb] in Hs'. apply andb_true_iff in Hs'.
        apply (IH s'' q'); [simpl in Hn; lia | exact (proj2 Hs') | exact E].
      * destruct (encodeURIComponent s') as [q'|] eqn:E; [|discriminate].
        inversion Hq; subst q. rewrite forallb_app.
        rewrite escape_safe by lia. simpl.
        apply (IH s' q'); [lia | exact Hs' | exact E].
Qed.

(** A name without surrogates is always encoded. *)
Lemma encodeURIComponent_total s :
  forallb (fun c => negb (Text.is_surrogate c)) s = true ->
  exists q, encodeURIComponent s = Some q.
Proof.
  induction s as [|c s IH]; intros H.
  - exists []. reflexivity.
  - cbn [forallb] in H. apply andb_true_iff in H. destruct H as [Hc Hs].
    destruct (IH Hs) as [q Hq].
    rewrite encodeURIComponent_cons, Hq.
    apply negb_true_iff in Hc. unfold Text.is_surrogate in Hc.
    assert (in_range 56320 57343 c = false) as ->.
    { destruct (in_range 56320 57343 c) eqn:E; [|reflexivity].
      apply in_range_bounds in E.
      assert (in_range 55296 57343 c = true) by (apply in_range_bounds; lia).
      congruence. }
    assert (in_range 55296 56319 c = false) as ->.
    { destruct (in_range 55296 56319 c) eqn:E; [|reflexivity].
      apply in_range_bounds in E.
      assert (in_range 55296 57343 c = true) by (apply in_range_bounds; lia).
      congruence. }
    destruct (is_unreserved c); simpl; eauto.
Qed.

(** ** Navigations *)

Lemma navigations_app t1 t2 :
  Trace.navigations (t1 ++ t2) = Trace.navigations t1 ++ Trace.navigations t2.
Proof.
  induction t1 as [|ev t1 IH]; [reflexivity|].
  destruct ev; simpl; rewrite IH; reflexivity.
Qed.

(** The navigations of a whole call are an initial part of those of its
    plan. *)
Lemma settle_navigations {D} o plan (c : result D) :
  exists rest,
    Trace.navigations plan = Trace.navigations (fst (settle o plan c)) ++ rest.
Proof.
  unfold settle. destruct (outcome o [] Launch).
  - exists (Trace.navigations plan). reflexivity.
  - destruct (exec o [Launch] plan) as [made r1] eqn:HE.
    destruct (exec_prefix _ _ _ _ _ HE) as [rest [Hp _]].
    exists (Trace.navigations rest). cbn [fst].
    change (Launch :: made ++ [Close]) with ([Launch] ++ made ++ [Close]).
    rewrite !navigations_app. simpl. rewrite app_nil_r.
    rewrite Hp. apply navigations_app.
Qed.

Lemma Flipkart_plan_navigations site name :
  Trace.navigations (fst (Flipkart.plan site name)) =
  match encodeURIComponent name with
  | Some q =>
      (Flipkart.baseUrl ++ q)
      :: match Flipkart.findFirstNonSponsoredProduct (Flipkart.containers site) with
         | Some url => [url]
         | None => []
         end
  | None => []
  end.
Proof.
  unfold Flipkart.plan. destruct (encodeURIComponent name) as [q|]; [|reflexivity].
  destruct (Flipkart.findFirstNonSponsoredProduct (Flipkart.containers site))
    as [url|] eqn:F; [|reflexivity].
  rewrite (Flipkart_found_truthy _ _ F). reflexivity.
Qed.

Lemma Amazon_plan_navigations site name :
  Trace.navigations (fst (Amazon.plan site name)) =
  match encodeURIComponent name with
  | Some q =>
      (Amazon.baseUrl ++ q)
      :: match Amazon.findFirstNonSponsoredProduct (Amazon.results site) with
         | Some url => [url]
         | None => []
         end
  | None => []
  end.
Proof.
  unfold Amazon.plan. destruct (encodeURIComponent name) as [q|]; [|reflexivity].
  destruct (Amazon.findFirstNonSponsoredProduct (Amazon.results site))
    as [url|] eqn:F; [|reflexivity].
  rewrite (Amazon_found_truthy _ _ F). reflexivity.
Qed.

Lemma Myntra_plan_navigations site name :
  Trace.navigations (fst (Myntra.plan site name)) =
  Myntra.baseUrl
  :: match Myntra.findFirstNonSponsoredProduct (Myntra.products site) with
     | Some url => [url]
     | None => []
     end.
Proof.
  unfold Myntra.plan.
  destruct (Myntra.findFirstNonSponsoredProduct (Myntra.products site))
    as [url|] eqn:F; [|reflexivity].
  rewrite (Myntra_found_truthy _ _ F). reflexivity.
Qed.

Lemma Flipkart_run_navigations h site name :
  exists rest,
    Trace.navigations (fst (Flipkart.plan site name)) =
    Trace.navigations
      (fst (run (Flipkart.flipkartProductScrapper h site name) (Flipkart.oracle site)))
    ++ rest.
Proof.
  rewrite Flipkart_respond. destruct (Flipkart.plan site name) as [calls r]. cbn [fst].
  destruct (settle_navigations (Flipkart.oracle site) calls
              (map_result (Flipkart.formatOutput h) r)) as [rest H].
  exists rest. rewrite H.
  destruct (settle (Flipkart.oracle site) calls (map_result (Flipkart.formatOutput h) r)).
  reflexivity.
Qed.

Lemma Amazon_run_navigations h site name :
  exists rest,
    Trace.navigations (fst (Amazon.plan site name)) =
    Trace.navigations
      (fst (run (Amazon.amazonProductScrapper h site name) (Amazon.oracle site)))
    ++ rest.
Proof.
  rewrite Amazon_respond. destruct (Amazon.plan site name) as [calls r]. cbn [fst].
  destruct (settle_navigations (Amazon.oracle site) calls
              (map_result (Amazon.formatOutput h) r)) as [rest H].
  exists rest. rewrite H.
  destruct (settle (Amazon.oracle site) calls (map_result (Amazon.formatOutput h) r)).
  reflexivity.
Qed.

Lemma Myntra_run_navigations h site name :
  exists rest,
    Trace.navigations (fst (Myntra.plan site name)) =
    Trace.navigations
      (fst (run (Myntra.myntraProductScrapper h site name) (Myntra.oracle site)))
    ++ rest.
Proof.
  rewrite Myntra_respond. destruct (Myntra.plan site name) as [calls r]. cbn [fst].
  destruct (settle_navigations (Myntra.oracle site) calls
              (map_result (Myntra.formatOutput h) r)) as [rest H].
  exists rest. rewrite H.
  destruct (settle (Myntra.oracle site) calls (map_result (Myntra.formatOutput h) r)).
  reflexivity.
Qed.

(** X1.  The search URL of Flipkart and of Amazon.  A product name
    without surrogate code units is always encoded; and whenever a name of
    UTF-16 code units is encoded, the query consists of unreserved
    characters and percent escapes only, and the first page a scrape
    navigates to, if it navigates at all, is the base URL followed by that
    query. *)
Theorem X1_search_url_is_escaped
  (name : jsstring) (Hunits : forallb Text.code_unit name = true) :
  (forallb (fun c => negb (Text.is_surrogate c)) name = true ->
   exists q, encodeURIComponent name = Some q)
  /\ (forall q,
        encodeURIComponent name = Some q ->
        forallb Text.url_safe q = true
        /\ (forall h site u rest,
              Trace.navigations
                (fst (run (Flipkart.flipkartProductScrapper h site name)
                        (Flipkart.oracle site))) = u :: rest ->
              u = Flipkart.baseUrl ++ q)
        /\ (forall h site u rest,
              Trace.navigations
                (fst (run (Amazon.amazonProductScrapper h site name)
                        (Amazon.oracle site))) = u :: rest ->
              u = Amazon.baseUrl ++ q)).
Proof.
  split; [apply encodeURIComponent_total|].
  intros q Hq. split; [|split].
  - exact (encodeURIComponent_safe _ name q (le_n _) Hunits Hq).
  - intros h site u rest Hn.
    destruct (Flipkart_run_navigations h site name) as [more H].
    rewrite Flipkart_plan_navigations, Hq, Hn in H. inversion H. reflexivity.
  - intros h site u rest Hn.
    destruct (Amazon_run_navigations h site name) as [more H].
    rewrite Amazon_plan_navigations, Hq, Hn in H. inversion H. reflexivity.
Qed.

(** The name "Nike Shoes & co": it is encoded, and the query is made of
    unreserved characters and escapes. *)
Lemma X1_search_url_is_escaped_witness :
  forallb Text.code_unit (lit "Nike Shoes & co") = true
  /\ exists q,
       encodeURIComponent (lit "Nike Shoes & co") = Some q
       /\ forallb Text.url_safe q = true.
Proof.
  split; [reflexivity|].
  destruct (X1_search_url_is_escaped (lit "Nike Shoes & co") eq_refl) as [H1 H2].
  destruct (H1 eq_refl) as [q Hq].
  exists q. split; [exact Hq | exact (proj1 (H2 q Hq))].
Defined.

(** X2.  A product name that [encodeURIComponent] rejects (a lone
    surrogate) stops a Flipkart or Amazon scrape before any navigation:
    whatever the browser does, no page is visited; and when the launch,
    the page set-up and the teardown fulfil, the answer is the failure
    envelope with the message of the URIError. *)
Theorem X2_malformed_name_is_not_searched
  (h : Host) (name : jsstring) (fs : Flipkart.Site) (zs : Amazon.Site)
  (Hbad : encodeURIComponent name = None) :
  Trace.navigations
    (fst (run (Flipkart.flipkartProductScrapper h fs name) (Flipkart.oracle fs))) = []
  /\ Trace.navigations
       (fst (run (Amazon.amazonProductScrapper h zs name) (Amazon.oracle zs))) = []
  /\ (quiet (Flipkart.oracle fs) (Launch :: Flipkart.prelude ++ [Close]) ->
      run (Flipkart.flipkartProductScrapper h fs name) (Flipkart.oracle fs)
      = (Launch :: Flipkart.prelude ++ [Close], Ok (Failure (lit "URI malformed"))))
  /\ (quiet (Amazon.oracle zs) (Launch :: Amazon.prelude ++ [Close]) ->
      run (Amazon.amazonProductScrapper h zs name) (Amazon.oracle zs)
      = (Launch :: Amazon.prelude ++ [Close], Ok (Failure (lit "URI malformed")))).
Proof.
  split; [|split; [|split]].
  - destruct (Flipkart_run_navigations h fs name) as [more H].
    rewrite Flipkart_plan_navigations, Hbad in H.
    symmetry in H. apply app_eq_nil in H. exact (proj1 H).
  - destruct (Amazon_run_navigations h zs name) as [more H].
    rewrite Amazon_plan_navigations, Hbad in H.
    symmetry in H. apply app_eq_nil in H. exact (proj1 H).
  - intros Hq. rewrite Flipkart_respond. unfold Flipkart.plan. rewrite Hbad.
    rewrite (settle_quiet _ _ _ Hq). reflexivity.
  - intros Hq. rewrite Amazon_respond. unfold Amazon.plan. rewrite Hbad.
    rewrite (settle_quiet _ _ _ Hq). reflexivity.
Qed.

(** A name that is one high surrogate, in a browser where every call
    fulfils. *)
Lemma X2_malformed_name_is_not_searched_witness :
  encodeURIComponent [55357%N] = None
  /\ run (Flipkart.flipkartProductScrapper Samples.plain_host
            (Samples.flipkart_site Samples.fulfil Samples.flipkart_listing
               Samples.flipkart_shoes)
            [55357%N]) Samples.fulfil
     = ([Launch; NewPage; SetViewport 1920 1080; SetUserAgent Flipkart.userAgent; Close],
        Ok (Failure (lit "URI malformed"))).
Proof.
  split; [reflexivity|].
  apply (proj1 (proj2 (proj2
           (X2_malformed_name_is_not_searched Samples.plain_host [55357%N]
              (Samples.flipkart_site Samples.fulfil Samples.flipkart_listing
                 Samples.flipkart_shoes)
              (Samples.amazon_site Samples.fulfil [] Samples.amazon_blank)
              eq_refl)))).
  reflexivity.
Defined.

Lemma startsWith_app p : forall a r,
  startsWith p a = true -> startsWith p (a ++ r) = true.
Proof.
  induction p as [|c p IH]; intros [|d a] r H; simpl in *; try reflexivity;
    try discriminate.
  apply andb_true_iff in H. destruct H as [H1 H2].
  rewrite H1, (IH _ _ H2). reflexivity.
Qed.

Lemma fullUrl_http prefix href :
  startsWith (lit "http") prefix = true ->
  startsWith (lit "http")
    (if startsWith (lit "http") href then href else prefix ++ href) = true.
Proof.
  intros Hp. destruct (startsWith (lit "http") href) eqn:E; [exact E|].
  apply startsWith_app. exact Hp.
Qed.

Lemma Flipkart_found_http cs url :
  Flipkart.findFirstNonSponsoredProduct cs = Some url ->
  startsWith (lit "http") url = true.
Proof.
  intros H.
  apply (find_some Flipkart.isSponsored Flipkart.productLinkOf) in H;
    [|reflexivity|reflexivity].
  apply first_accepted_In in H. destruct H as [c [_ Hl]].
  apply Flipkart_resolves in Hl. destruct Hl as [href [_ [_ [_ ->]]]].
  apply fullUrl_http. reflexivity.
Qed.

Lemma Amazon_found_http rs url :
  Amazon.findFirstNonSponsoredProduct rs = Some url ->
  startsWith (lit "http") url = true.
Proof.
  intros H.
  apply (find_some Amazon.isSponsored Amazon.productLinkOf) in H;
    [|reflexivity|reflexivity].
  apply first_accepted_In in H. destruct H as [c [_ Hl]].
  apply Amazon_resolves in Hl. destruct Hl as [href [_ [_ [_ ->]]]].
  apply fullUrl_http. reflexivity.
Qed.

Lemma Myntra_found_http ps url :
  Myntra.findFirstNonSponsoredProduct ps = Some url ->
  startsWith (lit "http") url = true.
Proof.
  intros H.
  apply (find_some (fun p => Myntra.isSponsored (Myntra.sponsoredIndicators p))
           Myntra.productLinkOf) in H; [|reflexivity|reflexivity].
  apply first_accepted_In in H. destruct H as [c [_ Hl]].
  apply Myntra_resolves in Hl. destruct Hl as [href [_ [_ [_ ->]]]].
  apply fullUrl_http. reflexivity.
Qed.

Lemma initial_part {A} (P : A -> Prop) (whole part rest : list A) n :
  whole = part ++ rest -> (List.length whole <= n)%nat -> Forall P whole ->
  (List.length part <= n)%nat /\ Forall P part.
Proof.
  intros -> Hl Hf. rewrite length_app in Hl. apply Forall_app in Hf.
  split; [lia | exact (proj1 Hf)].
Qed.

(** X3.  Navigations.  Whatever the browser does and whatever the pages
    hold, one call of a controller navigates at most twice, and every URL
    it hands to [page.goto] begins with "http": the search URL (the home
    page on Myntra) and the link the filter returned. *)
Theorem X3_at_most_two_absolute_navigations :
  forall (h : Host) (name : jsstring)
         (fs : Flipkart.Site) (zs : Amazon.Site) (ms : Myntra.Site),
    let absolute := fun url => startsWith (lit "http") url = true in
    let visited_f :=
      Trace.navigations
        (fst (run (Flipkart.flipkartProductScrapper h fs name) (Flipkart.oracle fs))) in
    let visited_z :=
      Trace.navigations
        (fst (run (Amazon.amazonProductScrapper h zs name) (Amazon.oracle zs))) in
    let visited_m :=
      Trace.navigations
        (fst (run (Myntra.myntraProductScrapper h ms name) (Myntra.oracle ms))) in
    ((List.length visited_f <= 2)%nat /\ Forall absolute visited_f)
    /\ ((List.length visited_z <= 2)%nat /\ Forall absolute visited_z)
    /\ ((List.length visited_m <= 2)%nat /\ Forall absolute visited_m).
Proof.
  intros h name fs zs ms absolute visited_f visited_z visited_m.
  subst visited_f visited_z visited_m. split; [|split].
  - destruct (Flipkart_run_navigations h fs name) as [rest H].
    apply (initial_part absolute _ _ rest 2 H); rewrite Flipkart_plan_navigations;
      destruct (encodeURIComponent name) as [q|];
      destruct (Flipkart.findFirstNonSponsoredProduct (Flipkart.containers fs))
        as [url|] eqn:F;
      try (simpl; lia);
      repeat first [exact (Flipkart_found_http _ _ F) | reflexivity | constructor].
  - destruct (Amazon_run_navigations h zs name) as [rest H].
    apply (initial_part absolute _ _ rest 2 H); rewrite Amazon_plan_navigations;
      destruct (encodeURIComponent name) as [q|];
      destruct (Amazon.findFirstNonSponsoredProduct (Amazon.results zs))
        as [url|] eqn:F;
      try (simpl; lia);
      repeat first [exact (Amazon_found_http _ _ F) | reflexivity | constructor].
  - destruct (Myntra_run_navigations h ms name) as [rest H].
    apply (initial_part absolute _ _ rest 2 H); rewrite Myntra_plan_navigations;
      destruct (Myntra.findFirstNonSponsoredProduct (Myntra.products ms))
        as [url|] eqn:F;
      try (simpl; lia);
      repeat first [exact (Myntra_found_http _ _ F) | reflexivity | constructor].
Qed.

(** X4.  What a success envelope rests on.  A controller returns
    [success: true] only after the whole plan ran: the name was encoded
    (Flipkart, Amazon), the filter returned a link, and the calls made are
    the launch, the page set-up, the search, the visit of that link and
    the teardown; the data are the normalised details of the page behind
    that link, and on Flipkart and Amazon their [productLink] is that
    link. *)
Theorem X4_success_is_the_page_behind_the_link :
  (forall h site name trace data,
     run (Flipkart.flipkartProductScrapper h site name) (Flipkart.oracle site)
     = (trace, Ok (Success data)) ->
     exists q url,
       encodeURIComponent name = Some q
       /\ Flipkart.findFirstNonSponsoredProduct (Flipkart.containers site) = Some url
       /\ trace = Launch :: Flipkart.prelude ++ Flipkart.searchPhase q
                         ++ Flipkart.detailPhase url ++ [Close]
       /\ data = Flipkart.formatOutput h
                   (Flipkart.set_productLink
                      (Flipkart.extractProductDetails (Flipkart.page_at site url)) url)
       /\ Flipkart.d_productLink data = Some url)
  /\ (forall h site name trace data,
        run (Amazon.amazonProductScrapper h site name) (Amazon.oracle site)
        = (trace, Ok (Success data)) ->
        exists q url,
          encodeURIComponent name = Some q
          /\ Amazon.findFirstNonSponsoredProduct (Amazon.results site) = Some url
          /\ trace = Launch :: Amazon.prelude ++ Amazon.searchPhase q
                            ++ Amazon.detailPhase url ++ [Close]
          /\ data = Amazon.formatOutput h
                      (Amazon.set_productLink
                         (Amazon.extractProductDetails (Amazon.page_at site url)) url)
          /\ Amazon.d_productLink data = Some url)
  /\ (forall h site name trace data,
        run (Myntra.myntraProductScrapper h site name) (Myntra.oracle site)
        = (trace, Ok (Success data)) ->
        exists url,
          Myntra.findFirstNonSponsoredProduct (Myntra.products site) = Some url
          /\ trace = Launch :: Myntra.prelude ++ Myntra.searchPhase name
                            ++ Myntra.detailPhase url ++ [Close]
          /\ data = Myntra.formatOutput h
                      (Myntra.extractProductDetails (Myntra.page_at site url))).
Proof.
  split; [|split]; intros h site name trace data H.
  - rewrite Flipkart_respond in H. unfold Flipkart.plan in H.
    destruct (encodeURIComponent name) as [q|].
    + destruct (Flipkart.findFirstNonSponsoredProduct (Flipkart.containers site))
        as [url|] eqn:F.
      * rewrite (Flipkart_found_truthy _ _ F) in H.
        destruct (settle _ _ _) as [t e] eqn:S in H. inversion H; subst t e.
        apply settle_success in S. destruct S as [Hc [Ht _]].
        simpl in Hc. inversion Hc; subst data.
        exists q, url. repeat split. rewrite Ht, <- !app_assoc. reflexivity.
      * destruct (settle _ _ _) as [t e] eqn:S in H. inversion H; subst t e.
        apply settle_success in S. destruct S as [Hc _]. discriminate.
    + destruct (settle _ _ _) as [t e] eqn:S in H. inversion H; subst t e.
      apply settle_success in S. destruct S as [Hc _]. discriminate.
  - rewrite Amazon_respond in H. unfold Amazon.plan in H.
    destruct (encodeURIComponent name) as [q|].
    + destruct (Amazon.findFirstNonSponsoredProduct (Amazon.results site))
        as [url|] eqn:F.
      * rewrite (Amazon_found_truthy _ _ F) in H.
        destruct (settle _ _ _) as [t e] eqn:S in H. inversion H; subst t e.
        apply settle_success in S. destruct S as [Hc [Ht _]].
        simpl in Hc. inversion Hc; subst data.
        exists q, url. repeat split. rewrite Ht, <- !app_assoc. reflexivity.
      * destruct (settle _ _ _) as [t e] eqn:S in H. inversion H; subst t e.
        apply settle_success in S. destruct S as [Hc _]. discriminate.
    + destruct (settle _ _ _) as [t e] eqn:S in H. inversion H; subst t e.
      apply settle_success in S. destruct S as [Hc _]. discriminate.
  - rewrite Myntra_respond in H. unfold Myntra.plan in H.
    destruct (Myntra.findFirstNonSponsoredProduct (Myntra.products site))
      as [url|] eqn:F.
    + rewrite (Myntra_found_truthy _ _ F) in H.
      destruct (settle _ _ _) as [t e] eqn:S in H. inversion H; subst t e.
      apply settle_success in S. destruct S as [Hc [Ht _]].
      simpl in Hc. inversion Hc; subst data.
      exists url. repeat split. rewrite Ht, <- !app_assoc. reflexivity.
    + destruct (settle _ _ _) as [t e] eqn:S in H. inversion H; subst t e.
      apply settle_success in S. destruct S as [Hc _]. discriminate.
Qed.

(** ** The filter and the order of the page *)

Section FilterOrder.
Context {C : Type}.
Variable sponsored : C -> bool.
Variable linkOf : C -> option jsstring.
Variable find : list C -> option jsstring.
Hypothesis find_nil : find [] = None.
Hypothesis find_cons : forall c rest,
  find (c :: rest) =
  if sponsored c then find rest
  else match linkOf c with
       | Some url => Some url
       | None => find rest
       end.

Lemma find_without_sponsored cs :
  find (filter (fun c => negb (sponsored c)) cs) = find cs.
Proof.
  induction cs as [|c cs IH]; [reflexivity|].
  simpl. rewrite (find_cons c cs).
  destruct (sponsored c) eqn:S; simpl; [exact IH|].
  rewrite find_cons, S, IH. reflexivity.
Qed.

Lemma find_app cs cs' :
  find (cs ++ cs') = match find cs with Some url => Some url | None => find cs' end.
Proof.
  induction cs as [|c cs IH]; simpl.
  - rewrite find_nil. reflexivity.
  - rewrite !find_cons. destruct (sponsored c); [exact IH|].
    destruct (linkOf c); [reflexivity | exact IH].
Qed.
End FilterOrder.

(** X5.  Sponsored candidates are invisible to the filter: taking every
    flagged candidate out of the results list, wherever it stands, does
    not change the link the filter returns (or that it returns none), on
    each of the three platforms. *)
Theorem X5_sponsored_candidates_are_invisible :
  (forall cs,
     Flipkart.findFirstNonSponsoredProduct
       (filter (fun c => negb (Flipkart.isSponsored c)) cs)
     = Flipkart.findFirstNonSponsoredProduct cs)
  /\ (forall rs,
        Amazon.findFirstNonSponsoredProduct
          (filter (fun r => negb (Amazon.isSponsored r)) rs)
        = Amazon.findFirstNonSponsoredProduct rs)
  /\ (forall ps,
        Myntra.findFirstNonSponsoredProduct
          (filter (fun p => negb (Myntra.isSponsored (Myntra.sponsoredIndicators p))) ps)
        = Myntra.findFirstNonSponsoredProduct ps).
Proof.
  split; [|split]; intros cs.
  - apply (find_without_sponsored Flipkart.isSponsored Flipkart.productLinkOf);
      reflexivity.
  - apply (find_without_sponsored Amazon.isSponsored Amazon.productLinkOf);
      reflexivity.
  - apply (find_without_sponsored
             (fun p => Myntra.isSponsored (Myntra.sponsoredIndicators p))
             Myntra.productLinkOf); reflexivity.
Qed.

(** X6.  The filter reads the page from the top: on two lists of
    candidates one after the other it returns the link found in the
    first, and the one found in the second only when the first has none;
    candidates that follow an accepted one are never looked at. *)
Theorem X6_filter_reads_from_the_top :
  (forall cs cs',
     Flipkart.findFirstNonSponsoredProduct (cs ++ cs')
     = match Flipkart.findFirstNonSponsoredProduct cs with
       | Some url => Some url
       | None => Flipkart.findFirstNonSponsoredProduct cs'
       end)
  /\ (forall rs rs',
        Amazon.findFirstNonSponsoredProduct (rs ++ rs')
        = match Amazon.findFirstNonSponsoredProduct rs with
          | Some url => Some url
          | None => Amazon.findFirstNonSponsoredProduct rs'
          end)
  /\ (forall ps ps',
        Myntra.findFirstNonSponsoredProduct (ps ++ ps')
        = match Myntra.findFirstNonSponsoredProduct ps with
          | Some url => Some url
          | None => Myntra.findFirstNonSponsoredProduct ps'
          end).
Proof.
  split; [|split]; intros cs cs'.
  - apply (find_app Flipkart.isSponsored Flipkart.productLinkOf); reflexivity.
  - apply (find_app Amazon.isSponsored Amazon.productLinkOf); reflexivity.
  - apply (find_app (fun p => Myntra.isSponsored (Myntra.sponsoredIndicators p))
             Myntra.productLinkOf); reflexivity.
Qed.

(** ** Prices *)

Lemma is_digit_cases c :
  is_digit c = true ->
  (c = 48 \/ c = 49 \/ c = 50 \/ c = 51 \/ c = 52 \/ c = 53 \/ c = 54 \/ c = 55
   \/ c = 56 \/ c = 57)%N.
Proof.
  unfold is_digit, in_range. intros H. apply andb_true_iff in H.
  destruct H as [H1 H2]. apply N.leb_le in H1, H2. lia.
Qed.

(** A property of the ten digits that evaluation decides. *)
Lemma on_digits (P : N -> bool) c :
  forallb P [48; 49; 50; 51; 52; 53; 54; 55; 56; 57]%N = true ->
  is_digit c = true -> P c = true.
Proof.
  intros HP Hc. rewrite forallb_forall in HP. apply HP.
  destruct (is_digit_cases c Hc) as [->|[->|[->|[->|[->|[->|[->|[->|[->| ->]]]]]]]]];
    simpl; auto 11.
Qed.

Lemma digit_not_space c : is_digit c = true -> is_space c = false.
Proof.
  intros H. apply negb_true_iff.
  exact (on_digits (fun c => negb (is_space c)) c eq_refl H).
Qed.

Lemma take_while_all p (s : jsstring) : forallb p s = true -> take_while p s = s.
Proof.
  induction s as [|c s IH]; simpl; [reflexivity|]. intros H.
  apply andb_true_iff in H. destruct H as [Hc Hs]. rewrite Hc, (IH Hs). reflexivity.
Qed.




Lemma remove_class_digits cls text :
  (forall c, is_digit c = true -> cls c = false) ->
  forallb (fun c => is_digit c || cls c) text = true ->
  remove_class cls text = filter is_digit text.
Proof.
  intros Hd. unfold remove_class. induction text as [|c text IH]; simpl; [reflexivity|].
  intros H. apply andb_true_iff in H. destruct H as [Hc Ht].
  rewrite (IH Ht). destruct (is_digit c) eqn:D.
  - rewrite (Hd c D). reflexivity.
  - simpl in Hc. rewrite Hc. reflexivity.
Qed.

Lemma filter_digits_nonempty text :
  existsb is_digit text = true -> filter is_digit text <> [].
Proof.
  induction text as [|c text IH]; simpl; [discriminate|].
  destruct (is_digit c); [discriminate | exact IH].
Qed.


Lemma class_without_digits (cls : N -> bool) :
  forallb (fun c => negb (cls c)) [48; 49; 50; 51; 52; 53; 54; 55; 56; 57]%N = true ->
  forall c, is_digit c = true -> cls c = false.
Proof.
  intros H c Hc. apply negb_true_iff.
  exact (on_digits (fun c => negb (cls c)) c H Hc).
Qed.

(** [parseInt] of a run of digits is the Number of the integer they
    write. *)
Lemma parseInt_digits ds :
  forallb is_digit ds = true -> ds <> [] ->
  parseInt ds = float_of_ratio (digits_value ds) 1.
Proof.
  intros H Hn. destruct ds as [|c ds]; [congruence|]. clear Hn.
  pose proof H as H'. simpl in H'. apply andb_true_iff in H'. destruct H' as [Hc Hds].
  unfold parseInt.
  assert (trimStart (c :: ds) = c :: ds) as ->
    by (simpl; rewrite (digit_not_space c Hc); reflexivity).
  assert (parse_sign (c :: ds) = (false, c :: ds)) as ->.
  { destruct (is_digit_cases c Hc) as [->|[->|[->|[->|[->|[->|[->|[->|[->| ->]]]]]]]]];
      reflexivity. }
  assert (match c :: ds with
          | 48%N :: x :: _ => char_in [120; 88]%N x
          | _ => false
          end = false) as ->.
  { destruct ds as [|x ds].
    - destruct (is_digit_cases c Hc)
        as [->|[->|[->|[->|[->|[->|[->|[->|[->| ->]]]]]]]]]; reflexivity.
    - simpl in Hds. apply andb_true_iff in Hds. destruct Hds as [Hx _].
      assert (char_in [120; 88]%N x = false) as Hx'
        by (apply negb_true_iff;
            exact (on_digits (fun x => negb (char_in [120; 88]%N x)) x eq_refl Hx)).
      destruct (is_digit_cases c Hc)
        as [->|[->|[->|[->|[->|[->|[->|[->|[->| ->]]]]]]]]];
        try reflexivity. exact Hx'. }
  rewrite (take_while_all _ _ H). reflexivity.
Qed.




Lemma trimStart_skip ws c r :
  forallb is_space ws = true -> is_space c = false ->
  trimStart (ws ++ c :: r) = c :: r.
Proof.
  intros Hw Hc. induction ws as [|w ws IH]; simpl.
  - rewrite Hc. reflexivity.
  - simpl in Hw. apply andb_true_iff in Hw. destruct Hw as [H1 H2].
    rewrite H1. exact (IH H2).
Qed.

Lemma trimEnd_head c r :
  is_space c = false -> exists r', trimEnd (c :: r) = c :: r'.
Proof.
  intros Hc. destruct (trimEnd_split (c :: r)) as [ws [H Hw]].
  destruct (trimEnd (c :: r)) as [|d r'].
  - simpl in H. subst ws. simpl in Hw. rewrite Hc in Hw. discriminate.
  - simpl in H. inversion H; subst d. exists r'. reflexivity.
Qed.

Lemma Flipkart_currency_keeps_spaces ws :
  forallb is_space ws = true -> remove_class Flipkart.currency_class ws = ws.
Proof.
  unfold remove_class. induction ws as [|w ws IH]; [reflexivity|].
  intros H. simpl in H. apply andb_true_iff in H. destruct H as [H1 H2].
  simpl. rewrite (IH H2).
  assert (Flipkart.currency_class w = false) as ->; [|reflexivity].
  unfold Flipkart.currency_class, char_in. simpl.
  destruct (N.eqb_spec w 8218) as [->|_]; [vm_compute in H1; discriminate H1|].
  destruct (N.eqb_spec w 199) as [->|_]; [vm_compute in H1; discriminate H1|].
  destruct (N.eqb_spec w 960) as [->|_]; [vm_compute in H1; discriminate H1|].
  destruct (N.eqb_spec w 44) as [->|_]; [vm_compute in H1; discriminate H1|].
  reflexivity.
Qed.

(** X8.  The price pattern of the Flipkart file removes U+201A, U+00C7,
    U+03C0 and the comma, not the rupee sign U+20B9.  A price text whose
    first character after white space is the rupee sign is therefore read
    as NaN in the page, and the price of the returned record is null: the
    record's discount is then what the badge says (null for a badge
    without a digit), and the envelope's price is 'Not available'. *)
Theorem X8_flipkart_rupee_sign_is_kept
  (h : Host) (page : Flipkart.ProductPage) (ws rest : jsstring)
  (Hel : Flipkart.priceEl page = Some (ws ++ 8377%N :: rest))
  (Hws : forallb is_space ws = true) :
  let d := Flipkart.extractProductDetails page in
  Flipkart.price (Flipkart.pageFunction page) = Some nan
  /\ Flipkart.price d = None
  /\ Flipkart.discount d
     = by_value (Flipkart.parseDiscountBadge (Flipkart.discountEl page))
  /\ Flipkart.d_price (Flipkart.formatOutput h d) = lit "Not available".
Proof.
  intros d. subst d.
  assert (Flipkart.parsePrice (Flipkart.priceEl page) = Some nan) as Hp.
  { rewrite Hel. unfold Flipkart.parsePrice. f_equal.
    rewrite remove_class_app.
    change (remove_class Flipkart.currency_class (8377%N :: rest))
      with (8377%N :: remove_class Flipkart.currency_class rest).
    rewrite (Flipkart_currency_keeps_spaces ws Hws).
    assert (is_space 8377 = false) as Hr by reflexivity.
    unfold trim.
    rewrite (trimStart_skip ws 8377 (remove_class Flipkart.currency_class rest) Hws Hr).
    destruct (trimEnd_head 8377 (remove_class Flipkart.currency_class rest) Hr)
      as [r' ->].
    reflexivity. }
  split; [exact Hp|].
  assert (truthy_num (Flipkart.price (Flipkart.pageFunction page))
          && truthy_num (Flipkart.mrp (Flipkart.pageFunction page)) = false) as Hf.
  { cbn [Flipkart.pageFunction Flipkart.price]. rewrite Hp. reflexivity. }
  split; [|split; [exact (Flipkart_discount_parsed page Hf)|]];
    cbn [Flipkart.extractProductDetails Flipkart.returnByValue Flipkart.pageFunction
         Flipkart.price Flipkart.formatOutput Flipkart.d_price];
    rewrite Hp; reflexivity.
Qed.

(** A page whose price reads rupee sign, "2,999" and whose badge reads
    "40% off": price null, discount 40. *)
Lemma X8_flipkart_rupee_sign_is_kept_witness :
  Flipkart.priceEl Cases.flipkart_rupee = Some ([] ++ 8377%N :: lit "2,999")
  /\ forallb is_space [] = true
  /\ Flipkart.price (Flipkart.extractProductDetails Cases.flipkart_rupee) = None
  /\ Flipkart.discount (Flipkart.extractProductDetails Cases.flipkart_rupee)
     = Some 40%float
  /\ Flipkart.d_price
       (Flipkart.formatOutput Samples.plain_host
          (Flipkart.extractProductDetails Cases.flipkart_rupee))
     = lit "Not available".
Proof.
  split; [reflexivity|]. split; [reflexivity|].
  pose proof (X8_flipkart_rupee_sign_is_kept Samples.plain_host Cases.flipkart_rupee
                [] (lit "2,999") eq_refl eq_refl) as H.
  cbv zeta in H. destruct H as [_ [H1 [H2 H3]]].
  split; [exact H1|]. split; [rewrite H2; reflexivity | exact H3].
Defined.

(** ** Fields read with a pattern *)

Lemma drop_while_nil p (s : jsstring) : drop_while p s = [] <-> forallb p s = true.
Proof.
  induction s as [|c s IH]; simpl; [split; reflexivity|].
  destruct (p c); simpl; [exact IH | split; discriminate].
Qed.

(** [s.match(/[...]+/)] is [null] exactly when no character of [s] is in
    the class. *)
Lemma match_class_run_none cls s :
  match_class_run cls s = None <-> existsb cls s = false.
Proof.
  unfold match_class_run.
  assert (existsb cls s = false <-> forallb (fun c => negb (cls c)) s = true) as ->.
  { induction s as [|c s IH]; simpl; [split; reflexivity|].
    destruct (cls c); simpl; [split; discriminate | exact IH]. }
  rewrite <- drop_while_nil.
  destruct (drop_while (fun c => negb (cls c)) s); split; congruence.
Qed.

Lemma existsb_remove_class cls rem s :
  (forall c, cls c = true -> rem c = false) ->
  existsb cls (remove_class rem s) = existsb cls s.
Proof.
  intros Hc. unfold remove_class. induction s as [|c s IH]; [reflexivity|].
  simpl. destruct (rem c) eqn:R; simpl.
  - rewrite IH. destruct (cls c) eqn:E; [|reflexivity].
    rewrite (Hc c E) in R. discriminate.
  - rewrite IH. reflexivity.
Qed.

Lemma In_trim c s : In c (trim s) -> In c s.
Proof.
  intros H. destruct (trim_split s) as [ws1 [ws2 [E _]]]. rewrite E.
  apply in_or_app. right. apply in_or_app. left. exact H.
Qed.

Lemma In_drop_while p c (s : jsstring) : In c (drop_while p s) -> In c s.
Proof.
  induction s as [|d s IH]; simpl; [tauto|].
  destruct (p d); [intros H; right; exact (IH H) | simpl; tauto].
Qed.

Lemma take_while_spec p (s : jsstring) :
  forallb p (take_while p s) = true /\ forall c, In c (take_while p s) -> In c s.
Proof.
  induction s as [|d s [IH1 IH2]]; simpl; [split; [reflexivity | tauto]|].
  destruct (p d) eqn:E; simpl; [|split; [reflexivity | tauto]].
  rewrite E, IH1. split; [reflexivity|]. intros c [H|H]; [left; exact H | right; exact (IH2 c H)].
Qed.

Lemma drop_while_head p (s : jsstring) d r :
  drop_while p s = d :: r -> p d = false.
Proof.
  induction s as [|x s IH]; simpl; [discriminate|].
  destruct (p x) eqn:X; [exact IH|]. intros [= <- _]. exact X.
Qed.

(** The run a pattern matches: not empty, made of characters of the class
    that the text has. *)
Lemma match_class_run_some cls s run :
  match_class_run cls s = Some run ->
  run <> [] /\ forallb cls run = true /\ forall c, In c run -> In c s.
Proof.
  unfold match_class_run.
  destruct (drop_while (fun c => negb (cls c)) s) as [|d r] eqn:E; [discriminate|].
  intros [= <-].
  pose proof (drop_while_head _ _ _ _ E) as Hd. apply negb_false_iff in Hd.
  destruct (take_while_spec cls (d :: r)) as [H1 H2].
  split; [simpl; rewrite Hd; discriminate|]. split; [exact H1|].
  intros c Hc. apply (In_drop_while (fun c => negb (cls c))). rewrite E. exact (H2 c Hc).
Qed.

(** [parseFloat] of full stops alone is NaN. *)
Lemma parseFloat_dots run : forallb (N.eqb 46) run = true -> parseFloat run = nan.
Proof.
  destruct run as [|c run]; [reflexivity|]. cbn [forallb]. intros H.
  apply andb_true_iff in H. destruct H as [Hc Hr]. apply N.eqb_eq in Hc. subst c.
  destruct run as [|d run]; [reflexivity|]. cbn [forallb] in Hr.
  apply andb_true_iff in Hr. destruct Hr as [Hd _]. apply N.eqb_eq in Hd. subst d.
  reflexivity.
Qed.

(** A run of digits and full stops in a text without a digit. *)
Lemma run_without_digit cls s run :
  (forall c, cls c = true -> is_digit c = true \/ c = 46%N) ->
  existsb is_digit s = false ->
  match_class_run cls s = Some run ->
  run <> [] /\ forallb (N.eqb 46) run = true.
Proof.
  intros Hcls Hs Hm. apply match_class_run_some in Hm. destruct Hm as [Hn [Hc Hin]].
  split; [exact Hn|]. apply forallb_forall. intros c Hc'.
  rewrite forallb_forall in Hc. destruct (Hcls c (Hc c Hc')) as [D| ->]; [|reflexivity].
  exfalso. assert (existsb is_digit s = true) as E
    by (apply existsb_exists; exists c; split; [exact (Hin c Hc') | exact D]).
  congruence.
Qed.

Lemma digit_or_dot_cases c : is_digit c || N.eqb c 46 = true -> is_digit c = true \/ c = 46%N.
Proof.
  intros H. apply orb_true_iff in H. destruct H as [H|H]; [left; exact H|].
  right. apply N.eqb_eq. exact H.
Qed.

Lemma existsb_trim_false cls s : existsb cls s = false -> existsb cls (trim s) = false.
Proof.
  intros H. destruct (existsb cls (trim s)) eqn:E; [|reflexivity].
  apply existsb_exists in E. destruct E as [c [Hc Hp]].
  assert (existsb cls s = true) as E'
    by (apply existsb_exists; exists c; split; [exact (In_trim c s Hc) | exact Hp]).
  congruence.
Qed.

Lemma existsb_remove_false cls rem s :
  existsb cls s = false -> existsb cls (remove_class rem s) = false.
Proof.
  intros H. destruct (existsb cls (remove_class rem s)) eqn:E; [|reflexivity].
  apply existsb_exists in E. destruct E as [c [Hc Hp]].
  unfold remove_class in Hc. apply filter_In in Hc.
  assert (existsb cls s = true) as E'
    by (apply existsb_exists; exists c; split; [exact (proj1 Hc) | exact Hp]).
  congruence.
Qed.

(** A rating read with [/[\d.]+/] and [parseFloat] from a text without a
    digit is null in the returned record. *)
Lemma rating_without_digit s :
  existsb is_digit s = false ->
  by_value (option_map parseFloat (match_class_run (fun c => is_digit c || N.eqb c 46) s))
  = None.
Proof.
  intros Hs.
  destruct (match_class_run (fun c => is_digit c || N.eqb c 46) s) as [run|] eqn:E;
    [|reflexivity].
  destruct (run_without_digit _ s run digit_or_dot_cases Hs E) as [_ Hd].
  cbn [option_map by_value]. rewrite (parseFloat_dots run Hd). reflexivity.
Qed.

(** A count read with [/\d+/] and [parseInt]. *)
Lemma count_of_first_digits s :
  (existsb is_digit s = false -> option_map parseInt (match_class_run is_digit s) = None)
  /\ (existsb is_digit s = true ->
      exists run,
        match_class_run is_digit s = Some run /\ run <> []
        /\ forallb is_digit run = true
        /\ option_map parseInt (match_class_run is_digit s)
           = Some (float_of_ratio (digits_value run) 1)).
Proof.
  split; intros H.
  - apply match_class_run_none in H. rewrite H. reflexivity.
  - destruct (match_class_run is_digit s) as [run|] eqn:E.
    + destruct (match_class_run_some _ _ _ E) as [Hn [Hd _]].
      exists run. repeat split; try assumption.
      cbn [option_map]. rewrite (parseInt_digits run Hd Hn). reflexivity.
    + apply match_class_run_none in E. congruence.
Qed.

(** X9.  Fields read with a pattern.  The rating on Flipkart and on
    Amazon, the review count on Amazon, the discount and the ratings count
    on Myntra are taken from the first run of characters of a class
    (digits, or digits and the full stop) in the text of their element.
    In the returned record such a field is null whenever the text has no
    digit: without a character of the class the pattern does not match,
    and a run of full stops alone is read as NaN, which does not leave the
    page.  When the text has a digit, the two counts read with [/\d+/] are
    the Number of the integer that the first run of digits writes, as it
    leaves the page. *)
Theorem X9_pattern_fields_null_without_match :
  (forall page text,
     Flipkart.ratingEl page = Some text ->
     existsb is_digit text = false ->
     Flipkart.rating (Flipkart.extractProductDetails page) = None)
  /\ (forall page text,
        Amazon.orElse (Amazon.ratingOutOfText page)
          (Amazon.orElse (Amazon.iconStarSpan page) (Amazon.iconAlt page)) = Some text ->
        existsb is_digit text = false ->
        Amazon.rating (Amazon.extractProductDetails page) = None)
  /\ (forall page text,
        Amazon.orElse (Amazon.acrCustomerReviewText page) (Amazon.totalReviewCount page)
        = Some text ->
        (existsb is_digit text = false ->
         Amazon.totalRatings (Amazon.extractProductDetails page) = None)
        /\ (existsb is_digit text = true ->
            exists run,
              match_class_run is_digit (remove_class Amazon.comma_or_space text)
              = Some run
              /\ run <> [] /\ forallb is_digit run = true
              /\ Amazon.totalRatings (Amazon.extractProductDetails page)
                 = json_number (float_of_ratio (digits_value run) 1)))
  /\ (forall page text,
        Myntra.discountEl page = Some text ->
        (existsb is_digit text = false ->
         Myntra.discount (Myntra.extractProductDetails page) = None)
        /\ (existsb is_digit text = true ->
            exists run,
              match_class_run is_digit text = Some run
              /\ run <> [] /\ forallb is_digit run = true
              /\ Myntra.discount (Myntra.extractProductDetails page)
                 = json_number (float_of_ratio (digits_value run) 1)))
  /\ (forall page text,
        Myntra.ratingsCountEl page = Some text ->
        existsb is_digit text = false ->
        Myntra.totalRatings (Myntra.extractProductDetails page) = None).
Proof.
  split; [|split; [|split; [|split]]].
  - intros page text Hel Hs.
    cbn [Flipkart.extractProductDetails Flipkart.returnByValue Flipkart.pageFunction
         Flipkart.rating].
    rewrite Hel. unfold Flipkart.extractRating.
    pose proof (rating_without_digit (trim text) (existsb_trim_false _ _ Hs)) as H.
    unfold Flipkart.is_digit_or_dot.
    destruct (match_class_run (fun c => is_digit c || N.eqb c 46) (trim text));
      exact H.
  - intros page text Hel Hs.
    cbn [Amazon.extractProductDetails Amazon.returnByValue Amazon.pageFunction
         Amazon.rating].
    unfold Amazon.extractRating. rewrite Hel.
    exact (rating_without_digit text Hs).
  - intros page text Hel.
    cbn [Amazon.extractProductDetails Amazon.returnByValue Amazon.pageFunction
         Amazon.totalRatings].
    unfold Amazon.extractTotalRatings. rewrite Hel.
    destruct (count_of_first_digits (remove_class Amazon.comma_or_space text))
      as [H0 H1].
    split; intros Hs.
    + rewrite (H0 (existsb_remove_false _ _ _ Hs)). reflexivity.
    + rewrite <- (existsb_remove_class is_digit Amazon.comma_or_space text
                    (class_without_digits Amazon.comma_or_space eq_refl)) in Hs.
      destruct (H1 Hs) as [run [Hm [Hn [Hd E]]]].
      exists run. rewrite E. repeat split; assumption.
  - intros page text Hel.
    cbn [Myntra.extractProductDetails Myntra.returnByValue Myntra.pageFunction
         Myntra.discount].
    rewrite Hel. unfold Myntra.extractDiscount.
    destruct (count_of_first_digits text) as [H0 H1].
    split; intros Hs.
    + rewrite (H0 Hs). reflexivity.
    + destruct (H1 Hs) as [run [Hm [Hn [Hd E]]]].
      exists run. rewrite E. repeat split; assumption.
  - intros page text Hel Hs.
    cbn [Myntra.extractProductDetails Myntra.returnByValue Myntra.pageFunction
         Myntra.totalRatings].
    rewrite Hel. unfold Myntra.extractTotalRatings.
    destruct (match_class_run Myntra.is_digit_or_dot
                (remove_class Myntra.count_class text)) as [count|] eqn:E;
      [|reflexivity].
    destruct (run_without_digit _ _ count digit_or_dot_cases
                (existsb_remove_false _ _ _ Hs) E) as [Hn Hd].
    rewrite (parseFloat_dots count Hd).
    destruct count as [|c count]; [congruence|].
    cbn [forallb] in Hd. apply andb_true_iff in Hd. destruct Hd as [Hc _].
    apply N.eqb_eq in Hc. subst c. reflexivity.
Qed.

(** ** The rating and review counts of Flipkart *)

Lemma match_count_eq label s :
  Flipkart.match_count label s =
  match Flipkart.count_here label s with
  | Some run => Some run
  | None => match s with [] => None | _ :: s' => Flipkart.match_count label s' end
  end.
Proof. destruct s; reflexivity. Qed.

Lemma drop_while_suffix p (s : jsstring) : exists pre, s = pre ++ drop_while p s.
Proof.
  induction s as [|c s [pre IH]]; simpl.
  - exists []. reflexivity.
  - destruct (p c); [exists (c :: pre); simpl; f_equal; exact IH | exists []; reflexivity].
Qed.

Lemma includes_eq p s :
  includes p s = startsWith p s || match s with [] => false | _ :: s' => includes p s' end.
Proof. destruct s; reflexivity. Qed.

Lemma includes_app_l p : forall pre s, includes p s = true -> includes p (pre ++ s) = true.
Proof.
  induction pre as [|c pre IH]; intros s H; [exact H|].
  change ((c :: pre) ++ s) with (c :: (pre ++ s)).
  rewrite includes_eq, (IH s H). apply orb_true_r.
Qed.

Lemma includes_app_r p : forall a r, includes p a = true -> includes p (a ++ r) = true.
Proof.
  induction a as [|c a IH]; intros r H.
  - rewrite includes_eq, orb_false_r in H.
    pose proof (startsWith_app p [] r H) as H'. simpl app in H' |- *.
    rewrite includes_eq, H'. reflexivity.
  - rewrite includes_eq in H. change ((c :: a) ++ r) with (c :: (a ++ r)).
    rewrite includes_eq. apply orb_true_iff in H. destruct H as [H|H].
    + pose proof (startsWith_app p (c :: a) r H) as H'. simpl app in H'.
      rewrite H'. reflexivity.
    + rewrite (IH r H). apply orb_true_r.
Qed.

Lemma startsWith_includes p s : startsWith p s = true -> includes p s = true.
Proof. intros H. rewrite includes_eq, H. reflexivity. Qed.

(** A count is found only where the label is. *)
Lemma match_count_label label : forall s g,
  Flipkart.match_count label s = Some g -> includes label s = true.
Proof.
  induction s as [|c s IH]; intros g H; rewrite match_count_eq in H.
  - unfold Flipkart.count_here in H. simpl in H. discriminate.
  - destruct (Flipkart.count_here label (c :: s)) as [run|] eqn:E.
    + unfold Flipkart.count_here in E.
      destruct (take_while Flipkart.is_digit_or_comma (c :: s)); [discriminate|].
      destruct (startsWith label
                  (drop_while is_space
                     (drop_while Flipkart.is_digit_or_comma (c :: s)))) eqn:S;
        [|discriminate].
      destruct (drop_while_suffix Flipkart.is_digit_or_comma (c :: s)) as [p1 H1].
      destruct (drop_while_suffix is_space
                  (drop_while Flipkart.is_digit_or_comma (c :: s))) as [p2 H2].
      rewrite H1, H2. apply includes_app_l, includes_app_l, startsWith_includes. exact S.
    + rewrite includes_eq, (IH g H). apply orb_true_r.
Qed.

Lemma take_while_app p (a : jsstring) c r :
  forallb p a = true -> p c = false -> take_while p (a ++ c :: r) = a.
Proof.
  intros Ha Hc. induction a as [|x a IH]; simpl.
  - rewrite Hc. reflexivity.
  - simpl in Ha. apply andb_true_iff in Ha. destruct Ha as [Hx Ha].
    rewrite Hx, (IH Ha). reflexivity.
Qed.

Lemma drop_while_app p (a : jsstring) c r :
  forallb p a = true -> p c = false -> drop_while p (a ++ c :: r) = c :: r.
Proof.
  intros Ha Hc. induction a as [|x a IH]; simpl.
  - rewrite Hc. reflexivity.
  - simpl in Ha. apply andb_true_iff in Ha. destruct Ha as [Hx Ha].
    rewrite Hx. exact (IH Ha).
Qed.

Lemma digit_or_comma_not_space c :
  Flipkart.is_digit_or_comma c = true -> is_space c = false.
Proof.
  intros H. apply orb_true_iff in H. destruct H as [H|H].
  - exact (digit_not_space c H).
  - apply N.eqb_eq in H. subst c. reflexivity.
Qed.

(** The run [a] is counted when " label" follows it. *)
Lemma count_here_run label a rest :
  forallb Flipkart.is_digit_or_comma a = true -> a <> [] ->
  Flipkart.count_here label (a ++ 32%N :: rest)
  = if startsWith label (drop_while is_space (32%N :: rest)) then Some a else None.
Proof.
  intros Ha Hn. unfold Flipkart.count_here.
  rewrite (take_while_app _ a 32 rest Ha eq_refl).
  rewrite (drop_while_app _ a 32 rest Ha eq_refl).
  destruct a; [congruence | reflexivity].
Qed.

(** Past a run that some other word follows. *)
Lemma match_count_skip_run label rest : forall a,
  forallb Flipkart.is_digit_or_comma a = true ->
  startsWith label (drop_while is_space (32%N :: rest)) = false ->
  Flipkart.match_count label (a ++ 32%N :: rest)
  = Flipkart.match_count label (32%N :: rest).
Proof.
  induction a as [|c a IH]; intros Ha Hs; [reflexivity|].
  pose proof Ha as Ha'. simpl in Ha'. apply andb_true_iff in Ha'.
  rewrite match_count_eq.
  rewrite (count_here_run label (c :: a) rest Ha) by discriminate.
  rewrite Hs. exact (IH (proj2 Ha') Hs).
Qed.

(** What [parseInt] reads in a run of digits and commas once the commas
    are dropped: the integer its digits write, or NaN without a digit. *)
Lemma count_without_commas (a : jsstring) :
  forallb Flipkart.is_digit_or_comma a = true ->
  parseInt (remove_class (N.eqb 44) a)
  = if existsb is_digit a
    then float_of_ratio (digits_value (filter is_digit a)) 1
    else nan.
Proof.
  intros Ha.
  assert (forallb (fun c => is_digit c || N.eqb 44 c) a = true) as Ha'.
  { rewrite forallb_forall in *. intros c Hc. specialize (Ha c Hc).
    unfold Flipkart.is_digit_or_comma in Ha. rewrite N.eqb_sym. exact Ha. }
  rewrite (remove_class_digits (N.eqb 44) a
             (class_without_digits (N.eqb 44) eq_refl) Ha').
  destruct (existsb is_digit a) eqn:E.
  - apply parseInt_digits;
      [apply forallb_filter | apply filter_digits_nonempty; exact E].
  - assert (filter is_digit a = []) as ->; [|reflexivity].
    clear -E. induction a as [|c a IH]; [reflexivity|]. simpl in E |- *.
    apply orb_false_iff in E. destruct E as [-> E]. exact (IH E).
Qed.

(** The two counts of a text of the shape "a Ratings & b Reviews", in the
    page. *)
Lemma Flipkart_counts_of_shape (a b : jsstring) :
  forallb Flipkart.is_digit_or_comma a = true -> a <> [] ->
  forallb Flipkart.is_digit_or_comma b = true -> b <> [] ->
  let text := a ++ lit " Ratings & " ++ b ++ lit " Reviews" in
  Flipkart.extractCount (lit "Ratings") (Some text)
  = Some (parseInt (remove_class (N.eqb 44) a))
  /\ Flipkart.extractCount (lit "Reviews") (Some text)
     = Some (parseInt (remove_class (N.eqb 44) b)).
Proof.
  intros Ha Hna Hb Hnb text.
  assert (trim text = text) as Ht.
  { apply trimmed_fixed. unfold Text.trimmed. apply andb_true_iff. split.
    - subst text. destruct a as [|c a]; [congruence|].
      simpl in Ha. apply andb_true_iff in Ha.
      simpl. rewrite (digit_or_comma_not_space c (proj1 Ha)). reflexivity.
    - subst text. rewrite !rev_app_distr. reflexivity. }
  unfold Flipkart.extractCount. rewrite Ht. subst text.
  split.
  + change (lit " Ratings & " ++ b ++ lit " Reviews")
      with (32%N :: (lit "Ratings & " ++ b ++ lit " Reviews")).
    rewrite match_count_eq, (count_here_run _ a _ Ha Hna). reflexivity.
  + change (lit " Ratings & " ++ b ++ lit " Reviews")
      with (32%N :: (lit "Ratings & " ++ b ++ lit " Reviews")).
    rewrite (match_count_skip_run _ _ a Ha) by reflexivity.
    change (32%N :: lit "Ratings & " ++ b ++ lit " Reviews")
      with (lit " Ratings & " ++ b ++ 32%N :: lit "Reviews").
    assert (Flipkart.match_count (lit "Reviews")
              (lit " Ratings & " ++ b ++ 32%N :: lit "Reviews")
            = Flipkart.match_count (lit "Reviews") (b ++ 32%N :: lit "Reviews")) as ->
      by reflexivity.
    rewrite match_count_eq, (count_here_run _ b _ Hb Hnb). reflexivity.
Qed.

(** X10.  The rating and review counts of Flipkart.  Each count is read
    from the first run of digits and commas that its label follows,
    'Ratings' or 'Reviews' spelt so.  A text without the label gives
    null.  A text of the shape "a Ratings & b Reviews" gives the two
    counts [a] and [b]: each is the Number of the integer that the digits
    of its run write, commas dropped, as it leaves the page, and null for a
    run of commas alone. *)
Theorem X10_flipkart_counts_follow_their_label :
  let count (run : jsstring) :=
    if existsb is_digit run
    then json_number (float_of_ratio (digits_value (filter is_digit run)) 1)
    else None in
  (forall page text,
     Flipkart.ratingsReviewsEl page = Some text ->
     (includes (lit "Ratings") text = false ->
      Flipkart.totalRatings (Flipkart.extractProductDetails page) = None)
     /\ (includes (lit "Reviews") text = false ->
         Flipkart.totalReviews (Flipkart.extractProductDetails page) = None))
  /\ (forall page a b,
        forallb Flipkart.is_digit_or_comma a = true -> a <> [] ->
        forallb Flipkart.is_digit_or_comma b = true -> b <> [] ->
        Flipkart.ratingsReviewsEl page
        = Some (a ++ lit " Ratings & " ++ b ++ lit " Reviews") ->
        Flipkart.totalRatings (Flipkart.extractProductDetails page) = count a
        /\ Flipkart.totalReviews (Flipkart.extractProductDetails page) = count b).
Proof.
  intros count. subst count. cbv beta.
  cbn [Flipkart.extractProductDetails Flipkart.returnByValue Flipkart.pageFunction
       Flipkart.totalRatings Flipkart.totalReviews].
  split.
  - intros page text ->.
    assert (forall label, includes label text = false ->
                          Flipkart.extractCount label (Some text) = None) as Hnone.
    { intros label H. unfold Flipkart.extractCount.
      destruct (Flipkart.match_count label (trim text)) as [g|] eqn:E; [|reflexivity].
      apply match_count_label in E.
      destruct (trim_split text) as [ws1 [ws2 [Ht _]]].
      rewrite Ht in H.
      rewrite (includes_app_l label ws1 _ (includes_app_r label _ ws2 E)) in H.
      discriminate. }
    split; intros H; rewrite (Hnone _ H); reflexivity.
  - intros page a b Ha Hna Hb Hnb ->.
    destruct (Flipkart_counts_of_shape a b Ha Hna Hb Hnb) as [-> ->].
    cbn [by_value].
    rewrite (count_without_commas a Ha), (count_without_commas b Hb).
    split; [destruct (existsb is_digit a) | destruct (existsb is_digit b)];
      reflexivity.
Qed.

(** ** Text fields *)

Lemma Flipkart_seller_trimmed el s :
  Flipkart.extractSeller el = Some s -> Text.trimmed s = true.
Proof.
  destruct el as [text|]; [|discriminate]. unfold Flipkart.extractSeller.
  destruct (take_while (fun c => negb (Flipkart.seller_stop c)) (trim text));
    intros H; inversion H; apply trimmed_trim.
Qed.

Lemma option_map_trim_trimmed el s :
  option_map trim el = Some s -> Text.trimmed s = true.
Proof. destruct el; intros H; inversion H. apply trimmed_trim. Qed.

Lemma title_trimmed (el : option jsstring) :
  Text.trimmed (match el with Some t => trim t | None => [] end) = true.
Proof. destruct el; [apply trimmed_trim | reflexivity]. Qed.

Lemma fold_pushSize l : forall acc,
  fold_left Myntra.pushSize l acc =
  acc ++ flat_map (fun b => match b with Some t => [trim t] | None => [] end) l.
Proof.
  induction l as [|b l IH]; intros acc; simpl.
  - rewrite app_nil_r. reflexivity.
  - rewrite IH. destruct b; simpl; [rewrite <- app_assoc|]; reflexivity.
Qed.

(** X11.  The text fields of the three records carry no white space at
    either end: title, seller and delivery on Flipkart; title, seller and
    availability on Amazon; brand, title, seller and every size on
    Myntra.  (Flipkart's availability is one of three literals.) *)
Theorem X11_text_fields_trimmed :
  (forall page,
     let d := Flipkart.extractProductDetails page in
     Text.trimmed (Flipkart.title d) = true
     /\ (forall s, Flipkart.seller d = Some s -> Text.trimmed s = true)
     /\ (forall s, Flipkart.delivery d = Some s -> Text.trimmed s = true)
     /\ (forall s, Flipkart.availability d = Some s -> Text.trimmed s = true))
  /\ (forall page,
        let d := Amazon.extractProductDetails page in
        Text.trimmed (Amazon.title d) = true
        /\ (forall s, Amazon.seller d = Some s -> Text.trimmed s = true)
        /\ (forall s, Amazon.availability d = Some s -> Text.trimmed s = true))
  /\ (forall page,
        let d := Myntra.extractProductDetails page in
        Text.trimmed (Myntra.brand d) = true
        /\ Text.trimmed (Myntra.title d) = true
        /\ (forall s, Myntra.seller d = Some s -> Text.trimmed s = true)
        /\ (forall s, In s (Myntra.sizes d) -> Text.trimmed s = true)).
Proof.
  split; [|split]; intros page d; subst d.
  - cbn [Flipkart.extractProductDetails Flipkart.returnByValue Flipkart.pageFunction
         Flipkart.title Flipkart.seller
           Flipkart.delivery Flipkart.availability].
    split; [apply title_trimmed|].
    split; [intros s; apply Flipkart_seller_trimmed|].
    split; [intros s; apply option_map_trim_trimmed|].
    intros s. unfold Flipkart.extractAvailability.
    destruct (Flipkart.availEl page) as [[text disabled]|].
    + destruct (includes (lit "Add to cart") text && disabled);
        intros H; inversion H; reflexivity.
    + destruct (Flipkart.cartBtn page); intros H; inversion H; reflexivity.
  - cbn [Amazon.extractProductDetails Amazon.returnByValue Amazon.pageFunction
         Amazon.title Amazon.seller Amazon.availability].
    split; [apply title_trimmed|].
    split; intros s; [unfold Amazon.extractSeller|]; apply option_map_trim_trimmed.
  - cbn [Myntra.extractProductDetails Myntra.returnByValue Myntra.pageFunction
         Myntra.brand Myntra.title Myntra.seller
           Myntra.sizes].
    split; [apply title_trimmed|]. split; [apply title_trimmed|].
    split; [intros s; apply option_map_trim_trimmed|].
    intros s. rewrite fold_pushSize. simpl. intros H.
    apply in_flat_map in H. destruct H as [b [_ Hb]].
    destruct b as [t|]; [|destruct Hb].
    destruct Hb as [<-|[]]. apply trimmed_trim.
Qed.


(** ** The seller of Flipkart *)

(** X12.  The seller on Flipkart.  The seller of the record has no white
    space at either end.  It holds no digit and none of the other
    characters the pattern stops at, unless the trimmed text of the
    element is empty or begins with such a character: then the pattern
    does not match and the whole trimmed text is the seller. *)
Theorem X12_flipkart_seller_without_rating :
  forall text s,
    Flipkart.extractSeller (Some text) = Some s ->
    Text.trimmed s = true
    /\ (forallb (fun c => negb (Flipkart.seller_stop c)) s = true
        \/ (s = trim text
            /\ match s with
               | [] => True
               | c :: _ => Flipkart.seller_stop c = true
               end)).
Proof.
  intros text s H. unfold Flipkart.extractSeller in H.
  destruct (take_while (fun c => negb (Flipkart.seller_stop c)) (trim text))
    as [|g0 g] eqn:E.
  - inversion H; subst s. split; [apply trimmed_trim|]. right. split; [reflexivity|].
    destruct (trim text) as [|c r]; [exact I|].
    simpl in E. destruct (Flipkart.seller_stop c); [reflexivity | discriminate].
  - inversion H; subst s. split; [apply trimmed_trim|]. left.
    assert (forall p (t : jsstring), forallb p (take_while p t) = true) as Htw.
    { intros p t. induction t as [|c t IH]; simpl; [reflexivity|].
      destruct (p c) eqn:Pc; simpl; [rewrite Pc; exact IH | reflexivity]. }
    pose proof (Htw (fun c => negb (Flipkart.seller_stop c)) (trim text)) as Hall.
    rewrite E in Hall.
    destruct (trim_split (g0 :: g)) as [ws1 [ws2 [Hs _]]].
    rewrite Hs in Hall. rewrite !forallb_app in Hall.
    apply andb_true_iff in Hall. destruct Hall as [_ Hall].
    apply andb_true_iff in Hall. exact (proj1 Hall).
Qed.

(** The seller element "RetailNet 4.1". *)
Lemma X12_flipkart_seller_without_rating_witness :
  Flipkart.extractSeller (Some (lit "RetailNet 4.1")) = Some (lit "RetailNet")
  /\ Text.trimmed (lit "RetailNet") = true.
Proof.
  split; [reflexivity|].
  exact (proj1 (X12_flipkart_seller_without_rating (lit "RetailNet 4.1")
                  (lit "RetailNet") eq_refl)).
Defined.

(** ** Offers *)

Lemma normalised_collapse_trim t :
  (10 <? List.length (collapse_spaces (trim t)))%nat = true ->
  Text.normalised (collapse_spaces (trim t)).
Proof.
  intros H. split; [apply Nat.ltb_lt; exact H|]. split.
  - apply trimmed_collapse, trimmed_trim.
  - apply single_spaced_collapse.
Qed.

Lemma Myntra_pushOffer_normalised acc el :
  Forall Text.normalised acc -> Forall Text.normalised (Myntra.pushOffer acc el).
Proof.
  intros H. unfold Myntra.pushOffer. destruct el as [t|]; [|exact H].
  destruct (truthy_str (Some (collapse_spaces (trim t)))); [|exact H]. simpl.
  destruct (10 <? List.length (collapse_spaces (trim t)))%nat eqn:E; [|exact H].
  apply Forall_snoc; [exact H | apply normalised_collapse_trim; exact E].
Qed.

Lemma Amazon_pushOffer_normalised acc el :
  Forall Text.normalised acc -> Forall Text.normalised (Amazon.pushOffer acc el).
Proof.
  intros H. unfold Amazon.pushOffer.
  destruct (truthy_str (Some (collapse_spaces (trim el)))); [|exact H]. simpl.
  destruct (10 <? List.length (collapse_spaces (trim el)))%nat eqn:E; [|exact H].
  apply Forall_snoc; [exact H | apply normalised_collapse_trim; exact E].
Qed.

Lemma Amazon_couponLoop_Forall (P : jsstring -> Prop) :
  (forall acc el, Forall P acc -> Forall P (Amazon.pushOffer acc el)) ->
  forall els i acc, Forall P acc -> Forall P (Amazon.couponLoop els i acc).
Proof.
  intros Hp. induction els as [|el els IH]; intros i acc H; cbn [Amazon.couponLoop]; [exact H|].
  destruct (i <? 3 - List.length acc)%nat; [|exact H].
  apply IH, Hp, H.
Qed.

(** A text in which "offer", "cashback" or "discount" is read has a
    character that is not white space. *)
Lemma lower_char_letter x y :
  In y (lower_char x) -> In y [111; 99; 100]%N -> is_space x = false.
Proof.
  unfold lower_char. intros Hy Hl.
  destruct (in_range 65 90 x) eqn:R.
  - unfold in_range in R. apply andb_true_iff in R. destruct R as [R1 R2].
    apply N.leb_le in R1, R2.
    assert (x = 79 \/ x = 67 \/ x = 68)%N as Hx.
    { destruct Hy as [Hy|[]]. simpl in Hl. lia. }
    destruct Hx as [->|[->| ->]]; reflexivity.
  - destruct (N.eqb x 8490) eqn:K.
    + destruct Hy as [Hy|[]]. subst y. simpl in Hl. lia.
    + destruct (N.eqb x 304) eqn:I.
      * simpl in Hy, Hl. lia.
      * destruct Hy as [Hy|[]]. subst y.
        destruct Hl as [<-|[<-|[<-|[]]]]; reflexivity.
Qed.

Lemma includes_letter m c s :
  In c [111; 99; 100]%N -> includes (c :: m) (toLowerCase s) = true ->
  exists x, In x s /\ is_space x = false.
Proof.
  intros Hc H. apply includes_head_In in H.
  unfold toLowerCase in H. apply in_flat_map in H. destruct H as [x [Hx Hy]].
  exists x. split; [exact Hx | exact (lower_char_letter x c Hy Hc)].
Qed.

Lemma trim_nonempty s x : In x s -> is_space x = false -> trim s <> [].
Proof.
  intros Hx Hs E.
  destruct (trim_split s) as [ws1 [ws2 [H [H1 H2]]]].
  rewrite E in H. simpl in H. subst s.
  rewrite forallb_forall in H1, H2.
  apply in_app_or in Hx. destruct Hx as [Hx|Hx];
    [apply H1 in Hx | apply H2 in Hx]; congruence.
Qed.

Lemma normalised_worded o : Text.normalised o -> Text.worded o.
Proof.
  intros [Hl [_ Hs]]. split; [|exact Hs]. destruct o; [simpl in Hl; lia | discriminate].
Qed.

Lemma Amazon_bankLoop_shape els : forall acc,
  Forall Text.worded acc -> Forall Text.worded (Amazon.bankLoop els acc).
Proof.
  induction els as [|elem els IH]; intros acc H; cbn [Amazon.bankLoop]; [exact H|].
  destruct (3 <=? List.length acc)%nat; [exact H|].
  destruct ((includes (lit "offer") (toLowerCase elem)
             || includes (lit "cashback") (toLowerCase elem)
             || includes (lit "discount") (toLowerCase elem))
            && (20 <? List.length elem)%nat) eqn:E; [|apply IH; exact H].
  apply IH. apply Forall_snoc; [exact H|].
  apply andb_true_iff in E. destruct E as [E _].
  assert (exists x, In x elem /\ is_space x = false) as [x [Hx Hs]].
  { apply orb_true_iff in E. destruct E as [E|E];
      [apply orb_true_iff in E; destruct E as [E|E]|];
      eapply includes_letter; try exact E; simpl; auto. }
  split.
  - unfold substring0.
    pose proof (collapse_spaces_nonempty _ (trim_nonempty _ _ Hx Hs)) as Hn.
    destruct (collapse_spaces (trim elem)); [congruence | discriminate].
  - unfold substring0. apply single_spaced_firstn, single_spaced_collapse.
Qed.

Lemma Amazon_bankLoop_cut els : forall acc,
  Forall (fun o : jsstring => (List.length o <= 200)%nat) acc ->
  Forall (fun o : jsstring => (List.length o <= 200)%nat) (Amazon.bankLoop els acc).
Proof.
  induction els as [|elem els IH]; intros acc H; cbn [Amazon.bankLoop]; [exact H|].
  destruct (3 <=? List.length acc)%nat; [exact H|].
  destruct ((includes (lit "offer") (toLowerCase elem)
             || includes (lit "cashback") (toLowerCase elem)
             || includes (lit "discount") (toLowerCase elem))
            && (20 <? List.length elem)%nat); [|apply IH; exact H].
  apply IH. apply Forall_snoc; [exact H|].
  unfold substring0. rewrite length_firstn. lia.
Qed.

Lemma Myntra_offers_normalised page :
  Forall Text.normalised (Myntra.offers (Myntra.extractProductDetails page)).
Proof.
  cbn [Myntra.extractProductDetails Myntra.returnByValue Myntra.pageFunction
       Myntra.offers]. unfold Myntra.extractOffers.
  apply Forall_firstn. apply fold_left_Forall; [|constructor].
  apply Myntra_pushOffer_normalised.
Qed.

Lemma Amazon_offers_before_bank page :
  let badges := Amazon.offerBadges page in
  let offers1 :=
    fold_left Amazon.pushOffer (firstn (Nat.min (List.length badges) 3) badges) [] in
  Forall Text.normalised
    (if (List.length offers1 <? 3)%nat
     then Amazon.couponLoop (Amazon.couponElements page) 0 offers1 else offers1).
Proof.
  intros badges offers1.
  assert (Forall Text.normalised offers1) as H1.
  { apply fold_left_Forall; [|constructor]. apply Amazon_pushOffer_normalised. }
  destruct (List.length offers1 <? 3)%nat; [|exact H1].
  apply Amazon_couponLoop_Forall; [apply Amazon_pushOffer_normalised | exact H1].
Qed.

Lemma Amazon_extractOffers_view page :
  exists offers2,
    Forall Text.normalised offers2
    /\ Amazon.extractOffers page =
       firstn 3 (if (List.length offers2 <? 3)%nat
                 then Amazon.bankLoop (Amazon.bankOffers page) offers2 else offers2).
Proof.
  unfold Amazon.extractOffers. cbv zeta.
  eexists. split; cycle 1.
  - reflexivity.
  - apply (Amazon_offers_before_bank page).
Qed.

(** X13.  Offers on Myntra and Amazon.  Every offer of a Myntra record is
    longer than ten code units, has no white space at either end and no
    white space inside but single spaces.  Every offer of an Amazon record
    is non-empty and single-spaced; when the page has no bank-offer
    sections it is longer than ten code units and trimmed as well; a bank
    offer is not measured after trimming but cut at 200 code units, so on a
    page without badges and coupons no offer is longer than that. *)
Theorem X13_offers_normalised :
  (forall page o,
     In o (Myntra.offers (Myntra.extractProductDetails page)) -> Text.normalised o)
  /\ (forall page o,
        In o (Amazon.offers (Amazon.extractProductDetails page)) ->
        Text.worded o
        /\ (Amazon.bankOffers page = [] -> Text.normalised o)
        /\ (Amazon.offerBadges page = [] -> Amazon.couponElements page = [] ->
            (List.length o <= 200)%nat)).
Proof.
  split.
  - intros page o Hin.
    exact (proj1 (Forall_forall _ _) (Myntra_offers_normalised page) o Hin).
  - intros page o Hin.
    cbn [Amazon.extractProductDetails Amazon.returnByValue Amazon.pageFunction
         Amazon.offers] in Hin.
    destruct (Amazon_extractOffers_view page) as [offers2 [H2 E]].
    split; [|split].
    3: { intros Hb Hc. unfold Amazon.extractOffers in Hin.
         rewrite Hb, Hc in Hin. cbn [List.length Nat.min] in Hin.
         change (firstn 0 (@nil jsstring)) with (@nil jsstring) in Hin.
         cbn [fold_left List.length Amazon.couponLoop] in Hin.
         change (0 <? 3)%nat with true in Hin. cbv iota in Hin.
         revert o Hin. apply Forall_forall. apply Forall_firstn.
         apply Amazon_bankLoop_cut. constructor. }
    all: rewrite E in Hin; clear E.
    + assert (Forall Text.worded
                (if (List.length offers2 <? 3)%nat
                 then Amazon.bankLoop (Amazon.bankOffers page) offers2 else offers2))
        as H3.
      { assert (Forall Text.worded offers2) as Hw
          by (eapply Forall_impl; [exact normalised_worded | exact H2]).
        destruct (List.length offers2 <? 3)%nat; [|exact Hw].
        apply Amazon_bankLoop_shape. exact Hw. }
      exact (proj1 (Forall_forall _ _) (Forall_firstn _ 3 _ H3) o Hin).
    + intros Hb. rewrite Hb in Hin. cbn [Amazon.bankLoop] in Hin.
      assert (Forall Text.normalised
                (if (List.length offers2 <? 3)%nat then offers2 else offers2)) as H3
        by (destruct (List.length offers2 <? 3)%nat; exact H2).
      exact (proj1 (Forall_forall _ _) (Forall_firstn _ 3 _ H3) o Hin).
Qed.
(** ** The terms suffix of Flipkart's offers *)

Lemma cut_terms_eq s :
  Flipkart.cut_terms s =
  if startsWith_ci (lit "T&C") s
     && forallb (fun c => negb (is_line_terminator c)) (skipn 3 s)
  then []
  else match s with
       | [] => []
       | c :: s' => c :: Flipkart.cut_terms s'
       end.
Proof. destruct s; reflexivity. Qed.

Lemma cut_terms_prefix s : exists r, s = Flipkart.cut_terms s ++ r.
Proof.
  induction s as [|c s [r IH]].
  - exists []. reflexivity.
  - rewrite cut_terms_eq.
    destruct (startsWith_ci (lit "T&C") (c :: s)
              && forallb (fun c => negb (is_line_terminator c)) (skipn 3 (c :: s))).
    + exists (c :: s). reflexivity.
    + exists r. simpl. f_equal. exact IH.
Qed.

Lemma startsWith_ci_app p : forall a r,
  startsWith_ci p a = true -> startsWith_ci p (a ++ r) = true.
Proof.
  induction p as [|c p IH]; intros [|d a] r H; simpl in *; try reflexivity;
    try discriminate.
  apply andb_true_iff in H. destruct H as [H1 H2].
  rewrite H1, (IH _ _ H2). reflexivity.
Qed.

Lemma includes_ci_eq p s :
  Text.includes_ci p s =
  startsWith_ci p s || match s with [] => false | _ :: s' => Text.includes_ci p s' end.
Proof. destruct s; reflexivity. Qed.

Lemma includes_ci_app_r p : forall a r,
  Text.includes_ci p a = true -> Text.includes_ci p (a ++ r) = true.
Proof.
  induction a as [|c a IH]; intros r H.
  - rewrite includes_ci_eq in H. rewrite orb_false_r in H.
    pose proof (startsWith_ci_app p [] r H) as H'. simpl app in H' |- *.
    rewrite includes_ci_eq, H'. reflexivity.
  - rewrite includes_ci_eq in H. change ((c :: a) ++ r) with (c :: (a ++ r)).
    rewrite includes_ci_eq.
    apply orb_true_iff in H. destruct H as [H|H].
    + pose proof (startsWith_ci_app p (c :: a) r H) as H'. simpl app in H'.
      rewrite H'. reflexivity.
    + rewrite (IH r H). apply orb_true_r.
Qed.

Lemma includes_ci_app_l p : forall a s,
  Text.includes_ci p s = true -> Text.includes_ci p (a ++ s) = true.
Proof.
  induction a as [|c a IH]; intros s H; [exact H|].
  change ((c :: a) ++ s) with (c :: (a ++ s)).
  rewrite includes_ci_eq, (IH s H). apply orb_true_r.
Qed.

(** A contiguous part of a text without the pattern has none either. *)
Lemma includes_ci_part p a s r :
  Text.includes_ci p (a ++ s ++ r) = false -> Text.includes_ci p s = false.
Proof.
  intros H. destruct (Text.includes_ci p s) eqn:E; [|reflexivity].
  rewrite (includes_ci_app_l p a _ (includes_ci_app_r p s r E)) in H. discriminate.
Qed.

Lemma single_spaced_no_line_terminator s :
  Text.single_spaced s = true ->
  forallb (fun c => negb (is_line_terminator c)) s = true.
Proof.
  induction s as [|c s IH]; [reflexivity|].
  cbn [Text.single_spaced forallb]. intros H.
  apply andb_true_iff in H. destruct H as [Hc Hs].
  rewrite (IH Hs), andb_true_r.
  destruct (is_line_terminator c) eqn:L; [|reflexivity].
  assert (is_space c = true) as Sp by (unfold is_space; rewrite L; apply orb_true_r).
  rewrite Sp in Hc. apply andb_true_iff in Hc. destruct Hc as [Hc _].
  apply N.eqb_eq in Hc. subst c. discriminate.
Qed.

Lemma forallb_skipn {A} (f : A -> bool) n : forall l,
  forallb f l = true -> forallb f (skipn n l) = true.
Proof.
  induction n as [|n IH]; intros [|a l] H; simpl; try exact H; try reflexivity.
  simpl in H. apply andb_true_iff in H. apply IH. exact (proj2 H).
Qed.

(** In a text without line terminators the cut leaves no "T&C" behind. *)
Lemma cut_terms_clean s :
  forallb (fun c => negb (is_line_terminator c)) s = true ->
  Text.includes_ci (lit "T&C") (Flipkart.cut_terms s) = false.
Proof.
  induction s as [|c s IH]; intros H; [reflexivity|].
  rewrite cut_terms_eq.
  rewrite (forallb_skipn _ 3 _ H), andb_true_r.
  destruct (startsWith_ci (lit "T&C") (c :: s)) eqn:E; [reflexivity|].
  rewrite includes_ci_eq.
  simpl in H. apply andb_true_iff in H. rewrite (IH (proj2 H)), orb_false_r.
  destruct (startsWith_ci (lit "T&C") (c :: Flipkart.cut_terms s)) eqn:E'; [|reflexivity].
  destruct (cut_terms_prefix s) as [r Hr].
  pose proof (startsWith_ci_app _ (c :: Flipkart.cut_terms s) r E') as E''.
  simpl app in E''. rewrite <- Hr in E''. congruence.
Qed.

Lemma Flipkart_clean_text el :
  Text.includes_ci (lit "T&C")
    (trim (Flipkart.cut_terms (collapse_spaces (trim el)))) = false.
Proof.
  destruct (trim_split (Flipkart.cut_terms (collapse_spaces (trim el))))
    as [ws1 [ws2 [H _]]].
  apply (includes_ci_part _ ws1 _ ws2). rewrite <- H.
  apply cut_terms_clean, single_spaced_no_line_terminator, single_spaced_collapse.
Qed.

(** X14.  Offers on Flipkart.  Every offer of a Flipkart record is
    non-empty, has no white space at either end, and contains no "T&C" in
    any letter case: the white space is collapsed first, so the text has
    no line break and the cut at the first "T&C" reaches the end. *)
Theorem X14_flipkart_offers_without_terms :
  forall page o,
    In o (Flipkart.offers (Flipkart.extractProductDetails page)) ->
    o <> [] /\ Text.trimmed o = true /\ Text.includes_ci (lit "T&C") o = false.
Proof.
  intros page o Hin.
  cbn [Flipkart.extractProductDetails Flipkart.returnByValue Flipkart.pageFunction
       Flipkart.offers] in Hin.
  unfold Flipkart.extractOffers in Hin.
  revert o Hin. apply Forall_forall. apply Forall_firstn.
  apply fold_left_Forall; [|constructor].
  intros acc el H. unfold Flipkart.pushOffer.
  destruct (truthy_str (Some (collapse_spaces (trim el)))
            && (10 <? List.length (collapse_spaces (trim el)))%nat); [|exact H].
  destruct (truthy_str
              (Some (trim (Flipkart.cut_terms (collapse_spaces (trim el))))))
    eqn:T; [|exact H].
  cbn [andb].
  destruct (negb (existsb
                    (str_eqb (trim (Flipkart.cut_terms (collapse_spaces (trim el)))))
                    acc)); [|exact H].
  apply Forall_snoc; [exact H|].
  split; [apply truthy_str_nonempty; exact T|].
  split; [apply trimmed_trim | apply Flipkart_clean_text].
Qed.

(** The first offer of the page of the scenario, which ends in "T&C" on
    the page. *)
Lemma X14_flipkart_offers_without_terms_witness :
  In (lit "Bank Offer 5% cashback on Axis Bank Card")
    (Flipkart.offers (Flipkart.extractProductDetails Samples.flipkart_shoes))
  /\ Text.includes_ci (lit "T&C") (lit "Bank Offer 5% cashback on Axis Bank Card")
     = false.
Proof.
  assert (In (lit "Bank Offer 5% cashback on Axis Bank Card")
            (Flipkart.offers (Flipkart.extractProductDetails Samples.flipkart_shoes)))
    as Hin by (left; reflexivity).
  split; [exact Hin|].
  exact (proj2 (proj2 (X14_flipkart_offers_without_terms Samples.flipkart_shoes _ Hin))).
Defined.


(** ** The coupon loop of Amazon *)

Lemma Amazon_pushOffer_length acc el :
  List.length (Amazon.pushOffer acc el) = List.length acc
  \/ List.length (Amazon.pushOffer acc el) = S (List.length acc).
Proof.
  unfold Amazon.pushOffer.
  destruct (truthy_str (Some (collapse_spaces (trim el)))
            && (10 <? List.length (collapse_spaces (trim el)))%nat).
  - right. rewrite length_app. simpl. lia.
  - left. reflexivity.
Qed.

(** The bound of the loop shrinks as offers are pushed while the index
    grows: from index [i] with [n] offers the list ends no longer than
    the larger of [n] and [(4 + n - i) / 2]. *)
Lemma Amazon_couponLoop_bound els : forall i acc,
  (2 * List.length (Amazon.couponLoop els i acc)
   <= Nat.max (2 * List.length acc) (4 + List.length acc - i))%nat.
Proof.
  induction els as [|el els IH]; intros i acc; cbn [Amazon.couponLoop]; [lia|].
  destruct (i <? 3 - List.length acc)%nat eqn:E; [|lia].
  apply Nat.ltb_lt in E.
  specialize (IH (S i) (Amazon.pushOffer acc el)).
  destruct (Amazon_pushOffer_length acc el) as [H|H]; rewrite H in IH; lia.
Qed.

(** X15.  The coupon loop of the Amazon extractor compares its index with
    [3 - offers.length], which it reads again at every turn.  On a page
    without promotion badges and without bank-offer sections the record
    therefore holds at most two offers, however many coupons the page
    shows. *)
Theorem X15_coupons_fill_two_slots (page : Amazon.ProductPage)
  (Hbadges : Amazon.offerBadges page = [])
  (Hbank : Amazon.bankOffers page = []) :
  (List.length (Amazon.offers (Amazon.extractProductDetails page)) <= 2)%nat.
Proof.
  cbn [Amazon.extractProductDetails Amazon.returnByValue Amazon.pageFunction
       Amazon.offers]. unfold Amazon.extractOffers.
  rewrite Hbadges, Hbank. cbn [List.length Nat.min firstn fold_left Nat.ltb Nat.leb].
  pose proof (Amazon_couponLoop_bound (Amazon.couponElements page) 0 []) as H.
  cbn [List.length] in H. cbn [Amazon.bankLoop].
  revert H. generalize (Amazon.couponLoop (Amazon.couponElements page) 0 []).
  intros [|a [|b [|c r]]] H; simpl in *; lia.
Qed.

(** A page with three coupons, each long enough: the first two are
    kept. *)
Lemma X15_coupons_fill_two_slots_witness :
  Amazon.offerBadges Cases.amazon_coupons = []
  /\ Amazon.bankOffers Cases.amazon_coupons = []
  /\ List.length (Amazon.couponElements Cases.amazon_coupons) = 3%nat
  /\ (List.length (Amazon.offers (Amazon.extractProductDetails Cases.amazon_coupons))
      <= 2)%nat
  /\ Amazon.offers (Amazon.extractProductDetails Cases.amazon_coupons)
     = [lit "Apply 5% coupon on this item"; lit "Save 10% with coupon FESTIVE"].
Proof.
  split; [reflexivity|]. split; [reflexivity|]. split; [reflexivity|].
  split; [|reflexivity].
  exact (X15_coupons_fill_two_slots Cases.amazon_coupons eq_refl eq_refl).
Defined.


(** ** The sizes of Myntra *)

(** X16.  Sizes on Myntra.  The sizes of the record are the trimmed
    labels of the size buttons that have one, in page order, one entry
    for each and without a cap; the envelope lists them, or the single
    text 'No sizes available' when there is none. *)
Theorem X16_myntra_sizes :
  forall (h : Host) page,
    let d := Myntra.extractProductDetails page in
    Myntra.sizes d
    = flat_map (fun label => match label with Some t => [trim t] | None => [] end)
        (Myntra.sizeButtons page)
    /\ Myntra.d_sizes (Myntra.formatOutput h d)
       = match Myntra.sizes d with
         | [] => [lit "No sizes available"]
         | _ :: _ => Myntra.sizes d
         end
    /\ Myntra.d_sizes (Myntra.formatOutput h d) <> [].
Proof.
  intros h page d. subst d.
  cbn [Myntra.extractProductDetails Myntra.returnByValue Myntra.pageFunction
       Myntra.sizes Myntra.formatOutput Myntra.d_sizes].
  rewrite fold_pushSize. simpl app.
  split; [reflexivity|].
  destruct (flat_map _ (Myntra.sizeButtons page)); simpl; split;
    try reflexivity; discriminate.
Qed.

(** ** The routes *)

Lemma Amazon_controller_returns h site name :
  exists trace env,
    run (Amazon.amazonProductScrapper h site name) (Amazon.oracle site)
    = (trace, Ok env).
Proof.
  rewrite Amazon_respond. destruct (Amazon.plan site name) as [calls r].
  destruct (settle _ _ _) as [trace env]. exists trace, env. reflexivity.
Qed.

Lemma Flipkart_controller_returns h site name :
  exists trace env,
    run (Flipkart.flipkartProductScrapper h site name) (Flipkart.oracle site)
    = (trace, Ok env).
Proof.
  rewrite Flipkart_respond. destruct (Flipkart.plan site name) as [calls r].
  destruct (settle _ _ _) as [trace env]. exists trace, env. reflexivity.
Qed.

Lemma Myntra_controller_returns h site name :
  exists trace env,
    run (Myntra.myntraProductScrapper h site name) (Myntra.oracle site)
    = (trace, Ok env).
Proof.
  rewrite Myntra_respond. destruct (Myntra.plan site name) as [calls r].
  destruct (settle _ _ _) as [trace env]. exists trace, env. reflexivity.
Qed.

(** The test [!productName || typeof productName !== "string"] fails on
    the non-empty strings only. *)
Lemma refused_unless_string v :
  negb (Http.truthy v) || negb (str_eqb (Http.typeof v) (lit "string")) = false
  <-> exists s, v = Http.JString s /\ s <> [].
Proof.
  split.
  - destruct v as [| |b|x|s|r|r]; try (destruct b); try discriminate;
      try (simpl; rewrite orb_true_r; discriminate).
    + simpl. intros H. exists s. split; [reflexivity|].
      destruct s; [discriminate | discriminate].
  - intros [s [-> Hs]]. destruct s; [congruence | reflexivity].
Qed.

(** A scrape route, run: refused, or the controller's calls and its
    envelope. *)
Lemma amazonScrape_run sv h site req o :
  run (Routes.amazonScrape sv h site req) o =
  let productName := Routes.productNameOf (Routes.bodyOrEmpty req) in
  if negb (Http.truthy productName)
     || negb (str_eqb (Http.typeof productName) (lit "string"))
  then ([], Ok {| Http.status := 400%Z;
                  Http.json := Routes.Required (lit "productName is required") |})
  else
    match run (Amazon.amazonProductScrapper h site (Http.toString sv productName)) o with
    | (t, Ok env) =>
        (t, Ok {| Http.status := 200%Z; Http.json := Routes.Result env |})
    | (t, Throw _) =>
        (t, Ok {| Http.status := 500%Z;
                  Http.json := Routes.Result (Failure (lit "Internal server error")) |})
    end.
Proof.
  unfold Routes.amazonScrape, run, try_catch. cbv zeta.
  destruct (negb (Http.truthy (Routes.productNameOf (Routes.bodyOrEmpty req)))
            || negb (str_eqb (Http.typeof (Routes.productNameOf (Routes.bodyOrEmpty req)))
                       (lit "string"))); [reflexivity|].
  unfold bind.
  destruct (Amazon.amazonProductScrapper h site _ o []) as [t [env|m]]; reflexivity.
Qed.

Lemma flipkartScrape_run sv h site req o :
  run (Routes.flipkartScrape sv h site req) o =
  let productName := Routes.productNameOf (Routes.bodyOrEmpty req) in
  if negb (Http.truthy productName)
     || negb (str_eqb (Http.typeof productName) (lit "string"))
  then ([], Ok {| Http.status := 400%Z;
                  Http.json := Routes.Required (lit "productName is required") |})
  else
    match run (Flipkart.flipkartProductScrapper h site (Http.toString sv productName)) o
    with
    | (t, Ok env) =>
        (t, Ok {| Http.status := 200%Z; Http.json := Routes.Result env |})
    | (t, Throw _) =>
        (t, Ok {| Http.status := 500%Z;
                  Http.json := Routes.Result (Failure (lit "Internal server error")) |})
    end.
Proof.
  unfold Routes.flipkartScrape, run, try_catch. cbv zeta.
  destruct (negb (Http.truthy (Routes.productNameOf (Routes.bodyOrEmpty req)))
            || negb (str_eqb (Http.typeof (Routes.productNameOf (Routes.bodyOrEmpty req)))
                       (lit "string"))); [reflexivity|].
  unfold bind.
  destruct (Flipkart.flipkartProductScrapper h site _ o []) as [t [env|m]]; reflexivity.
Qed.

(** X17.  The Amazon and the Flipkart route.  A request whose
    [productName] is anything but a non-empty string (no body, no such
    property, a number, the empty string, ...) is answered 400 with
    [{ error: "productName is required" }] and the browser is not
    touched.  A non-empty string is passed to the controller as it is, and
    the answer is status 200 with the envelope of the controller, also when
    that envelope reports a failure; the route never answers 500. *)
Theorem X17_scrape_routes_validate :
  forall (sv : Http.Server) (h : Host) (zs : Amazon.Site) (fs : Flipkart.Site)
         (req : Http.Request),
    let productName := Routes.productNameOf (Routes.bodyOrEmpty req) in
    ((forall s, productName = Http.JString s -> s = []) ->
     run (Routes.amazonScrape sv h zs req) (Amazon.oracle zs)
     = ([], Ok {| Http.status := 400%Z;
                  Http.json := Routes.Required (lit "productName is required") |})
     /\ run (Routes.flipkartScrape sv h fs req) (Flipkart.oracle fs)
        = ([], Ok {| Http.status := 400%Z;
                     Http.json := Routes.Required (lit "productName is required") |}))
    /\ (forall s,
          productName = Http.JString s -> s <> [] ->
          (exists trace env,
             run (Amazon.amazonProductScrapper h zs s) (Amazon.oracle zs)
             = (trace, Ok env)
             /\ run (Routes.amazonScrape sv h zs req) (Amazon.oracle zs)
                = (trace, Ok {| Http.status := 200%Z;
                                Http.json := Routes.Result env |}))
          /\ (exists trace env,
                run (Flipkart.flipkartProductScrapper h fs s) (Flipkart.oracle fs)
                = (trace, Ok env)
                /\ run (Routes.flipkartScrape sv h fs req) (Flipkart.oracle fs)
                   = (trace, Ok {| Http.status := 200%Z;
                                   Http.json := Routes.Result env |}))).
Proof.
  intros sv h zs fs req productName.
  rewrite amazonScrape_run, flipkartScrape_run. cbv zeta. fold productName.
  split.
  - intros Hs.
    destruct (negb (Http.truthy productName)
              || negb (str_eqb (Http.typeof productName) (lit "string"))) eqn:E;
      [split; reflexivity|].
    apply refused_unless_string in E. destruct E as [s [E Hn]].
    elim Hn. exact (Hs s E).
  - intros s Hv Hn.
    assert (negb (Http.truthy productName)
            || negb (str_eqb (Http.typeof productName) (lit "string")) = false) as ->
      by (apply refused_unless_string; exists s; split; assumption).
    rewrite Hv. cbn [Http.toString]. split.
    + destruct (Amazon_controller_returns h zs s) as [trace [env E]].
      exists trace, env. rewrite E. split; reflexivity.
    + destruct (Flipkart_controller_returns h fs s) as [trace [env E]].
      exists trace, env. rewrite E. split; reflexivity.
Qed.

Lemma myntraAnswer_run sv scraper required v o :
  Routes.myntraAnswer sv scraper required v o [] =
  if Http.truthy v then
    match Http.template sv v with
    | Ok _ =>
        match scraper v o [] with
        | (t, Ok env) =>
            (t, Ok {| Http.status := 200%Z; Http.json := Routes.MyntraResult env |})
        | (t, Throw m) => (t, Throw m)
        end
    | Throw m => ([], Throw m)
    end
  else ([], Ok {| Http.status := 400%Z;
                  Http.json := Routes.MyntraResult (Failure required) |}).
Proof.
  unfold Routes.myntraAnswer. destruct (Http.truthy v); [|reflexivity].
  cbn [negb]. unfold bind, settled.
  destruct (Http.template sv v) as [text|m]; [|reflexivity].
  destruct (scraper v o []) as [t [env|m]]; reflexivity.
Qed.

(** X18.  The Myntra routes test [productName] for truthiness only.  A
    falsy one (absent, null, '', 0, false) is answered 400 with a failure
    envelope, and the scraper is not called.  A truthy one is first
    written into the line the handler logs: when that conversion to a
    string throws (an object or an array without a primitive value), the
    answer is status 500 with [platform: 'Myntra'] and the message of the
    TypeError, and the scraper is not called.  Otherwise the value is
    handed to the scraper as it is, string or not: when the scraper
    fulfils, the answer is status 200 with its envelope, and when it
    rejects, status 500 with [platform: 'Myntra'] and the message.  A
    string is always converted, and for a string the scraper is the
    controller, which always fulfils, so the answer is 200 also when the
    scrape failed. *)
Theorem X18_myntra_routes_test_truthiness :
  forall (sv : Http.Server) (scraper : Http.value -> M (Envelope Myntra.Data))
         (o : Oracle) (req : Http.Request) (fields : Http.object),
    let failed (message : jsstring) :=
      {| Http.status := 500%Z;
         Http.json :=
           Routes.MyntraError (lit "Myntra") message
             (if Routes.development sv
              then Some (Http.stack sv message) else None) |} in
    let answers (productName : Http.value) (required : jsstring)
                (answer : list event * result (Http.Response Routes.MyntraReply)) :=
      (Http.truthy productName = false ->
       answer = ([], Ok {| Http.status := 400%Z;
                           Http.json := Routes.MyntraResult (Failure required) |}))
      /\ (forall message,
            Http.truthy productName = true ->
            Http.template sv productName = Throw message ->
            answer = ([], Ok (failed message)))
      /\ (forall text trace env,
            Http.truthy productName = true ->
            Http.template sv productName = Ok text ->
            run (scraper productName) o = (trace, Ok env) ->
            answer = (trace, Ok {| Http.status := 200%Z;
                                   Http.json := Routes.MyntraResult env |}))
      /\ (forall text trace message,
            Http.truthy productName = true ->
            Http.template sv productName = Ok text ->
            run (scraper productName) o = (trace, Throw message) ->
            answer = (trace, Ok (failed message))) in
    answers (Routes.productNameOf (Http.query req))
      (lit "Product name is required. Usage: /myntra-scrape?productName=YourProduct")
      (run (Routes.myntraScrapeGet sv scraper req) o)
    /\ (Http.body req = Some fields ->
        answers (Routes.productNameOf fields)
          (lit "Product name is required in request body")
          (run (Routes.myntraScrapePost sv scraper req) o))
    /\ (forall s, Http.template sv (Http.JString s) = Ok s)
    /\ (forall h site other s,
          exists trace env,
            run (Routes.myntraScraper h site other (Http.JString s)) (Myntra.oracle site)
            = (trace, Ok env)).
Proof.
  intros sv scraper o req fields failed answers. subst failed answers. cbv beta.
  split; [|split; [|split]].
  - unfold Routes.myntraScrapeGet, run, try_catch. rewrite myntraAnswer_run.
    split; [|split; [|split]].
    + intros ->. reflexivity.
    + intros message -> ->. reflexivity.
    + intros text trace env -> -> E. unfold run in E. rewrite E. reflexivity.
    + intros text trace message -> -> E. unfold run in E. rewrite E. reflexivity.
  - intros Hb. unfold Routes.myntraScrapePost, run, try_catch. rewrite Hb.
    rewrite myntraAnswer_run.
    split; [|split; [|split]].
    + intros ->. reflexivity.
    + intros message -> ->. reflexivity.
    + intros text trace env -> -> E. unfold run in E. rewrite E. reflexivity.
    + intros text trace message -> -> E. unfold run in E. rewrite E. reflexivity.
  - intros s. reflexivity.
  - intros h site other s. apply Myntra_controller_returns.
Qed.

(** X19.  A POST without a parsed body.  The Myntra route destructures
    [req.body] itself, so the TypeError is caught and the answer is status
    500 with [platform: 'Myntra'], the message of the TypeError, and its
    stack only when NODE_ENV is 'development'; the Amazon and the Flipkart
    route read [req.body || {}] and answer 400.  None of the three touches
    the browser. *)
Theorem X19_post_without_body :
  forall (sv : Http.Server) (h : Host) (scraper : Http.value -> M (Envelope Myntra.Data))
         (zs : Amazon.Site) (fs : Flipkart.Site) (o : Oracle) (query : Http.object),
    let req := {| Http.body := None; Http.query := query |} in
    run (Routes.myntraScrapePost sv scraper req) o
    = ([], Ok {| Http.status := 500%Z;
                 Http.json :=
                   Routes.MyntraError (lit "Myntra")
                     (Http.destructure_message sv (lit "productName"))
                     (match Http.NODE_ENV sv with
                      | Some e =>
                          if str_eqb e (lit "development")
                          then Some (Http.stack sv
                                       (Http.destructure_message sv (lit "productName")))
                          else None
                      | None => None
                      end) |})
    /\ run (Routes.amazonScrape sv h zs req) (Amazon.oracle zs)
       = ([], Ok {| Http.status := 400%Z;
                    Http.json := Routes.Required (lit "productName is required") |})
    /\ run (Routes.flipkartScrape sv h fs req) (Flipkart.oracle fs)
       = ([], Ok {| Http.status := 400%Z;
                    Http.json := Routes.Required (lit "productName is required") |}).
Proof.
  intros sv h scraper zs fs o query req. subst req.
  split; [|split]; try reflexivity.
  unfold Routes.myntraScrapePost, Routes.myntraCatch, Routes.development, run,
    try_catch, throw, ret. cbn [Http.body].
  destruct (Http.NODE_ENV sv) as [e|]; [destruct (str_eqb e (lit "development"))|];
    reflexivity.
Qed.


(** From the empty history a whole call makes no call, or only a rejected
    launch, or a launch and, last and once, the teardown. *)
Lemma settle_closed {D} o plan (c : result D) :
  (forall ev, In ev plan -> ev <> Close /\ ev <> Launch) ->
  fst (settle o plan c) = [Launch]
  \/ exists made,
       fst (settle o plan c) = Launch :: made ++ [Close]
       /\ ~ In Close made /\ ~ In Launch made.
Proof.
  intros Hplan. destruct (outcome o [] Launch) as [m|] eqn:HL.
  - left. unfold settle. rewrite HL. reflexivity.
  - right. exact (settle_one_teardown o plan c Hplan HL).
Qed.

Lemma Amazon_run_closed h site name :
  let t := fst (run (Amazon.amazonProductScrapper h site name) (Amazon.oracle site)) in
  t = [Launch]
  \/ exists made, t = Launch :: made ++ [Close] /\ ~ In Close made /\ ~ In Launch made.
Proof.
  cbv zeta. rewrite Amazon_respond.
  pose proof (Amazon_plan_no_teardown site name) as Hplan.
  destruct (Amazon.plan site name) as [calls r]. cbn [fst] in Hplan.
  pose proof (settle_closed (Amazon.oracle site) calls
                (map_result (Amazon.formatOutput h) r) Hplan) as H.
  destruct (settle _ calls _) as [trace env]. exact H.
Qed.

Lemma Flipkart_run_closed h site name :
  let t := fst (run (Flipkart.flipkartProductScrapper h site name)
                  (Flipkart.oracle site)) in
  t = [Launch]
  \/ exists made, t = Launch :: made ++ [Close] /\ ~ In Close made /\ ~ In Launch made.
Proof.
  cbv zeta. rewrite Flipkart_respond.
  pose proof (Flipkart_plan_no_teardown site name) as Hplan.
  destruct (Flipkart.plan site name) as [calls r]. cbn [fst] in Hplan.
  pose proof (settle_closed (Flipkart.oracle site) calls
                (map_result (Flipkart.formatOutput h) r) Hplan) as H.
  destruct (settle _ calls _) as [trace env]. exact H.
Qed.

Lemma Myntra_run_closed h site name :
  let t := fst (run (Myntra.myntraProductScrapper h site name) (Myntra.oracle site)) in
  t = [Launch]
  \/ exists made, t = Launch :: made ++ [Close] /\ ~ In Close made /\ ~ In Launch made.
Proof.
  cbv zeta. rewrite Myntra_respond.
  pose proof (Myntra_plan_no_teardown site name) as Hplan.
  destruct (Myntra.plan site name) as [calls r]. cbn [fst] in Hplan.
  pose proof (settle_closed (Myntra.oracle site) calls
                (map_result (Myntra.formatOutput h) r) Hplan) as H.
  destruct (settle _ calls _) as [trace env]. exact H.
Qed.

(** X20.  No request leaves a browser open.  Whatever the request and
    whatever the browser does, the calls made while a scrape route answers
    are none at all (the request was refused), or a launch that was
    rejected, or a launch followed by calls on the page and, last and
    once, [browser.close()]; on the Myntra routes this holds when
    [productName] is a string or absent. *)
Theorem X20_routes_leave_no_browser_open :
  forall (sv : Http.Server) (h : Host) (zs : Amazon.Site) (fs : Flipkart.Site)
         (ms : Myntra.Site) (other : Http.value -> M (Envelope Myntra.Data))
         (req : Http.Request),
    let closed (t : list event) :=
      t = [] \/ t = [Launch]
      \/ exists made,
           t = Launch :: made ++ [Close] /\ ~ In Close made /\ ~ In Launch made in
    closed (fst (run (Routes.amazonScrape sv h zs req) (Amazon.oracle zs)))
    /\ closed (fst (run (Routes.flipkartScrape sv h fs req) (Flipkart.oracle fs)))
    /\ (Routes.productNameOf (Http.query req) = Http.JUndefined
        \/ (exists s, Routes.productNameOf (Http.query req) = Http.JString s) ->
        closed (fst (run (Routes.myntraScrapeGet sv (Routes.myntraScraper h ms other) req)
                       (Myntra.oracle ms))))
    /\ (forall fields,
          Http.body req = Some fields ->
          Routes.productNameOf fields = Http.JUndefined
          \/ (exists s, Routes.productNameOf fields = Http.JString s) ->
          closed (fst (run (Routes.myntraScrapePost sv (Routes.myntraScraper h ms other)
                              req) (Myntra.oracle ms)))).
Proof.
  intros sv h zs fs ms other req closed. subst closed. cbv beta.
  split; [|split; [|split]].
  - rewrite amazonScrape_run. cbv zeta.
    destruct (negb (Http.truthy (Routes.productNameOf (Routes.bodyOrEmpty req)))
              || negb (str_eqb
                         (Http.typeof (Routes.productNameOf (Routes.bodyOrEmpty req)))
                         (lit "string"))) eqn:R; [left; reflexivity|].
    apply refused_unless_string in R. destruct R as [s [-> _]]. cbn [Http.toString].
    pose proof (Amazon_run_closed h zs s) as Hcl. cbv zeta in Hcl.
    destruct (Amazon_controller_returns h zs s) as [trace [env E]].
    rewrite E in Hcl |- *. right. exact Hcl.
  - rewrite flipkartScrape_run. cbv zeta.
    destruct (negb (Http.truthy (Routes.productNameOf (Routes.bodyOrEmpty req)))
              || negb (str_eqb
                         (Http.typeof (Routes.productNameOf (Routes.bodyOrEmpty req)))
                         (lit "string"))) eqn:R; [left; reflexivity|].
    apply refused_unless_string in R. destruct R as [s [-> _]]. cbn [Http.toString].
    pose proof (Flipkart_run_closed h fs s) as Hcl. cbv zeta in Hcl.
    destruct (Flipkart_controller_returns h fs s) as [trace [env E]].
    rewrite E in Hcl |- *. right. exact Hcl.
  - intros Hv. unfold Routes.myntraScrapeGet, run, try_catch.
    rewrite myntraAnswer_run.
    destruct Hv as [-> | [s ->]]; [left; reflexivity|].
    destruct s as [|c s]; [left; reflexivity|].
    cbn [Http.truthy truthy_str Http.template Http.toString Routes.myntraScraper].
    destruct (Myntra_controller_returns h ms (c :: s)) as [trace [env E]].
    pose proof (Myntra_run_closed h ms (c :: s)) as Hcl. cbv zeta in Hcl.
    unfold run in E, Hcl. rewrite E in Hcl |- *. right. exact Hcl.
  - intros fields Hb Hv. unfold Routes.myntraScrapePost, run, try_catch. rewrite Hb.
    rewrite myntraAnswer_run.
    destruct Hv as [-> | [s ->]]; [left; reflexivity|].
    destruct s as [|c s]; [left; reflexivity|].
    cbn [Http.truthy truthy_str Http.template Http.toString Routes.myntraScraper].
    destruct (Myntra_controller_returns h ms (c :: s)) as [trace [env E]].
    pose proof (Myntra_run_closed h ms (c :: s)) as Hcl. cbv zeta in Hcl.
    unfold run in E, Hcl. rewrite E in Hcl |- *. right. exact Hcl.
Qed.

(** ** The name unifier *)

(** X21.  [unifyname] checks the link before the key, and asks the model
    only when both are there.  With a body whose [link] is falsy the
    answer is 400 'Please provide a product link.', whether or not the
    key is configured; with a link and no key (unset or empty) it is 500
    'Missing GOOGLE_API_KEY in .env file'; without a parsed body it is 500
    'Internal server error'.  In none of these cases is a request made to
    the model, and in every case at most one is made. *)
Theorem X21_unifyname_checks_before_asking :
  forall (sv : Http.Server) (gemini : Unify.Gemini) (req : Http.Request),
    (forall fields,
       Http.body req = Some fields ->
       Http.truthy (Http.get (lit "link") fields) = false ->
       Unify.unifyname sv gemini req
       = ([], {| Http.status := 400%Z;
                 Http.json := Unify.Error (lit "Please provide a product link.") |}))
    /\ (forall fields,
          Http.body req = Some fields ->
          Http.truthy (Http.get (lit "link") fields) = true ->
          truthy_str (Http.GOOGLE_API_KEY sv) = false ->
          Unify.unifyname sv gemini req
          = ([], {| Http.status := 500%Z;
                    Http.json :=
                      Unify.Error (lit "Missing GOOGLE_API_KEY in .env file") |}))
    /\ (Http.body req = None ->
        Unify.unifyname sv gemini req
        = ([], {| Http.status := 500%Z;
                  Http.json :=
                    Unify.ErrorDetails (lit "Internal server error")
                      (Http.destructure_message sv (lit "link")) |}))
    /\ (List.length (fst (Unify.unifyname sv gemini req)) <= 1)%nat
    /\ (fst (Unify.unifyname sv gemini req) <> [] ->
        truthy_str (Http.GOOGLE_API_KEY sv) = true
        /\ exists fields,
             Http.body req = Some fields
             /\ Http.truthy (Http.get (lit "link") fields) = true).
Proof.
  intros sv gemini req. unfold Unify.unifyname.
  split; [|split; [|split; [|split]]].
  - intros fields -> ->. reflexivity.
  - intros fields -> -> Hk.
    destruct (Http.GOOGLE_API_KEY sv) as [[|c k]|]; try reflexivity. discriminate.
  - intros ->. reflexivity.
  - destruct (Http.body req) as [fields|]; [|simpl; lia].
    destruct (Http.truthy (Http.get (lit "link") fields)); [|simpl; lia].
    destruct (Http.GOOGLE_API_KEY sv) as [[|c k]|]; try (simpl; lia).
    destruct (Http.template sv (Http.get (lit "link") fields)); simpl; lia.
  - destruct (Http.body req) as [fields|]; [|intros H; elim H; reflexivity].
    destruct (Http.truthy (Http.get (lit "link") fields)) eqn:L;
      [|intros H; elim H; reflexivity].
    destruct (Http.GOOGLE_API_KEY sv) as [[|c k]|];
      try (intros H; elim H; reflexivity).
    intros _. split; [reflexivity|]. exists fields. split; [reflexivity | exact L].
Qed.

(** X22.  What [unifyname] asks and answers.  With a link and a key, the
    link is written into the prompt.  When that conversion to a string
    succeeds, as it always does for a string, one request goes to the model
    gemini-2.0-flash with that key; its text is the fixed prompt with the
    link's text inserted unchanged after 'Now process this link: '.  When
    the model answers, the reply is status 200 with the answer trimmed of
    white space at both ends; when the call or the reading of the answer
    fails, it is status 500 with 'Internal server error' and the message as
    details.  When the conversion throws (an object or an array without a
    primitive value), no request is made, and the reply is status 500 with
    'Internal server error' and the message of the TypeError. *)
Theorem X22_unifyname_answer
  (sv : Http.Server) (gemini : Unify.Gemini) (req : Http.Request)
  (fields : Http.object) (key : jsstring)
  (Hbody : Http.body req = Some fields)
  (Hlink : Http.truthy (Http.get (lit "link") fields) = true)
  (Hkey : Http.GOOGLE_API_KEY sv = Some key)
  (Hset : key <> []) :
  (forall linkText,
     Http.template sv (Http.get (lit "link") fields) = Ok linkText ->
     let request :=
       {| Unify.apiKey := key;
          Unify.model := lit "gemini-2.0-flash";
          Unify.text := Unify.promptBefore ++ linkText ++ Unify.promptAfter |} in
     fst (Unify.unifyname sv gemini req) = [request]
     /\ (forall answer,
           gemini request = Ok answer ->
           snd (Unify.unifyname sv gemini req)
           = {| Http.status := 200%Z; Http.json := Unify.Unified (trim answer) |}
           /\ Text.trimmed (trim answer) = true)
     /\ (forall message,
           gemini request = Throw message ->
           snd (Unify.unifyname sv gemini req)
           = {| Http.status := 500%Z;
                Http.json :=
                  Unify.ErrorDetails (lit "Internal server error") message |}))
  /\ (forall s,
        Http.get (lit "link") fields = Http.JString s ->
        Http.template sv (Http.get (lit "link") fields) = Ok s)
  /\ (forall message,
        Http.template sv (Http.get (lit "link") fields) = Throw message ->
        Unify.unifyname sv gemini req
        = ([], {| Http.status := 500%Z;
                  Http.json :=
                    Unify.ErrorDetails (lit "Internal server error") message |})).
Proof.
  unfold Unify.unifyname.
  rewrite Hbody, Hlink, Hkey. destruct key as [|c k]; [congruence|].
  cbn [negb].
  split; [|split].
  - intros linkText ->. cbv zeta. cbn [fst snd Unify.text].
    split; [reflexivity|].
    split.
    + intros answer ->. split; [reflexivity | apply trimmed_trim].
    + intros message ->. reflexivity.
  - intros s ->. reflexivity.
  - intros message ->. reflexivity.
Qed.

(** A request with a link, a server with a key, and a model that answers
    a name in white space. *)
Lemma X22_unifyname_answer_witness :
  Http.body (Cases.post Cases.linked) = Some Cases.linked
  /\ Http.truthy (Http.get (lit "link") Cases.linked) = true
  /\ Http.GOOGLE_API_KEY Cases.server = Some (lit "key-1")
  /\ snd (Unify.unifyname Cases.server Cases.gemini (Cases.post Cases.linked))
     = {| Http.status := 200%Z; Http.json := Unify.Unified (lit "Nike Air Max 90") |}.
Proof.
  split; [reflexivity|]. split; [reflexivity|]. split; [reflexivity|].
  assert (lit "key-1" <> []) as Hset by discriminate.
  pose proof (X22_unifyname_answer Cases.server Cases.gemini (Cases.post Cases.linked)
                Cases.linked (lit "key-1") eq_refl eq_refl eq_refl Hset) as [H _].
  specialize (H (lit "https://www.amazon.in/dp/B0OK") eq_refl).
  cbv zeta in H.
  exact (proj1 (proj1 (proj2 H) _ eq_refl)).
Defined.
